(** * GitFlow: the tiered batching and context-budgeting engine

    A shallow embedding of [analyze_repository_activity.py]: token
    estimation, diff normalisation, day grouping, the context builder, the
    batch packer, the three-tier strategy and the per-repository loop.

    Python values are modelled as follows.
    - [str] is [string]; a character is a code point below 256 and [len]
      counts characters.
    - [int] is [Z].
    - A dict read with [.get(key, default)] is a record of [option] fields
      ([None] = key absent).
    - [commit_diffs] (sha -> files) is a [gmap string (list FileChange)].
    - The [defaultdict(list)] of [group_commits_by_day] is an association
      list in insertion order, as Python dicts are.
    - The collaborators ([requests.get], [waveassist.call_llm],
      [waveassist.store_data], [datetime.fromisoformat]) are variables of a
      section; calls to the effectful ones thread a world and append to a
      trace, and may raise. *)

From Stdlib Require Import ZArith String Ascii List Lia Permutation Bool.
From stdpp Require Import base option list gmap strings sorting.

Open Scope Z_scope.

(** ** Python string primitives *)

Module Py.

Definition nl : string := String "010"%char EmptyString.

(** [len(s)] *)
Definition len (s : string) : Z := Z.of_nat (String.length s).

(** [s[:n]] for [n >= 0] *)
Fixpoint slice_to (n : nat) (s : string) : string :=
  match n, s with
  | O, _ => EmptyString
  | S _, EmptyString => EmptyString
  | S k, String c s' => String c (slice_to k s')
  end.

(** [c in s] for a one-character [c] *)
Fixpoint contains (c : ascii) (s : string) : bool :=
  match s with
  | EmptyString => false
  | String a s' => if Ascii.eqb a c then true else contains c s'
  end.

(** [s.split(c)] for a one-character separator: never the empty list. *)
Fixpoint split (c : ascii) (s : string) : list string :=
  match s with
  | EmptyString => [EmptyString]
  | String a s' =>
      if Ascii.eqb a c then EmptyString :: split c s'
      else match split c s' with
           | seg :: segs => String a seg :: segs
           | [] => [String a EmptyString]
           end
  end.

(** [l[-1]] on a list of strings that is not empty *)
Definition last_item (l : list string) : string := List.last l EmptyString.

(** [ch.lower()] on code points below 256: A-Z and the Latin-1 capitals
    (192-222 except the multiplication sign 215) move up by 32. *)
Definition lower_char (a : ascii) : ascii :=
  let n := N_of_ascii a in
  if ((65 <=? n) && (n <=? 90) ||
      (192 <=? n) && (n <=? 222) && negb (n =? 215))%N
  then ascii_of_N (n + 32) else a.

(** [s.lower()] *)
Fixpoint lower (s : string) : string :=
  match s with
  | EmptyString => EmptyString
  | String a s' => String (lower_char a) (lower s')
  end.

(** [s.replace(c, by)] for a one-character pattern *)
Fixpoint replace (c : ascii) (by_ : string) (s : string) : string :=
  match s with
  | EmptyString => EmptyString
  | String a s' =>
      if Ascii.eqb a c then by_ +:+ replace c by_ s'
      else String a (replace c by_ s')
  end.

(** [sep.join(parts)] *)
Fixpoint join (sep : string) (parts : list string) : string :=
  match parts with
  | [] => EmptyString
  | [p] => p
  | p :: rest => p +:+ sep +:+ join sep rest
  end.

(** [sorted(l, key=key)]: Python's sort is stable, and a stable sort has
    one result, the one of this insertion sort (an element goes after
    every element already placed whose key is not larger). *)
Fixpoint insert_by {A} (key : A → Z) (x : A) (l : list A) : list A :=
  match l with
  | [] => [x]
  | y :: l' => if key x <? key y then x :: y :: l'
               else y :: insert_by key x l'
  end.

Definition sorted_by {A} (key : A → Z) (l : list A) : list A :=
  fold_left (fun acc x => insert_by key x acc) l [].

(** [sorted(keys)] on strings: code-point lexicographic order. *)
Fixpoint insert_str (x : string) (l : list string) : list string :=
  match l with
  | [] => [x]
  | y :: l' => if String.ltb x y then x :: y :: l'
               else y :: insert_str x l'
  end.

Definition sorted (l : list string) : list string :=
  fold_left (fun acc x => insert_str x acc) l [].

(** [len(l)] on a list *)
Definition len_list {A} (l : list A) : Z := Z.of_nat (List.length l).

(** a string of [n] copies of one character, to build test inputs *)
Fixpoint replicate (n : nat) (c : ascii) : string :=
  match n with
  | O => EmptyString
  | S k => String c (replicate k c)
  end.

End Py.

(** ** Configuration constants *)

Definition TIER_1_THRESHOLD : Z := 100000.
Definition TIER_2_THRESHOLD : Z := 700000.
Definition CHARS_PER_TOKEN : Z := 3.
Definition MAX_FILE_DIFF_SIZE : Z := 90000.

Definition NON_CODE_EXTENSIONS : gset string :=
  list_to_set
    [ ".jpg"; ".jpeg"; ".png"; ".gif"; ".svg"; ".webp"; ".ico"; ".bmp"; ".tiff";
      ".mp4"; ".avi"; ".mov"; ".wmv"; ".flv"; ".webm";
      ".mp3"; ".wav"; ".ogg"; ".flac";
      ".zip"; ".tar"; ".gz"; ".rar"; ".7z"; ".exe"; ".dll"; ".so"; ".dylib";
      ".pdf"; ".doc"; ".docx"; ".xls"; ".xlsx"; ".ppt"; ".pptx";
      ".woff"; ".woff2"; ".ttf"; ".eot"; ".otf";
      ".lock" ]%string.

(** ** SizeEstimator and the extension filter *)

Definition is_non_code_file (filename : string) : bool :=
  let ext :=
    if Py.contains "."%char filename
    then ("." +:+ Py.lower (Py.last_item (Py.split "."%char filename)))%string
    else EmptyString in
  bool_decide (ext ∈ NON_CODE_EXTENSIONS).

Definition estimate_tokens (text : string) : Z :=
  Py.len text `div` CHARS_PER_TOKEN.

(** ** DiffNormalizer: the loop of [fetch_commit_diff] *)

(** One element of the [files] array of the GitHub commit response. *)
Record RawFile := {
  raw_filename : option string;
  raw_patch : option string;
  raw_status : option string;
  raw_additions : option Z;
  raw_deletions : option Z;
}.

(** One element of [processed_files]: every key is present. *)
Record FileChange := {
  filename : string;
  patch : string;
  status : string;
  additions : Z;
  deletions : Z;
}.

Definition TRUNCATED_DIFF_MARKER : string :=
  (Py.nl +:+ Py.nl +:+
   "[TRUNCATED: File diff exceeds size limit. The content above represents only the beginning of the changes. Analyze based on the visible portion.]")%string.

(** The body of [for f in files]: [None] is the [continue]. *)
Definition process_file (f : RawFile) : option FileChange :=
  let filename := default EmptyString (raw_filename f) in
  if is_non_code_file filename then None
  else
    let patch := default EmptyString (raw_patch f) in
    let patch :=
      if Py.len patch >? MAX_FILE_DIFF_SIZE
      then (Py.slice_to (Z.to_nat MAX_FILE_DIFF_SIZE) patch
              +:+ TRUNCATED_DIFF_MARKER)%string
      else patch in
    Some {| filename := filename;
            patch := patch;
            status := default "modified"%string (raw_status f);
            additions := default 0 (raw_additions f);
            deletions := default 0 (raw_deletions f) |}.

Fixpoint normalize_loop (files : list RawFile) (processed_files : list FileChange)
  : list FileChange :=
  match files with
  | [] => processed_files
  | f :: rest =>
      match process_file f with
      | None => normalize_loop rest processed_files
      | Some entry => normalize_loop rest (processed_files ++ [entry])
      end
  end.

Definition normalize (files : list RawFile) : list FileChange :=
  normalize_loop files [].

(** ** ContextBuilder *)

Record Commit := {
  sha : option string;
  message : option string;
  author : option string;
  timestamp : option string;
  url : option string;
}.

(** Truth value of a Python [str] and of a list. *)
Definition str_truthy (s : string) : bool := negb (String.eqb s EmptyString).
Definition list_truthy {A} (l : list A) : bool :=
  match l with [] => false | _ :: _ => true end.

(** Truth value of [token_budget : Optional[int]]: [None] and [0] are false. *)
Definition budget_truthy (token_budget : option Z) : bool :=
  match token_budget with
  | None => false
  | Some b => negb (b =? 0)
  end.

(** [token_budget and (used > token_budget)] *)
Definition over_budget (token_budget : option Z) (used : Z) : bool :=
  match token_budget with
  | None => false
  | Some b => negb (b =? 0) && (used >? b)
  end.

Definition COMMIT_SEPARATOR : string := (Py.nl +:+ "---" +:+ Py.nl)%string.

Definition BUDGET_NOTICE : string :=
  ("[TRUNCATED: File diff omitted due to token budget constraints. This file was modified, but the full diff is not included. Analyze based on existing context.]"
   +:+ Py.nl)%string.

Definition get_file_size (f : FileChange) : Z :=
  if str_truthy (patch f) then Py.len (patch f) else 0.

(** [for f in files]: [total_tokens] is read, never written, by this loop. *)
Fixpoint files_loop (token_budget : option Z) (total_tokens : Z)
    (files : list FileChange) (commit_text : string) : string :=
  match files with
  | [] => commit_text
  | f :: rest =>
      let file_text :=
        ("File: " +:+ filename f +:+ " (" +:+ status f +:+ ")" +:+ Py.nl)%string in
      let file_text :=
        if str_truthy (patch f)
        then (file_text +:+ "```" +:+ Py.nl +:+ patch f +:+ Py.nl
                +:+ "```" +:+ Py.nl)%string
        else file_text in
      let file_tokens := estimate_tokens file_text in
      let file_text :=
        if over_budget token_budget (total_tokens + file_tokens)
        then ("File: " +:+ filename f +:+ " (" +:+ status f +:+ ")" +:+ Py.nl
                +:+ BUDGET_NOTICE)%string
        else file_text in
      files_loop token_budget total_tokens rest (commit_text +:+ file_text)
  end.

(** The text composed for one commit, before the commit-level check. *)
Definition compose_commit_text (token_budget : option Z)
    (commit_diffs : gmap string (list FileChange)) (total_tokens : Z)
    (commit : Commit) : string :=
  let sha := default EmptyString (sha commit) in
  let message := default EmptyString (message commit) in
  let author := default "Unknown"%string (author commit) in
  let timestamp := default EmptyString (timestamp commit) in
  let commit_text :=
    ("Commit: " +:+ Py.slice_to 7 sha +:+ Py.nl
     +:+ "Author: " +:+ author +:+ Py.nl
     +:+ "Date: " +:+ timestamp +:+ Py.nl
     +:+ "Message: " +:+ message +:+ Py.nl)%string in
  match commit_diffs !! sha with
  | Some files =>
      let files :=
        if budget_truthy token_budget
        then Py.sorted_by get_file_size files else files in
      files_loop token_budget total_tokens files commit_text
  | None => commit_text
  end.

(** [for commit in commits]: returning [parts] early is the [break]. *)
Fixpoint build_loop (token_budget : option Z)
    (commit_diffs : gmap string (list FileChange))
    (commits : list Commit) (parts : list string) (total_tokens : Z)
  : list string :=
  match commits with
  | [] => parts
  | commit :: rest =>
      let commit_text :=
        compose_commit_text token_budget commit_diffs total_tokens commit in
      let commit_tokens := estimate_tokens commit_text in
      if over_budget token_budget (total_tokens + commit_tokens) then parts
      else build_loop token_budget commit_diffs rest
             (parts ++ [commit_text]) (total_tokens + commit_tokens)
  end.

Definition build_commit_context (commits : list Commit)
    (commit_diffs : gmap string (list FileChange))
    (token_budget : option Z) : string :=
  Py.join COMMIT_SEPARATOR (build_loop token_budget commit_diffs commits [] 0).

(** *** The blocks as the specification words them *)

Definition commit_header (c : Commit) : string :=
  ("Commit: " +:+ Py.slice_to 7 (default EmptyString (sha c)) +:+ Py.nl
   +:+ "Author: " +:+ default "Unknown"%string (author c) +:+ Py.nl
   +:+ "Date: " +:+ default EmptyString (timestamp c) +:+ Py.nl
   +:+ "Message: " +:+ default EmptyString (message c) +:+ Py.nl)%string.

Definition file_header (f : FileChange) : string :=
  ("File: " +:+ filename f +:+ " (" +:+ status f +:+ ")" +:+ Py.nl)%string.

(** filename, status, and the patch fenced as a literal block if non-empty *)
Definition full_file_block (f : FileChange) : string :=
  if str_truthy (patch f)
  then (file_header f +:+ "```" +:+ Py.nl +:+ patch f +:+ Py.nl
          +:+ "```" +:+ Py.nl)%string
  else file_header f.

Definition notice_file_block (f : FileChange) : string :=
  (file_header f +:+ BUDGET_NOTICE)%string.

Fixpoint concat_str (l : list string) : string :=
  match l with
  | [] => EmptyString
  | s :: rest => (s +:+ concat_str rest)%string
  end.

(** header, then every file of the commit in its original order, in full *)
Definition full_commit_block (commit_diffs : gmap string (list FileChange))
    (c : Commit) : string :=
  (commit_header c +:+
   match commit_diffs !! default EmptyString (sha c) with
   | Some files => concat_str (map full_file_block files)
   | None => EmptyString
   end)%string.

(** ** BatchPacker as the specification words it

    A pure single pass: flush when the running batch is non-empty and the
    next day would push the running size over the threshold; flush what
    remains at the end. *)

Definition DayEntry : Type := string * list Commit * Z.

Fixpoint pack_loop (threshold : Z) (days : list DayEntry)
    (current_batch : list Commit) (current_tokens : Z) : list (list Commit) :=
  match days with
  | [] => if list_truthy current_batch then [current_batch] else []
  | (_, day_commits, day_tokens) :: rest =>
      if list_truthy current_batch && (current_tokens + day_tokens >? threshold)
      then current_batch :: pack_loop threshold rest day_commits day_tokens
      else pack_loop threshold rest (current_batch ++ day_commits)
             (current_tokens + day_tokens)
  end.

Definition pack (days : list DayEntry) (threshold : Z) : list (list Commit) :=
  pack_loop threshold days [] 0.

(** ** Collaborator data *)

(** The JSON body of a GitHub commit response; [None] = no ["files"] key. *)
Record CommitData := { data_files : option (list RawFile) }.

(** A [requests] response; [json = None] when [response.json()] raises. *)
Record Response := {
  status_code : Z;
  json : option CommitData;
}.

Record Change := {
  summary : string;
  category : string;
  contributing_commits : list string;
}.

Record RepositoryAnalysis := { changes : list Change }.

(** The optional [repo_context] dict; it is false when it has no key. *)
Record RepoContext := {
  ctx_summary : option string;
  ctx_stack : option string;
  ctx_tags : option (list string);
}.

Definition ctx_truthy (c : RepoContext) : bool :=
  match ctx_summary c, ctx_stack c, ctx_tags c with
  | None, None, None => false
  | _, _, _ => true
  end.

(** One value of [github_activity_data]: a dict that may have a
    ["commits"] key, or some other JSON value. *)
Inductive ActivityData :=
| ActivityDict (commits : option (list Commit))
| ActivityOther.

(** The per-repository output. *)
Record Analysis := {
  repository : string;
  analysis_changes : list Change;
}.

Inductive exception :=
| KeyError (key : string)
| AttributeError (what : string)
| ZeroDivisionError
| CollaboratorError (what : string).

(** What the run does to the outside, in order. [Build] records a call of
    the context builder, which has no effect of its own. *)
Inductive Event :=
| HttpGet (url token : string)
| Build (commits : list Commit) (token_budget : option Z)
| Summarize (model prompt : string)
| Store (key : string) (analyses : list Analysis).

(** ** AnalyzeBatch prompt *)

Definition repo_context_section (repo_context : option RepoContext) : string :=
  match repo_context with
  | Some c =>
      if ctx_truthy c then
        (Py.nl +:+ "Repository Context:" +:+ Py.nl
         +:+ "- Summary: " +:+ default "N/A"%string (ctx_summary c) +:+ Py.nl
         +:+ "- Stack: " +:+ default "N/A"%string (ctx_stack c) +:+ Py.nl
         +:+ "---" +:+ Py.nl)%string
      else EmptyString
  | None => EmptyString
  end.

Definition build_prompt (repo_path context : string)
    (repo_context : option RepoContext) : string :=
  ("Analyze the following Git commits and code changes from repository "
   +:+ repo_path +:+ "." +:+ Py.nl
   +:+ Py.nl
   +:+ repo_context_section repo_context +:+ Py.nl
   +:+ Py.nl
   +:+ "Commits and Changes:" +:+ Py.nl
   +:+ context +:+ Py.nl
   +:+ Py.nl
   +:+ "---" +:+ Py.nl
   +:+ Py.nl
   +:+ "Your task:" +:+ Py.nl
   +:+ "1. Identify distinct changes/updates from these commits" +:+ Py.nl
   +:+ "2. Group related commits that contribute to the same logical change" +:+ Py.nl
   +:+ "3. Categorize each change as: feature, improvement, fix, refactor, docs, test, or chore" +:+ Py.nl
   +:+ "4. Write a clear, concise summary for each change (1-2 sentences)" +:+ Py.nl
   +:+ Py.nl
   +:+ "Guidelines:" +:+ Py.nl
   +:+ "- Focus on WHAT changed" +:+ Py.nl
   +:+ "- Combine small related commits into single logical changes" +:+ Py.nl
   +:+ "- Skip trivial changes (typo fixes, formatting) unless they're part of a larger change" +:+ Py.nl
   +:+ "- Include the commit SHAs that contributed to each change")%string.

(** ** The effectful engine *)

Section Engine.

(** The state of everything outside the program. *)
Variable World : Type.

(** [datetime.fromisoformat(s).strftime("%Y-%m-%d")]; [None] when
    [fromisoformat] raises. *)
Variable isoformat_day : string → option string.

(** [requests.get(url, headers=headers)] *)
Variable requests_get :
  string → string → World → World * (exception + Response).

(** [waveassist.call_llm(model, prompt, response_model, max_tokens,
    temperature)] *)
Variable call_llm :
  string → string → World → World * (exception + option RepositoryAnalysis).

(** [waveassist.store_data(key, value, data_type="json")] *)
Variable store_data :
  string → list Analysis → World → World * (exception + unit).

Record State := { world : World; trace : list Event }.

(** Computations that read and write the state and may raise. *)
Definition M (A : Type) : Type := State → State * (exception + A).

Definition ret {A} (a : A) : M A := fun st => (st, inr a).

Definition raise {A} (e : exception) : M A := fun st => (st, inl e).

Definition bind {A B} (m : M A) (k : A → M B) : M B :=
  fun st =>
    match m st with
    | (st', inr a) => k a st'
    | (st', inl e) => (st', inl e)
    end.

(** [try: m except Exception as e: handler(e)] *)
Definition try_except {A} (m : M A) (handler : exception → M A) : M A :=
  fun st =>
    match m st with
    | (st', inl e) => handler e st'
    | r => r
    end.

Definition log (ev : Event) : M unit :=
  fun st => ({| world := world st; trace := trace st ++ [ev] |}, inr tt).

(** A collaborator call: the event is recorded, then the world moves. *)
Definition call {A} (ev : Event) (f : World → World * (exception + A)) : M A :=
  fun st =>
    let (w, r) := f (world st) in
    ({| world := w; trace := trace st ++ [ev] |}, r).

Notation "x <- m ;; k" := (bind m (fun x => k))
  (at level 100, m at next level, right associativity).

(** *** DayGrouper *)

(** [by_day[key].append(commit)] on an insertion-ordered dict of lists *)
Fixpoint dict_append (by_day : list (string * list Commit))
    (key : string) (commit : Commit) : list (string * list Commit) :=
  match by_day with
  | [] => [(key, [commit])]
  | (k, bucket) :: rest =>
      if String.eqb k key then (k, bucket ++ [commit]) :: rest
      else (k, bucket) :: dict_append rest key commit
  end.

(** The key under which the loop body files one commit. *)
Definition day_key (commit : Commit) : string :=
  let timestamp := default EmptyString (timestamp commit) in
  if str_truthy timestamp then
    match isoformat_day (Py.replace "Z"%char "+00:00" timestamp) with
    | Some day => day
    | None => "unknown"%string
    end
  else "unknown"%string.

Definition group_commits_by_day (commits : list Commit)
  : list (string * list Commit) :=
  fold_left (fun by_day commit => dict_append by_day (day_key commit) commit)
    commits [].

(** [d[key]] *)
Fixpoint dict_get (d : list (string * list Commit)) (key : string)
  : exception + list Commit :=
  match d with
  | [] => inl (KeyError key)
  | (k, v) :: rest => if String.eqb k key then inr v else dict_get rest key
  end.

(** *** Calls *)

Definition build_commit_context_call (commits : list Commit)
    (commit_diffs : gmap string (list FileChange)) (token_budget : option Z)
  : M string :=
  _ <- log (Build commits token_budget) ;;
  ret (build_commit_context commits commit_diffs token_budget).

Definition analyze_batch (repo_path context : string)
    (repo_context : option RepoContext) (model_name : string)
  : M (option RepositoryAnalysis) :=
  let prompt := build_prompt repo_path context repo_context in
  call (Summarize model_name prompt) (call_llm model_name prompt).

(** [all_changes] is extended in place; here the extended list is
    returned. *)
Definition process_batch_and_extend (commits : list Commit)
    (commit_diffs : gmap string (list FileChange))
    (all_changes : list Change) (repo_path : string)
    (repo_context : option RepoContext) (model_name : string)
    (token_budget : option Z) : M (list Change) :=
  batch_context <- build_commit_context_call commits commit_diffs token_budget ;;
  result <- analyze_batch repo_path batch_context repo_context model_name ;;
  match result with
  | Some r => ret (all_changes ++ changes r)
  | None => ret all_changes
  end.

(** *** BatchPacker: [process_small_days_batch] *)

Fixpoint small_days_loop (small_days : list DayEntry)
    (commit_diffs : gmap string (list FileChange))
    (repo_path : string) (repo_context : option RepoContext)
    (model_name : string) (batch_threshold : Z)
    (current_batch : list Commit) (current_tokens : Z)
    (all_changes : list Change) : M (list Change) :=
  match small_days with
  | [] =>
      if list_truthy current_batch
      then process_batch_and_extend current_batch commit_diffs all_changes
             repo_path repo_context model_name None
      else ret all_changes
  | (_, day_commits, day_tokens) :: rest =>
      flushed <-
        (if list_truthy current_batch
            && (current_tokens + day_tokens >? batch_threshold)
         then
           all_changes' <- process_batch_and_extend current_batch commit_diffs
                            all_changes repo_path repo_context model_name None ;;
           ret ([], 0, all_changes')
         else ret (current_batch, current_tokens, all_changes)) ;;
      let '(current_batch, current_tokens, all_changes) := flushed in
      small_days_loop rest commit_diffs repo_path repo_context model_name
        batch_threshold (current_batch ++ day_commits)
        (current_tokens + day_tokens) all_changes
  end.

Definition process_small_days_batch (small_days : list DayEntry)
    (commit_diffs : gmap string (list FileChange))
    (all_changes : list Change) (repo_path : string)
    (repo_context : option RepoContext) (model_name : string)
    (batch_threshold : Z) : M (list Change) :=
  small_days_loop small_days commit_diffs repo_path repo_context model_name
    batch_threshold [] 0 all_changes.

(** *** Diff fetch *)

Definition fetch_commit_diff (repo_path sha headers : string)
  : M (list FileChange) :=
  let url :=
    ("https://api.github.com/repos/" +:+ repo_path +:+ "/commits/" +:+ sha)%string in
  response <- call (HttpGet url headers) (requests_get url headers) ;;
  if negb (status_code response =? 200) then ret []
  else
    match json response with
    | None => ret []
    | Some data => ret (normalize (default [] (data_files data)))
    end.

(** [for commit in commits] of the fetch phase *)
Fixpoint fetch_diffs_loop (repo_path headers : string)
    (commits : list Commit) (commit_diffs : gmap string (list FileChange))
  : M (gmap string (list FileChange)) :=
  match commits with
  | [] => ret commit_diffs
  | commit :: rest =>
      let sha := default EmptyString (sha commit) in
      if str_truthy sha then
        diffs <- fetch_commit_diff repo_path sha headers ;;
        fetch_diffs_loop repo_path headers rest
          (if list_truthy diffs then <[sha := diffs]> commit_diffs
           else commit_diffs)
      else fetch_diffs_loop repo_path headers rest commit_diffs
  end.

(** *** TierStrategy *)

Definition dict_keys (d : list (string * list Commit)) : list string :=
  map fst d.

(** [for day in sorted_days] of Tier 2 *)
Fixpoint day_data_loop (sorted_days : list string)
    (commits_by_day : list (string * list Commit))
    (commit_diffs : gmap string (list FileChange))
    (day_data : list DayEntry) : M (list DayEntry) :=
  match sorted_days with
  | [] => ret day_data
  | day :: rest =>
      match dict_get commits_by_day day with
      | inl e => raise e
      | inr day_commits =>
          day_context <- build_commit_context_call day_commits commit_diffs None ;;
          let day_tokens := estimate_tokens day_context in
          day_data_loop rest commits_by_day commit_diffs
            (day_data ++ [(day, day_commits, day_tokens)])
      end
  end.

Definition tier_2 (commits : list Commit)
    (commit_diffs : gmap string (list FileChange))
    (all_changes : list Change) (repo_path : string)
    (repo_context : option RepoContext) (model_name : string)
  : M (list Change) :=
  let commits_by_day := group_commits_by_day commits in
  let sorted_days := Py.sorted (dict_keys commits_by_day) in
  day_data <- day_data_loop sorted_days commits_by_day commit_diffs [] ;;
  process_small_days_batch day_data commit_diffs all_changes
    repo_path repo_context model_name 90000.

(** [for day in sorted_days] of Tier 3: large and small days *)
Fixpoint classify_days_loop (sorted_days : list string)
    (commits_by_day : list (string * list Commit))
    (commit_diffs : gmap string (list FileChange))
    (large_days small_days : list DayEntry)
  : M (list DayEntry * list DayEntry) :=
  match sorted_days with
  | [] => ret (large_days, small_days)
  | day :: rest =>
      match dict_get commits_by_day day with
      | inl e => raise e
      | inr day_commits =>
          day_context <- build_commit_context_call day_commits commit_diffs None ;;
          let day_tokens := estimate_tokens day_context in
          if day_tokens >? TIER_1_THRESHOLD
          then classify_days_loop rest commits_by_day commit_diffs
                 (large_days ++ [(day, day_commits, day_tokens)]) small_days
          else classify_days_loop rest commits_by_day commit_diffs
                 large_days (small_days ++ [(day, day_commits, day_tokens)])
      end
  end.

(** [for day, day_commits, day_tokens in large_days] *)
Fixpoint large_days_loop (large_days : list DayEntry)
    (commit_diffs : gmap string (list FileChange))
    (all_changes : list Change) (repo_path : string)
    (repo_context : option RepoContext) (model_name : string)
  : M (list Change) :=
  match large_days with
  | [] => ret all_changes
  | (_, day_commits, day_tokens) :: rest =>
      if day_tokens >? TIER_1_THRESHOLD then
        if Py.len_list day_commits =? 0 then raise ZeroDivisionError
        else
          let budget_per_commit :=
            TIER_1_THRESHOLD `div` Py.len_list day_commits in
          all_changes' <- process_batch_and_extend day_commits commit_diffs
                            all_changes repo_path repo_context model_name
                            (Some budget_per_commit) ;;
          large_days_loop rest commit_diffs all_changes'
            repo_path repo_context model_name
      else large_days_loop rest commit_diffs all_changes
             repo_path repo_context model_name
  end.

Definition tier_3 (commits : list Commit)
    (commit_diffs : gmap string (list FileChange))
    (all_changes : list Change) (repo_path : string)
    (repo_context : option RepoContext) (model_name : string)
  : M (list Change) :=
  let commits_by_day := group_commits_by_day commits in
  let sorted_days := Py.sorted (dict_keys commits_by_day) in
  days <- classify_days_loop sorted_days commits_by_day commit_diffs [] [] ;;
  let '(large_days, small_days) := days in
  all_changes' <- large_days_loop large_days commit_diffs all_changes
                    repo_path repo_context model_name ;;
  process_small_days_batch small_days commit_diffs all_changes'
    repo_path repo_context model_name 90000.

(** Sizing and tier selection: from "Calculate total tokens" to the end
    of the three branches. *)
Definition select_tier (commits : list Commit)
    (commit_diffs : gmap string (list FileChange)) (repo_path : string)
    (repo_context : option RepoContext) (model_name : string)
  : M (list Change) :=
  full_context <- build_commit_context_call commits commit_diffs None ;;
  let total_tokens := estimate_tokens full_context in
  let all_changes := [] in
  if total_tokens <? TIER_1_THRESHOLD then
    process_batch_and_extend commits commit_diffs all_changes
      repo_path repo_context model_name None
  else if total_tokens <? TIER_2_THRESHOLD then
    tier_2 commits commit_diffs all_changes repo_path repo_context model_name
  else
    tier_3 commits commit_diffs all_changes repo_path repo_context model_name.

(** [activity_data.get("commits", [])] *)
Definition get_commits (activity_data : ActivityData) : M (list Commit) :=
  match activity_data with
  | ActivityDict commits => ret (default [] commits)
  | ActivityOther => raise (AttributeError "get")
  end.

Definition process_repository (repo_path : string)
    (activity_data : ActivityData) (repo_context : option RepoContext)
    (headers model_name : string) : M Analysis :=
  commits <- get_commits activity_data ;;
  if negb (list_truthy commits) then
    ret {| repository := repo_path; analysis_changes := [] |}
  else
    commit_diffs <- fetch_diffs_loop repo_path headers commits ∅ ;;
    all_changes <- select_tier commits commit_diffs repo_path
                     repo_context model_name ;;
    ret {| repository := repo_path; analysis_changes := all_changes |}.

(** *** The repository loop of the script *)

Fixpoint main_loop (items : list (string * ActivityData))
    (repository_contexts : gmap string RepoContext)
    (headers model_name : string)
    (repository_analyses : list Analysis) : M (list Analysis) :=
  match items with
  | [] => ret repository_analyses
  | (repo_path, activity_data) :: rest =>
      repository_analyses' <-
        try_except
          (let repo_context := repository_contexts !! repo_path in
           analysis <- process_repository repo_path activity_data
                         repo_context headers model_name ;;
           ret (repository_analyses ++ [analysis]))
          (fun e =>
             ret (repository_analyses ++
                    [{| repository := repo_path; analysis_changes := [] |}])) ;;
      _ <- call (Store "repository_analyses" repository_analyses')
             (store_data "repository_analyses" repository_analyses') ;;
      main_loop rest repository_contexts headers model_name
        repository_analyses'
  end.

End Engine.

Arguments world {World} _.
Arguments trace {World} _.
Arguments ret {World A} _ _.
Arguments raise {World A} _ _.
Arguments bind {World A B} _ _ _.
Arguments try_except {World A} _ _ _.
Arguments log {World} _ _.
Arguments call {World A} _ _ _.
Arguments build_commit_context_call {World} _ _ _ _.
Arguments analyze_batch {World} _ _ _ _ _ _.
Arguments process_batch_and_extend {World} _ _ _ _ _ _ _ _ _.
Arguments small_days_loop {World} _ _ _ _ _ _ _ _ _ _ _.
Arguments process_small_days_batch {World} _ _ _ _ _ _ _ _ _.
Arguments fetch_commit_diff {World} _ _ _ _ _.
Arguments fetch_diffs_loop {World} _ _ _ _ _ _.
Arguments day_data_loop {World} _ _ _ _ _.
Arguments classify_days_loop {World} _ _ _ _ _ _.
Arguments large_days_loop {World} _ _ _ _ _ _ _ _.
Arguments tier_2 {World} _ _ _ _ _ _ _ _ _.
Arguments tier_3 {World} _ _ _ _ _ _ _ _ _.
Arguments select_tier {World} _ _ _ _ _ _ _ _.
Arguments get_commits {World} _ _.
Arguments process_repository {World} _ _ _ _ _ _ _ _ _.
Arguments main_loop {World} _ _ _ _ _ _ _ _ _ _.

(** ** The specification's vocabulary *)

(** [ext] is the text after the final ['.'] of [name]. *)
Definition final_extension (name ext : string) : Prop :=
  ∃ stem, name = (stem +:+ "." +:+ ext)%string ∧ Py.contains "."%char ext = false.

(** The lower-cased final extension of [name] is in the non-code set. *)
Definition non_code_name (name : string) : Prop :=
  ∃ ext, final_extension name ext
         ∧ ("." +:+ Py.lower ext)%string ∈ NON_CODE_EXTENSIONS.

Definition raw_name (f : RawFile) : string := default EmptyString (raw_filename f).
Definition raw_patch_text (f : RawFile) : string := default EmptyString (raw_patch f).

(** A file block under a budget, decided from the total of the commits
    already appended and this file's own block. *)
Definition budgeted_file_block (budget total_tokens : Z) (f : FileChange) : string :=
  if total_tokens + estimate_tokens (full_file_block f) >? budget
  then notice_file_block f else full_file_block f.

(** The commits of [commits] that fall on [day], in input order. *)
Definition day_bucket (isoformat_day : string → option string)
    (commits : list Commit) (day : string) : list Commit :=
  filter (λ c, day_key isoformat_day c = day) commits.

(** A day with its bucket and the bucket's own estimated size. *)
Definition day_entry (isoformat_day : string → option string)
    (commits : list Commit) (commit_diffs : gmap string (list FileChange))
    (day : string) : DayEntry :=
  let bucket := day_bucket isoformat_day commits day in
  (day, bucket, estimate_tokens (build_commit_context bucket commit_diffs None)).

(** The day buckets sorted by day key, each with its own estimated size. *)
Definition day_entries (isoformat_day : string → option string)
    (commits : list Commit) (commit_diffs : gmap string (list FileChange))
  : list DayEntry :=
  map (day_entry isoformat_day commits commit_diffs)
    (Py.sorted (dict_keys (group_commits_by_day isoformat_day commits))).

Definition is_large (e : DayEntry) : bool := snd e >? TIER_1_THRESHOLD.

(** What one summarised batch leaves in the trace: the build of its
    context, then one Summarizer call on the prompt around that context. *)
Definition batch_events (commit_diffs : gmap string (list FileChange))
    (repo_path : string) (repo_context : option RepoContext)
    (model_name : string) (commits : list Commit) (token_budget : option Z)
  : list Event :=
  [ Build commits token_budget;
    Summarize model_name
      (build_prompt repo_path
         (build_commit_context commits commit_diffs token_budget)
         repo_context) ].

(** The sizing build of each day. *)
Definition sizing_events (days : list DayEntry) : list Event :=
  map (λ e : DayEntry, Build (snd (fst e)) None) days.

(** The compressed pass over a large day. *)
Definition large_day_events (commit_diffs : gmap string (list FileChange))
    (repo_path : string) (repo_context : option RepoContext)
    (model_name : string) (e : DayEntry) : list Event :=
  batch_events commit_diffs repo_path repo_context model_name (snd (fst e))
    (Some (TIER_1_THRESHOLD `div` Py.len_list (snd (fst e)))).

(** The prompts of the Summarizer calls of a trace, in order. *)
Definition summarizer_prompts (evs : list Event) : list string :=
  omap (λ ev, match ev with Summarize _ prompt => Some prompt | _ => None end) evs.

(** The builder calls of a trace, in order. *)
Definition builder_calls (evs : list Event) : list (list Commit * option Z) :=
  omap (λ ev, match ev with Build cs b => Some (cs, b) | _ => None end) evs.

(** The builder calls made under a budget, in order. *)
Definition budgeted_builds (evs : list Event) : list (list Commit * Z) :=
  omap (λ ev, match ev with Build cs (Some b) => Some (cs, b) | _ => None end) evs.

(** A Summarizer whose answer depends on the prompt alone. *)
Definition summarizer_answers {World}
    (call_llm : string → string → World
                → World * (exception + option RepositoryAnalysis))
    (respond : string → option RepositoryAnalysis) : Prop :=
  ∀ model prompt w, call_llm model prompt w = (w, inr (respond prompt)).

(** A collaborator that always returns. *)
Definition summarizer_returns {World}
    (call_llm : string → string → World
                → World * (exception + option RepositoryAnalysis)) : Prop :=
  ∀ model prompt w, ∃ w' r, call_llm model prompt w = (w', inr r).

Definition store_returns {World}
    (store_data : string → list Analysis → World → World * (exception + unit))
  : Prop :=
  ∀ key value w, ∃ w', store_data key value w = (w', inr tt).

(** [m], started in [st], returns [a] in state [st'], having appended the
    events [evs] to the trace. *)
Definition yields {World A} (m : M World A) (st : State World)
    (evs : list Event) (st' : State World) (a : A) : Prop :=
  m st = (st', inr a) ∧ trace st' = trace st ++ evs.

(** Summarise the batches one after the other. *)
Fixpoint run_batches {World}
    (call_llm : string → string → World
                → World * (exception + option RepositoryAnalysis))
    (batches : list (list Commit))
    (commit_diffs : gmap string (list FileChange))
    (all_changes : list Change) (repo_path : string)
    (repo_context : option RepoContext) (model_name : string)
  : M World (list Change) :=
  match batches with
  | [] => ret all_changes
  | b :: rest =>
      bind (process_batch_and_extend call_llm b commit_diffs all_changes
              repo_path repo_context model_name None)
        (λ all_changes',
           run_batches call_llm rest commit_diffs all_changes'
             repo_path repo_context model_name)
  end.

Definition empty_result (repo_path : string) : Analysis :=
  {| repository := repo_path; analysis_changes := [] |}.

(** The repository loop as the specification words it: every repository,
    in input order, contributes either its own analysis or, when its
    processing raised, the empty result; the list is stored after each. *)
Inductive loop_run {World}
    (process : string → ActivityData → M World Analysis)
    (store : list Analysis → World → World * (exception + unit))
  : list (string * ActivityData) → list Analysis → State World
    → list Analysis → State World → Prop :=
| loop_done acc st : loop_run process store [] acc st acc st
| loop_step repo_path activity_data rest acc st st1 outcome contribution
      w2 final st' :
    process repo_path activity_data st = (st1, outcome) →
    contribution = match outcome with
                   | inr analysis => analysis
                   | inl _ => empty_result repo_path
                   end →
    store (acc ++ [contribution]) (world st1) = (w2, inr tt) →
    loop_run process store rest (acc ++ [contribution])
      {| world := w2;
         trace := trace st1 ++ [Store "repository_analyses" (acc ++ [contribution])] |}
      final st' →
    loop_run process store ((repo_path, activity_data) :: rest) acc st final st'.

(** ** Vocabulary of the further properties *)

(** The sum of the estimated sizes of the blocks. *)
Definition blocks_tokens (parts : list string) : Z :=
  foldr (λ p acc, estimate_tokens p + acc) 0 parts.

(** The URL from which the diff of a commit is fetched. *)
Definition commit_url (repo_path sha : string) : string :=
  ("https://api.github.com/repos/" +:+ repo_path +:+ "/commits/" +:+ sha)%string.

(** The identifiers for which a diff is requested: the non-empty ones, in
    the order of the commits. *)
Definition fetched_shas (commits : list Commit) : list string :=
  filter (λ s, str_truthy s = true)
    (map (λ c, default EmptyString (sha c)) commits).

(** A stored file of a diff: it passed the extension filter and its patch
    is within the cap plus the marker. *)
Definition normalized_file (f : FileChange) : Prop :=
  is_non_code_file (filename f) = false
  ∧ Py.len (patch f) ≤ 90000 + Py.len TRUNCATED_DIFF_MARKER.

(** The batches that were summarised: the commits of each builder call
    that a Summarizer call follows at once. *)
Fixpoint summarized_batches (evs : list Event) : list (list Commit) :=
  match evs with
  | [] => []
  | Build cs _ :: (Summarize _ _ :: rest) => cs :: summarized_batches rest
  | _ :: rest => summarized_batches rest
  end.

(** The lists handed to the store, in order. *)
Definition stored_lists (evs : list Event) : list (list Analysis) :=
  omap (λ ev, match ev with Store _ l => Some l | _ => None end) evs.

(** The commits and the estimated size of a run of days. *)
Definition days_commits (days : list DayEntry) : list Commit :=
  concat (map (λ e : DayEntry, snd (fst e)) days).

Definition days_tokens (days : list DayEntry) : Z :=
  foldr (λ (e : DayEntry) acc, snd e + acc) 0 days.

Definition starts_with_digit (s : string) : bool :=
  match s with
  | EmptyString => false
  | String c _ => ((48 <=? N_of_ascii c) && (N_of_ascii c <=? 57))%N
  end.

(** [m] never calls the store, whether it returns or raises. *)
Definition stores_nothing {World A} (m : M World A) : Prop :=
  ∀ st st' r, m st = (st', r) →
    ∃ evs, trace st' = trace st ++ evs ∧ stored_lists evs = [].

(** The records a response contributes. *)
Definition response_changes (r : option RepositoryAnalysis) : list Change :=
  match r with
  | Some analysis => changes analysis
  | None => []
  end.

(** Every exception that leaves [m] satisfies [P]. *)
Definition raises_only {World A} (P : exception → Prop) (m : M World A) : Prop :=
  ∀ st st' e, m st = (st', inl e) → P e.

(** [e] is an exception that a collaborator raised. *)
Definition raised_by {World A}
    (f : string → string → World → World * (exception + A))
    (e : exception) : Prop :=
  ∃ x y w w', f x y w = (w', inl e).

(** An answer of [requests.get] from which no diff is read. *)
Definition unusable_response (r : Response) : Prop :=
  status_code r ≠ 200 ∨ json r = None.

(** What the answers to the Summarizer calls of a trace contribute, in
    call order. *)
Definition answered_changes (respond : string → option RepositoryAnalysis)
    (evs : list Event) : list Change :=
  flat_map (λ prompt, response_changes (respond prompt))
    (summarizer_prompts evs).

(** ** Sample collaborators and inputs *)

Module Sample.

(** A parser for the examples: the first ten characters of a timestamp
    of at least ten characters are its date. *)
Definition isoformat_day (s : string) : option string :=
  if 10 <=? Py.len s then Some (Py.slice_to 10 s) else None.

Definition requests_get (url headers : string) (w : unit)
  : unit * (exception + Response) :=
  (w, inr {| status_code := 404; json := None |}).

Definition call_llm (model prompt : string) (w : unit)
  : unit * (exception + option RepositoryAnalysis) :=
  (w, inr None).

Definition store_data (key : string) (value : list Analysis) (w : unit)
  : unit * (exception + unit) :=
  (w, inr tt).

Definition st0 : State unit := {| world := tt; trace := [] |}.

Definition commit (id day : string) (message_size : Z) : Commit :=
  {| sha := Some id;
     message := Some (Py.replicate (Z.to_nat message_size) "x"%char);
     author := Some "dev"%string;
     timestamp := Some (day +:+ "T10:00:00Z")%string;
     url := None |}.

Definition file (name : string) (patch_size : Z) : FileChange :=
  {| filename := name;
     patch := Py.replicate (Z.to_nat patch_size) "+"%char;
     status := "modified";
     additions := 1; deletions := 0 |}.

Definition raw_file (name : string) (patch_size : Z) : RawFile :=
  {| raw_filename := Some name;
     raw_patch := Some (Py.replicate (Z.to_nat patch_size) "+"%char);
     raw_status := Some "modified"%string;
     raw_additions := Some 1; raw_deletions := Some 0 |}.

(** Ten commits of one day whose blob has 450,000 characters, that is
    an estimated size of 150,000. *)
Definition large_day : list Commit :=
  map (λ id, commit id "2024-01-15" 44930)
    ["c000001"; "c000002"; "c000003"; "c000004"; "c000005";
     "c000006"; "c000007"; "c000008"; "c000009"]%string
  ++ [commit "c000010" "2024-01-15" 44935].

Definition small_repo : list Commit :=
  [commit "a000001" "2024-01-15" 20; commit "a000002" "2024-01-16" 20].

Definition day1 : list Commit := [commit "d100001" "2024-01-01" 5].
Definition day2 : list Commit := [commit "d200001" "2024-01-02" 5].
Definition day3 : list Commit := [commit "d300001" "2024-01-03" 5].

(** Three day buckets, each given the estimated size 60,000. *)
Definition three_days : list DayEntry :=
  [ ("2024-01-01"%string, day1, 60000);
    ("2024-01-02"%string, day2, 60000);
    ("2024-01-03"%string, day3, 60000) ].

(** A commit with two files of 53 estimated tokens each. *)
Definition two_files : list FileChange := [file "a.py" 130; file "b.py" 130].
Definition two_file_commit : Commit := commit "f000001" "2024-01-15" 20.
Definition two_file_diffs : gmap string (list FileChange) :=
  {[ "f000001"%string := two_files ]}.

(** A file whose patch has 95,000 characters. *)
Definition big_file : RawFile := raw_file "src/big.py" 95000.

(** Two repositories: the value of the first is not a dict. *)
Definition repos : list (string * ActivityData) :=
  [ ("org/broken"%string, ActivityOther);
    ("org/ok"%string, ActivityDict (Some small_repo)) ].

(** Three commits on three days; the block of each has 180,000
    characters, an estimated size of 60,000. *)
Definition three_day_repo : list Commit :=
  [ commit "e100001" "2024-01-01" 179935;
    commit "e200001" "2024-01-02" 179935;
    commit "e300001" "2024-01-03" 179935 ].

(** A GitHub answer with two code files and one image. *)
Definition requests_get_ok (url headers : string) (w : unit)
  : unit * (exception + Response) :=
  (w, inr {| status_code := 200;
             json := Some {| data_files :=
                               Some [ raw_file "src/app.py" 10;
                                      raw_file "logo.PNG" 10;
                                      raw_file "Makefile" 40 ] |} |}).

(** Collaborators that fail. *)
Definition requests_get_down (url headers : string) (w : unit)
  : unit * (exception + Response) :=
  (w, inl (CollaboratorError "ConnectionError")).

Definition call_llm_down (model prompt : string) (w : unit)
  : unit * (exception + option RepositoryAnalysis) :=
  (w, inl (CollaboratorError "LLMError")).

Definition store_data_down (key : string) (value : list Analysis) (w : unit)
  : unit * (exception + unit) :=
  (w, inl (CollaboratorError "StoreError")).

(** A Summarizer that answers from the prompt alone: one record whose
    summary is the prompt's estimated size parity, or nothing. *)
Definition respond (prompt : string) : option RepositoryAnalysis :=
  if Z.even (Py.len prompt) then None
  else Some {| changes := [ {| summary := "odd"; category := "chore";
                               contributing_commits := [] |} ] |}.

Definition call_llm_pure (model prompt : string) (w : unit)
  : unit * (exception + option RepositoryAnalysis) :=
  (w, inr (respond prompt)).

(** A day of 100,001 commits. *)
Definition crowded_day : list Commit :=
  List.repeat (commit "b000001" "2024-01-15" 0) (Z.to_nat 100001).

(** Two repositories without commits: no key, and an empty list. *)
Definition idle_repos : list (string * ActivityData) :=
  [ ("org/new"%string, ActivityDict None);
    ("org/quiet"%string, ActivityDict (Some [])) ].

(** Five days with a blob of more than 2,100,000 characters in all: two
    large days (the ten commits of [large_day], and one commit of
    400,000 estimated tokens) and three small ones. *)
Definition hybrid_repo : list Commit :=
  large_day
  ++ [ commit "h000001" "2024-01-16" 1199935;
       commit "h000002" "2024-01-17" 179935;
       commit "h000003" "2024-01-18" 179935;
       commit "h000004" "2024-01-19" 299935 ].

End Sample.

(** * Proofs *)

(** ** Strings *)

Lemma str_app_nil_l (b : string) : ("" +:+ b)%string = b.
Proof. reflexivity. Qed.

Lemma str_app_cons (x : ascii) (a b : string) :
  (String x a +:+ b)%string = String x (a +:+ b).
Proof. reflexivity. Qed.

Lemma str_app_assoc (a b c : string) :
  ((a +:+ b) +:+ c = a +:+ (b +:+ c))%string.
Proof.
  induction a as [|x a IH]; [reflexivity|].
  rewrite !str_app_cons. f_equal. exact IH.
Qed.

Lemma str_app_nil_r (a : string) : (a +:+ "")%string = a.
Proof.
  induction a as [|x a IH]; [reflexivity|].
  rewrite str_app_cons. f_equal. exact IH.
Qed.

Lemma len_app (a b : string) : Py.len (a +:+ b) = Py.len a + Py.len b.
Proof.
  unfold Py.len. induction a as [|x a IH].
  - rewrite str_app_nil_l. simpl. lia.
  - rewrite str_app_cons. simpl String.length. rewrite !Nat2Z.inj_succ. lia.
Qed.

Lemma len_nonneg (a : string) : 0 ≤ Py.len a.
Proof. unfold Py.len. lia. Qed.

Lemma slice_to_length (n : nat) (s : string) :
  (n ≤ String.length s)%nat → String.length (Py.slice_to n s) = n.
Proof.
  revert s. induction n as [|n IH]; intros [|c s] H; simpl in *; try lia.
  rewrite IH; lia.
Qed.

Lemma slice_to_prefix (n : nat) (s : string) :
  ∃ rest, s = (Py.slice_to n s +:+ rest)%string.
Proof.
  revert s. induction n as [|n IH]; intros s.
  - exists s. reflexivity.
  - destruct s as [|c s]; [exists EmptyString; reflexivity|].
    destruct (IH s) as [rest Hrest]. exists rest. simpl.
    rewrite str_app_cons. now rewrite <- Hrest.
Qed.

Lemma str_truthy_false (s : string) : str_truthy s = false → s = EmptyString.
Proof.
  unfold str_truthy. intros H. apply negb_false_iff in H.
  now apply String.eqb_eq in H.
Qed.

(** ** The final extension *)

Lemma split_nonempty (c : ascii) (s : string) : Py.split c s ≠ [].
Proof.
  destruct s as [|a s]; simpl; [discriminate|].
  destruct (Ascii.eqb a c); [discriminate|].
  destruct (Py.split c s); discriminate.
Qed.

Lemma last_item_cons (x : string) (l : list string) :
  l ≠ [] → Py.last_item (x :: l) = Py.last_item l.
Proof. destruct l; [congruence | reflexivity]. Qed.

Lemma last_item_app (l1 l2 : list string) :
  l2 ≠ [] → Py.last_item (l1 ++ l2) = Py.last_item l2.
Proof.
  intros H. induction l1 as [|x l1 IH]; [reflexivity|].
  change ((x :: l1) ++ l2) with (x :: (l1 ++ l2)).
  rewrite last_item_cons; [exact IH|]. destruct l1; simpl; [exact H | discriminate].
Qed.

Lemma split_no_sep (c : ascii) (s : string) :
  Py.contains c s = false → Py.split c s = [s].
Proof.
  induction s as [|a s IH]; simpl; [reflexivity|].
  destruct (Ascii.eqb a c); [discriminate|]. intros H. now rewrite IH.
Qed.

Lemma split_app (c : ascii) (s1 s2 : string) :
  Py.split c (s1 +:+ String c s2) = Py.split c s1 ++ Py.split c s2.
Proof.
  induction s1 as [|a s1 IH]; [rewrite str_app_nil_l | rewrite str_app_cons]; simpl.
  - now rewrite Ascii.eqb_refl.
  - destruct (Ascii.eqb a c); [now rewrite IH|].
    rewrite IH. pose proof (split_nonempty c s1) as Hne.
    destruct (Py.split c s1); [congruence | reflexivity].
Qed.

Lemma contains_app_sep (c : ascii) (s1 s2 : string) :
  Py.contains c (s1 +:+ String c s2) = true.
Proof.
  induction s1 as [|a s1 IH]; [rewrite str_app_nil_l | rewrite str_app_cons]; simpl.
  - now rewrite Ascii.eqb_refl.
  - destruct (Ascii.eqb a c); [reflexivity | exact IH].
Qed.

(** The last piece of a split has no separator, is the whole string when
    there is none, and otherwise follows the final separator. *)
Lemma split_last_item (c : ascii) (s : string) :
  Py.contains c (Py.last_item (Py.split c s)) = false
  ∧ (Py.contains c s = false → Py.last_item (Py.split c s) = s)
  ∧ (Py.contains c s = true →
     ∃ stem, s = (stem +:+ String c (Py.last_item (Py.split c s)))%string)
  ∧ (∀ x, Py.split c s = [x] → Py.contains c s = false).
Proof.
  induction s as [|a s (IH1 & IH2 & IH3 & IH4)].
  - simpl. repeat split; try reflexivity; discriminate.
  - simpl. pose proof (split_nonempty c s) as Hne.
    destruct (Ascii.eqb_spec a c) as [->|Hac].
    + rewrite last_item_cons by exact Hne. repeat split.
      * exact IH1.
      * discriminate.
      * intros _. destruct (Py.contains c s) eqn:Hs.
        -- destruct (IH3 eq_refl) as [stem Hstem].
           exists (String c stem). rewrite str_app_cons. now rewrite <- Hstem.
        -- exists EmptyString. rewrite str_app_nil_l. now rewrite IH2.
      * intros x Hx. destruct (Py.split c s); [congruence | discriminate].
    + destruct (Py.split c s) as [|seg segs] eqn:Hsplit; [congruence|].
      destruct segs as [|seg' segs].
      * pose proof (IH4 seg eq_refl) as Hs. rewrite Hs.
        unfold Py.last_item in *. simpl in *.
        apply Ascii.eqb_neq in Hac. rewrite Hac.
        repeat split; try assumption; try discriminate.
        -- intros _. now rewrite (IH2 Hs).
      * change (Py.last_item (String a seg :: seg' :: segs))
          with (Py.last_item (seg :: seg' :: segs)).
        repeat split.
        -- exact IH1.
        -- intros H. rewrite (IH2 H) in *.
           specialize (IH4 s). rewrite split_no_sep in Hsplit by exact H.
           discriminate.
        -- intros H. destruct (IH3 H) as [stem Hstem].
           exists (String a stem). rewrite str_app_cons. now rewrite <- Hstem.
        -- discriminate.
Qed.

Lemma empty_not_non_code : EmptyString ∉ NON_CODE_EXTENSIONS.
Proof. apply (bool_decide_eq_false_1 _). vm_compute. reflexivity. Qed.

(** [is_non_code_file] decides the specification's test on the final
    extension. *)
Lemma is_non_code_file_spec (name : string) :
  is_non_code_file name = true ↔ non_code_name name.
Proof.
  unfold is_non_code_file, non_code_name, final_extension.
  destruct (split_last_item "."%char name) as (H1 & H2 & H3 & _).
  split.
  - intros H. apply bool_decide_eq_true_1 in H.
    destruct (Py.contains "."%char name) eqn:Hdot.
    + destruct (H3 eq_refl) as [stem Hstem].
      exists (Py.last_item (Py.split "."%char name)). split; [|exact H].
      exists stem. split; [exact Hstem | exact H1].
    + exfalso. exact (empty_not_non_code H).
  - intros (ext & (stem & Hname & Hext) & Hin).
    assert (Hdot : Py.contains "."%char name = true).
    { rewrite Hname. apply (contains_app_sep "."%char). }
    rewrite Hdot. apply bool_decide_eq_true_2.
    assert (Hlast : Py.last_item (Py.split "."%char name) = ext).
    { rewrite Hname. change ("." +:+ ext)%string with (String "."%char ext).
      rewrite split_app, last_item_app by apply split_nonempty.
      now rewrite split_no_sep. }
    now rewrite Hlast.
Qed.

Lemma no_dot_not_non_code (name : string) :
  Py.contains "."%char name = false → is_non_code_file name = false.
Proof.
  intros H. unfold is_non_code_file. rewrite H.
  apply bool_decide_eq_false_2, empty_not_non_code.
Qed.

(** ** DiffNormalizer *)

Lemma normalize_loop_omap (files : list RawFile) (acc : list FileChange) :
  normalize_loop files acc = acc ++ omap process_file files.
Proof.
  revert acc. induction files as [|f files IH]; intros acc; simpl.
  - now rewrite app_nil_r.
  - destruct (process_file f) as [e|]; rewrite IH; [|reflexivity].
    now rewrite <- app_assoc.
Qed.

Lemma elem_of_normalize (files : list RawFile) (e : FileChange) :
  e ∈ normalize files ↔ ∃ f, f ∈ files ∧ process_file f = Some e.
Proof.
  unfold normalize. rewrite normalize_loop_omap. simpl.
  rewrite list_elem_of_omap. reflexivity.
Qed.

Lemma process_file_kept (f : RawFile) :
  is_non_code_file (raw_name f) = false →
  ∃ e, process_file f = Some e ∧ filename e = raw_name f
       ∧ patch e =
           if Py.len (raw_patch_text f) >? MAX_FILE_DIFF_SIZE
           then (Py.slice_to (Z.to_nat MAX_FILE_DIFF_SIZE) (raw_patch_text f)
                   +:+ TRUNCATED_DIFF_MARKER)%string
           else raw_patch_text f.
Proof.
  intros H. unfold process_file. fold (raw_name f). rewrite H.
  eexists. split; [reflexivity|]. split; reflexivity.
Qed.

Lemma process_file_Some (f : RawFile) (e : FileChange) :
  process_file f = Some e →
  is_non_code_file (raw_name f) = false ∧ filename e = raw_name f.
Proof.
  intros He. destruct (is_non_code_file (raw_name f)) eqn:Hcode.
  - unfold process_file in He. fold (raw_name f) in He.
    rewrite Hcode in He. discriminate.
  - split; [reflexivity|].
    destruct (process_file_kept f Hcode) as (e' & He' & Hname & _).
    congruence.
Qed.

(** C5. Normalisation drops exactly the files whose final extension,
    lower-cased, is in the non-code set: no entry is returned for such a
    filename, every other input file gets an entry under its filename
    (with its patch, or the truncated patch), and a filename without a
    ['.'] is always kept. *)
Theorem normalize_filters_non_code (files : list RawFile) :
  (∀ e, e ∈ normalize files → ¬ non_code_name (filename e))
  ∧ (∀ f, f ∈ files → ¬ non_code_name (raw_name f) →
       ∃ e, e ∈ normalize files ∧ process_file f = Some e
            ∧ filename e = raw_name f
            ∧ (patch e = raw_patch_text f
               ∨ patch e =
                   (Py.slice_to (Z.to_nat MAX_FILE_DIFF_SIZE) (raw_patch_text f)
                      +:+ TRUNCATED_DIFF_MARKER)%string))
  ∧ (∀ f, f ∈ files → Py.contains "."%char (raw_name f) = false →
       ∃ e, e ∈ normalize files ∧ filename e = raw_name f)
  ∧ map filename (normalize files)
    = filter (λ name, is_non_code_file name = false) (map raw_name files).
Proof.
  assert (Hkeep : ∀ f, f ∈ files → is_non_code_file (raw_name f) = false →
            ∃ e, e ∈ normalize files ∧ process_file f = Some e
                 ∧ filename e = raw_name f
                 ∧ (patch e = raw_patch_text f
                    ∨ patch e =
                        (Py.slice_to (Z.to_nat MAX_FILE_DIFF_SIZE)
                           (raw_patch_text f) +:+ TRUNCATED_DIFF_MARKER)%string)).
  { intros f Hf Hcode.
    destruct (process_file_kept f Hcode) as (e & He & Hname & Hpatch).
    exists e. split; [apply elem_of_normalize; eauto|].
    split; [exact He|]. split; [exact Hname|].
    rewrite Hpatch. destruct (_ >? _); [right | left]; reflexivity. }
  split; [|split; [|split]].
  - intros e He Hnon. apply elem_of_normalize in He as (f & _ & Hf).
    apply process_file_Some in Hf as [Hcode Hname].
    apply is_non_code_file_spec in Hnon. congruence.
  - intros f Hf Hnon. apply Hkeep; [exact Hf|].
    destruct (is_non_code_file (raw_name f)) eqn:Hcode; [|reflexivity].
    exfalso. apply Hnon. now apply is_non_code_file_spec.
  - intros f Hf Hdot.
    destruct (Hkeep f Hf (no_dot_not_non_code _ Hdot)) as (e & He & _ & Hname & _).
    eauto.
  - clear Hkeep. unfold normalize. rewrite normalize_loop_omap. simpl.
    induction files as [|f files IH]; [reflexivity|].
    simpl. destruct (is_non_code_file (raw_name f)) eqn:Hcode.
    + unfold process_file at 1. fold (raw_name f). rewrite Hcode.
      rewrite filter_cons_False; [exact IH|]. congruence.
    + destruct (process_file_kept f Hcode) as (e & He & Hname & _).
      rewrite He. simpl. rewrite filter_cons_True.
      * rewrite Hname. f_equal. exact IH.
      * exact Hcode.
Qed.

(** C6. A retained file whose patch is longer than 90,000 characters gets
    as patch exactly its first 90,000 characters followed by the fixed
    truncation marker; a patch of 95,000 characters becomes 90,000
    characters plus the marker. *)
Theorem normalize_truncates_large_patch (files : list RawFile) (f : RawFile) :
  f ∈ files →
  is_non_code_file (raw_name f) = false →
  90000 < Py.len (raw_patch_text f) →
  ∃ e head,
    e ∈ normalize files ∧ process_file f = Some e
    ∧ filename e = raw_name f
    ∧ patch e = (head +:+ TRUNCATED_DIFF_MARKER)%string
    ∧ Py.len head = 90000
    ∧ (∃ rest, raw_patch_text f = (head +:+ rest)%string)
    ∧ (Py.len (raw_patch_text f) = 95000 →
       Py.len (patch e) = 90000 + Py.len TRUNCATED_DIFF_MARKER).
Proof.
  intros Hf Hcode Hlen.
  destruct (process_file_kept f Hcode) as (e & He & Hname & Hpatch).
  assert (Hgt : (Py.len (raw_patch_text f) >? MAX_FILE_DIFF_SIZE) = true).
  { unfold MAX_FILE_DIFF_SIZE. lia. }
  rewrite Hgt in Hpatch.
  set (head := Py.slice_to (Z.to_nat MAX_FILE_DIFF_SIZE) (raw_patch_text f)) in *.
  assert (Hhead : Py.len head = 90000).
  { unfold Py.len, head. rewrite slice_to_length.
    - unfold MAX_FILE_DIFF_SIZE. lia.
    - unfold Py.len, MAX_FILE_DIFF_SIZE in *. lia. }
  exists e, head. split; [apply elem_of_normalize; eauto|].
  split; [exact He|]. split; [exact Hname|]. split; [exact Hpatch|].
  split; [exact Hhead|]. split; [apply slice_to_prefix|].
  intros _. rewrite Hpatch, len_app, Hhead. reflexivity.
Qed.

(** ** ContextBuilder *)

Lemma over_budget_falsy (token_budget : option Z) (used : Z) :
  budget_truthy token_budget = false → over_budget token_budget used = false.
Proof.
  destruct token_budget as [b|]; simpl; [|reflexivity].
  intros H. apply negb_false_iff in H. now rewrite H.
Qed.

Lemma over_budget_positive (b used : Z) :
  0 < b → over_budget (Some b) used = (used >? b).
Proof.
  intros H. simpl. destruct (b =? 0) eqn:E; [lia | reflexivity].
Qed.

(** The inner loop appends one block per file, each decided against the
    same [total_tokens]. *)
Lemma files_loop_blocks (token_budget : option Z) (total_tokens : Z)
    (files : list FileChange) (commit_text : string) :
  files_loop token_budget total_tokens files commit_text
  = (commit_text +:+
     concat_str
       (map (λ f,
               if over_budget token_budget
                    (total_tokens + estimate_tokens (full_file_block f))
               then notice_file_block f else full_file_block f)
            files))%string.
Proof.
  revert commit_text. induction files as [|f files IH]; intros commit_text.
  - simpl. now rewrite str_app_nil_r.
  - simpl. rewrite IH, str_app_assoc. f_equal. f_equal.
    unfold full_file_block, notice_file_block, file_header.
    destruct (str_truthy (patch f)); rewrite ?str_app_assoc; reflexivity.
Qed.

Lemma compose_commit_text_no_budget (token_budget : option Z)
    (commit_diffs : gmap string (list FileChange)) (total_tokens : Z)
    (c : Commit) :
  budget_truthy token_budget = false →
  compose_commit_text token_budget commit_diffs total_tokens c
  = full_commit_block commit_diffs c.
Proof.
  intros H. unfold compose_commit_text, full_commit_block, commit_header.
  rewrite H. destruct (commit_diffs !! default EmptyString (sha c)) as [files|].
  - rewrite files_loop_blocks. f_equal. f_equal.
    apply map_ext. intros f. now rewrite over_budget_falsy.
  - now rewrite str_app_nil_r.
Qed.

Lemma build_loop_no_budget (token_budget : option Z)
    (commit_diffs : gmap string (list FileChange))
    (commits : list Commit) (parts : list string) (total_tokens : Z) :
  budget_truthy token_budget = false →
  build_loop token_budget commit_diffs commits parts total_tokens
  = parts ++ map (full_commit_block commit_diffs) commits.
Proof.
  intros H. revert parts total_tokens.
  induction commits as [|c commits IH]; intros parts total_tokens; simpl.
  - now rewrite app_nil_r.
  - rewrite over_budget_falsy by exact H. rewrite IH.
    rewrite compose_commit_text_no_budget by exact H.
    now rewrite <- app_assoc.
Qed.

Lemma build_commit_context_no_budget (token_budget : option Z)
    (commits : list Commit) (commit_diffs : gmap string (list FileChange)) :
  budget_truthy token_budget = false →
  build_commit_context commits commit_diffs token_budget
  = Py.join COMMIT_SEPARATOR (map (full_commit_block commit_diffs) commits).
Proof.
  intros H. unfold build_commit_context. now rewrite build_loop_no_budget.
Qed.

(** The builder reads a budget of zero as no budget. *)
Lemma build_commit_context_zero_budget (commits : list Commit)
    (commit_diffs : gmap string (list FileChange)) :
  build_commit_context commits commit_diffs (Some 0)
  = build_commit_context commits commit_diffs None.
Proof. now rewrite !build_commit_context_no_budget. Qed.

Lemma insert_by_perm {A} (key : A → Z) (x : A) (l : list A) :
  Py.insert_by key x l ≡ₚ x :: l.
Proof.
  induction l as [|y l IH]; simpl; [reflexivity|].
  destruct (key x <? key y); [reflexivity|].
  rewrite IH. apply Permutation_swap.
Qed.

Lemma sorted_by_perm {A} (key : A → Z) (l : list A) :
  Py.sorted_by key l ≡ₚ l.
Proof.
  unfold Py.sorted_by.
  enough (H : ∀ acc, fold_left (λ acc x, Py.insert_by key x acc) l acc ≡ₚ acc ++ l)
    by apply (H []).
  induction l as [|x l IH]; intros acc; simpl.
  - now rewrite app_nil_r.
  - rewrite IH, insert_by_perm. simpl. apply Permutation_middle.
Qed.

Lemma compose_commit_text_budget (budget total_tokens : Z)
    (commit_diffs : gmap string (list FileChange)) (c : Commit)
    (files : list FileChange) :
  0 < budget →
  commit_diffs !! default EmptyString (sha c) = Some files →
  compose_commit_text (Some budget) commit_diffs total_tokens c
  = (commit_header c +:+
     concat_str (map (budgeted_file_block budget total_tokens)
                   (Py.sorted_by get_file_size files)))%string.
Proof.
  intros Hb Hfiles. unfold compose_commit_text, commit_header.
  rewrite Hfiles. simpl budget_truthy.
  destruct (budget =? 0) eqn:E; [lia|]. simpl negb. cbv iota.
  rewrite files_loop_blocks. f_equal. f_equal.
  apply map_ext. intros f. unfold budgeted_file_block.
  now rewrite over_budget_positive.
Qed.

(** C7. Without a token budget the blob is the commits' full blocks, one
    per input commit and in input order, joined by the separator; a full
    block is the header followed by every file of the commit in its
    original order, none replaced by a truncation notice. *)
Theorem build_without_budget_renders_every_commit (commits : list Commit)
    (commit_diffs : gmap string (list FileChange)) :
  build_commit_context commits commit_diffs None
  = Py.join COMMIT_SEPARATOR (map (full_commit_block commit_diffs) commits).
Proof. now apply build_commit_context_no_budget. Qed.

(** C2. The builder called with [token_budget = 0] on one commit returns
    that commit's block, as it does without a budget, not the empty
    string. *)
Theorem build_zero_budget_returns_commits :
  let commits := [Sample.commit "abc1234" "2024-01-15" 5] in
  build_commit_context commits ∅ (Some 0)
  = build_commit_context commits ∅ None
  ∧ build_commit_context commits ∅ (Some 0) ≠ EmptyString.
Proof. split; [reflexivity | vm_compute; discriminate]. Qed.


(** ** DayGrouper *)

Lemma dict_get_append_eq (d : list (string * list Commit)) (k : string)
    (c : Commit) :
  dict_get (dict_append d k c) k
  = inr (match dict_get d k with inr b => b | inl _ => [] end ++ [c]).
Proof.
  induction d as [|[k' b] d IH]; simpl.
  - now rewrite String.eqb_refl.
  - destruct (String.eqb k' k) eqn:E; simpl; rewrite E; [reflexivity | exact IH].
Qed.

Lemma dict_get_append_ne (d : list (string * list Commit)) (k k' : string)
    (c : Commit) :
  k ≠ k' → dict_get (dict_append d k c) k' = dict_get d k'.
Proof.
  intros Hne. pose proof Hne as Hneb. apply String.eqb_neq in Hneb.
  induction d as [|[k0 b] d IH]; simpl.
  - now rewrite Hneb.
  - destruct (String.eqb k0 k) eqn:E; simpl.
    + apply String.eqb_eq in E. subst k0. now rewrite Hneb.
    + now rewrite IH.
Qed.

Lemma dict_append_keys (d : list (string * list Commit)) (k : string)
    (c : Commit) :
  dict_keys (dict_append d k c)
  = if decide (k ∈ dict_keys d) then dict_keys d else dict_keys d ++ [k].
Proof.
  unfold dict_keys. induction d as [|[k' b] d IH].
  - destruct (decide (k ∈ map fst [])) as [Hin|_]; [|reflexivity].
    now apply not_elem_of_nil in Hin.
  - cbn [dict_append]. destruct (String.eqb_spec k' k) as [->|Hne].
    + destruct (decide (k ∈ map fst ((k, b) :: d))) as [_|Hnin]; [reflexivity|].
      exfalso. apply Hnin. apply list_elem_of_here.
    + cbn [map fst]. rewrite IH.
      destruct (decide (k ∈ map fst d)) as [Hin|Hnin];
        destruct (decide (k ∈ k' :: map fst d)) as [Hin'|Hnin'];
        try reflexivity.
      * exfalso. apply Hnin'. now apply list_elem_of_further.
      * exfalso. apply elem_of_cons in Hin' as [?|?]; congruence.
Qed.

Lemma dict_append_concat (d : list (string * list Commit)) (k : string)
    (c : Commit) :
  concat (map snd (dict_append d k c)) ≡ₚ concat (map snd d) ++ [c].
Proof.
  induction d as [|[k' b] d IH]; simpl; [reflexivity|].
  destruct (String.eqb k' k); simpl.
  - rewrite <- !app_assoc. apply Permutation_app_head.
    apply Permutation_app_comm.
  - now rewrite IH, app_assoc.
Qed.

Lemma dict_get_elem_of (d : list (string * list Commit)) (k : string)
    (b : list Commit) :
  dict_get d k = inr b → (k, b) ∈ d.
Proof.
  induction d as [|[k' b'] d IH]; simpl; [discriminate|].
  destruct (String.eqb_spec k' k) as [->|Hne].
  - intros [= ->]. apply list_elem_of_here.
  - intros H. apply list_elem_of_further, IH, H.
Qed.

Lemma elem_of_dict_get (d : list (string * list Commit)) (k : string)
    (b : list Commit) :
  NoDup (dict_keys d) → (k, b) ∈ d → dict_get d k = inr b.
Proof.
  unfold dict_keys. induction d as [|[k' b'] d IH]; simpl.
  - intros _ H. now apply not_elem_of_nil in H.
  - intros Hnd H. apply NoDup_cons in Hnd as [Hnotin Hnd].
    apply elem_of_cons in H as [[= <- <-]|H].
    + now rewrite String.eqb_refl.
    + destruct (String.eqb_spec k' k) as [->|Hne]; [|now apply IH].
      exfalso. apply Hnotin. apply list_elem_of_fmap. now exists (k, b).
Qed.

Lemma key_dict_get (d : list (string * list Commit)) (k : string) :
  k ∈ dict_keys d → ∃ b, dict_get d k = inr b.
Proof.
  unfold dict_keys. induction d as [|[k' b'] d IH]; simpl.
  - intros H. now apply not_elem_of_nil in H.
  - destruct (String.eqb_spec k' k) as [->|Hne]; [eauto|].
    intros [?|?]%elem_of_cons; [congruence | now apply IH].
Qed.

Lemma insert_str_perm (x : string) (l : list string) :
  Py.insert_str x l ≡ₚ x :: l.
Proof.
  induction l as [|y l IH]; simpl; [reflexivity|].
  destruct (String.ltb x y); [reflexivity|].
  rewrite IH. apply Permutation_swap.
Qed.

Lemma sorted_perm (l : list string) : Py.sorted l ≡ₚ l.
Proof.
  unfold Py.sorted.
  enough (H : ∀ acc, fold_left (λ acc x, Py.insert_str x acc) l acc ≡ₚ acc ++ l)
    by apply (H []).
  induction l as [|x l IH]; intros acc; simpl.
  - now rewrite app_nil_r.
  - rewrite IH, insert_str_perm. simpl. apply Permutation_middle.
Qed.

Section DayGrouper.

Variable isoformat_day : string → option string.

Abbreviation key_of := (day_key isoformat_day).
Abbreviation group := (group_commits_by_day isoformat_day).
Abbreviation bucket_of := (day_bucket isoformat_day).

Abbreviation group_from d commits :=
  (fold_left (λ by_day commit, dict_append by_day (key_of commit) commit)
     commits d).

Lemma group_from_get (commits : list Commit)
    (d : list (string * list Commit)) (k : string) :
  dict_get (group_from d commits) k
  = match dict_get d k with
    | inr b => inr (b ++ bucket_of commits k)
    | inl e => match bucket_of commits k with
               | [] => inl e
               | b => inr b
               end
    end.
Proof.
  revert d. induction commits as [|c commits IH]; intros d.
  - simpl. destruct (dict_get d k); [reflexivity | now rewrite app_nil_r].
  - simpl fold_left. rewrite IH. unfold day_bucket.
    destruct (decide (key_of c = k)) as [<-|Hne].
    + rewrite dict_get_append_eq, filter_cons_True by reflexivity.
      destruct (dict_get d (key_of c)); simpl; [reflexivity|].
      now rewrite <- app_assoc.
    + rewrite dict_get_append_ne, filter_cons_False by assumption.
      reflexivity.
Qed.

Lemma group_from_keys_NoDup (commits : list Commit)
    (d : list (string * list Commit)) :
  NoDup (dict_keys d) → NoDup (dict_keys (group_from d commits)).
Proof.
  revert d. induction commits as [|c commits IH]; intros d Hd; [exact Hd|].
  simpl. apply IH. rewrite dict_append_keys.
  destruct (decide _) as [Hin|Hnin]; [exact Hd|].
  apply NoDup_app. split; [exact Hd|]. split.
  - intros x Hx Hx'. apply list_elem_of_singleton in Hx'. congruence.
  - apply NoDup_singleton.
Qed.

Lemma group_from_concat (commits : list Commit)
    (d : list (string * list Commit)) :
  concat (map snd (group_from d commits)) ≡ₚ concat (map snd d) ++ commits.
Proof.
  revert d. induction commits as [|c commits IH]; intros d; simpl.
  - now rewrite app_nil_r.
  - rewrite IH, dict_append_concat, <- app_assoc. reflexivity.
Qed.

Lemma group_get (commits : list Commit) (k : string) (b : list Commit) :
  dict_get (group commits) k = inr b →
  b = bucket_of commits k ∧ b ≠ [].
Proof.
  unfold group_commits_by_day. rewrite group_from_get. simpl.
  destruct (bucket_of commits k); [discriminate|].
  intros [= <-]. split; [reflexivity | discriminate].
Qed.

Lemma group_get_key (commits : list Commit) (day : string) :
  day ∈ dict_keys (group commits) →
  dict_get (group commits) day = inr (bucket_of commits day)
  ∧ bucket_of commits day ≠ [].
Proof.
  intros H. apply key_dict_get in H as [b Hb].
  destruct (group_get _ _ _ Hb) as [-> Hne]. split; assumption.
Qed.

Lemma group_keys_NoDup (commits : list Commit) :
  NoDup (dict_keys (group commits)).
Proof. apply group_from_keys_NoDup. apply NoDup_nil_2. Qed.

Lemma day_key_unknown (c : Commit) :
  timestamp c = None
  ∨ (∃ ts, timestamp c = Some ts
           ∧ isoformat_day (Py.replace "Z"%char "+00:00" ts) = None) →
  key_of c = "unknown"%string.
Proof.
  unfold day_key. intros [->|(ts & -> & Hts)]; simpl; [reflexivity|].
  rewrite Hts. now destruct (str_truthy ts).
Qed.

(** C4. Grouping by day is total, and the empty list gives the empty
    mapping; the buckets together hold the input commits, each exactly
    once; every bucket is the commits of its day in input order; and a
    commit whose timestamp is absent or is refused by the ISO-8601
    parser is in the bucket of the key ["unknown"]. *)
Theorem group_commits_by_day_partitions (commits : list Commit) :
  group [] = []
  ∧ concat (map snd (group commits)) ≡ₚ commits
  ∧ NoDup (dict_keys (group commits))
  ∧ (∀ day bucket, (day, bucket) ∈ group commits →
       bucket = filter (λ c, key_of c = day) commits ∧ bucket ≠ [])
  ∧ (∀ c, c ∈ commits →
       (timestamp c = None
        ∨ ∃ ts, timestamp c = Some ts
                ∧ isoformat_day (Py.replace "Z"%char "+00:00" ts) = None) →
       ∃ bucket, ("unknown"%string, bucket) ∈ group commits
                 ∧ c ∈ bucket).
Proof.
  split; [reflexivity|]. split; [apply (group_from_concat commits [])|].
  split; [apply group_keys_NoDup|]. split.
  - intros day bucket H. apply group_get.
    apply elem_of_dict_get; [apply group_keys_NoDup | exact H].
  - intros c Hc Hts. apply day_key_unknown in Hts.
    assert (Hin : c ∈ bucket_of commits "unknown").
    { apply list_elem_of_filter. split; assumption. }
    pose proof (group_from_get commits [] "unknown") as Hget.
    simpl in Hget. destruct (bucket_of commits "unknown") as [|x b] eqn:E.
    + now apply not_elem_of_nil in Hin.
    + exists (x :: b). split; [|exact Hin].
      apply dict_get_elem_of. exact Hget.
Qed.

End DayGrouper.

(** ** The engine: batches *)

Section EngineFacts.

Context {World : Type}.
Variable isoformat_day : string → option string.
Variable call_llm :
  string → string → World → World * (exception + option RepositoryAnalysis).

Lemma bind_ret_r {A} (m : M World A) (st : State World) :
  bind m ret st = m st.
Proof. unfold bind. destruct (m st) as [st' [e|a]]; reflexivity. Qed.

Lemma bind_assoc {A B C} (m : M World A) (f : A → M World B)
    (g : B → M World C) (st : State World) :
  bind (bind m f) g st = bind m (λ a, bind (f a) g) st.
Proof. unfold bind. destruct (m st) as [st' [e|a]]; reflexivity. Qed.

Lemma bind_ext {A B} (m : M World A) (f g : A → M World B)
    (st : State World) :
  (∀ a st', f a st' = g a st') → bind m f st = bind m g st.
Proof.
  intros H. unfold bind. destruct (m st) as [st' [e|a]]; [reflexivity | apply H].
Qed.

Lemma yields_ret {A} (a : A) (st : State World) : yields (ret a) st [] st a.
Proof. split; [reflexivity | now rewrite app_nil_r]. Qed.

Lemma yields_bind {A B} (m : M World A) (k : A → M World B)
    (st st1 st2 : State World) (evs1 evs2 : list Event) (a : A) (b : B) :
  yields m st evs1 st1 a → yields (k a) st1 evs2 st2 b →
  yields (bind m k) st (evs1 ++ evs2) st2 b.
Proof.
  intros [Hm Ht1] [Hk Ht2]. split.
  - unfold bind. now rewrite Hm.
  - now rewrite Ht2, Ht1, app_assoc.
Qed.

Lemma yields_build (commits : list Commit)
    (commit_diffs : gmap string (list FileChange)) (token_budget : option Z)
    (st : State World) :
  yields (build_commit_context_call commits commit_diffs token_budget) st
    [Build commits token_budget]
    {| world := world st; trace := trace st ++ [Build commits token_budget] |}
    (build_commit_context commits commit_diffs token_budget).
Proof. split; reflexivity. Qed.

(** One batch: the context is built, the Summarizer is called once, and
    the call returns. *)
Lemma process_batch_and_extend_yields (commits : list Commit)
    (commit_diffs : gmap string (list FileChange)) (all_changes : list Change)
    (repo_path : string) (repo_context : option RepoContext)
    (model_name : string) (token_budget : option Z) (st : State World) :
  summarizer_returns call_llm →
  ∃ st' changes,
    yields (process_batch_and_extend call_llm commits commit_diffs all_changes
              repo_path repo_context model_name token_budget) st
      (batch_events commit_diffs repo_path repo_context model_name commits
         token_budget) st' changes.
Proof.
  intros Hllm. unfold yields, process_batch_and_extend, bind,
    build_commit_context_call, analyze_batch, call, log, ret, batch_events.
  simpl.
  destruct (Hllm model_name
              (build_prompt repo_path
                 (build_commit_context commits commit_diffs token_budget)
                 repo_context) (world st)) as (w' & r & Hr).
  rewrite Hr. destruct r as [r|]; eexists _, _; (split; [reflexivity|]);
    simpl; now rewrite <- app_assoc.
Qed.

(** The packer loop of the code summarises, in order, the batches of the
    pure packer. *)
Lemma small_days_loop_refines (small_days : list DayEntry)
    (commit_diffs : gmap string (list FileChange)) (repo_path : string)
    (repo_context : option RepoContext) (model_name : string)
    (batch_threshold : Z) (current_batch : list Commit) (current_tokens : Z)
    (all_changes : list Change) (st : State World) :
  small_days_loop call_llm small_days commit_diffs repo_path repo_context
    model_name batch_threshold current_batch current_tokens all_changes st
  = run_batches call_llm
      (pack_loop batch_threshold small_days current_batch current_tokens)
      commit_diffs all_changes repo_path repo_context model_name st.
Proof.
  revert current_batch current_tokens all_changes st.
  induction small_days as [|[[day day_commits] day_tokens] rest IH];
    intros current_batch current_tokens all_changes st.
  - simpl. destruct (list_truthy current_batch); simpl; [|reflexivity].
    now rewrite bind_ret_r.
  - simpl.
    destruct (list_truthy current_batch
              && (current_tokens + day_tokens >? batch_threshold)).
    + rewrite bind_assoc. simpl run_batches. apply bind_ext.
      intros a st'. unfold bind at 1, ret at 1. apply IH.
    + unfold bind at 1, ret at 1. apply IH.
Qed.

Lemma process_small_days_batch_refines (small_days : list DayEntry)
    (commit_diffs : gmap string (list FileChange)) (all_changes : list Change)
    (repo_path : string) (repo_context : option RepoContext)
    (model_name : string) (batch_threshold : Z) (st : State World) :
  process_small_days_batch call_llm small_days commit_diffs all_changes
    repo_path repo_context model_name batch_threshold st
  = run_batches call_llm (pack small_days batch_threshold) commit_diffs
      all_changes repo_path repo_context model_name st.
Proof. apply small_days_loop_refines. Qed.

Lemma run_batches_yields (batches : list (list Commit))
    (commit_diffs : gmap string (list FileChange)) (all_changes : list Change)
    (repo_path : string) (repo_context : option RepoContext)
    (model_name : string) (st : State World) :
  summarizer_returns call_llm →
  ∃ st' changes,
    yields (run_batches call_llm batches commit_diffs all_changes repo_path
              repo_context model_name) st
      (flat_map (λ b, batch_events commit_diffs repo_path repo_context
                        model_name b None) batches)
      st' changes.
Proof.
  intros Hllm. revert all_changes st.
  induction batches as [|b batches IH]; intros all_changes st.
  - exists st, all_changes. apply yields_ret.
  - destruct (process_batch_and_extend_yields b commit_diffs all_changes
                repo_path repo_context model_name None st Hllm)
      as (st1 & changes1 & H1).
    destruct (IH changes1 st1) as (st2 & changes2 & H2).
    exists st2, changes2. exact (yields_bind _ _ _ _ _ _ _ _ _ H1 H2).
Qed.

Lemma process_small_days_batch_yields (small_days : list DayEntry)
    (commit_diffs : gmap string (list FileChange)) (all_changes : list Change)
    (repo_path : string) (repo_context : option RepoContext)
    (model_name : string) (batch_threshold : Z) (st : State World) :
  summarizer_returns call_llm →
  ∃ st' changes,
    yields (process_small_days_batch call_llm small_days commit_diffs
              all_changes repo_path repo_context model_name batch_threshold) st
      (flat_map (λ b, batch_events commit_diffs repo_path repo_context
                        model_name b None)
         (pack small_days batch_threshold))
      st' changes.
Proof.
  intros Hllm.
  destruct (run_batches_yields (pack small_days batch_threshold) commit_diffs
              all_changes repo_path repo_context model_name st Hllm)
    as (st' & changes & [Hrun Htrace]).
  exists st', changes. split; [|exact Htrace].
  now rewrite process_small_days_batch_refines.
Qed.

Lemma pack_three_days (d1 d2 d3 : string) (c1 c2 c3 : list Commit) :
  c1 ≠ [] → c2 ≠ [] → c3 ≠ [] →
  pack [(d1, c1, 60000); (d2, c2, 60000); (d3, c3, 60000)] 90000
  = [c1; c2; c3].
Proof.
  intros H1 H2 H3. destruct c1, c2, c3; try congruence. reflexivity.
Qed.

(** C1 (amended). Three day buckets of estimated size 60,000 each, packed
    under the threshold 90,000, give three batches, one per day: each day
    would bring the running size to 120,000, so the batch before it is
    flushed, and the last day is flushed at the end. *)
Theorem pack_three_days_of_60000 (d1 d2 d3 : string) (c1 c2 c3 : list Commit)
    (commit_diffs : gmap string (list FileChange)) (all_changes : list Change)
    (repo_path : string) (repo_context : option RepoContext)
    (model_name : string) (st : State World) :
  summarizer_returns call_llm →
  c1 ≠ [] → c2 ≠ [] → c3 ≠ [] →
  ∃ st' changes evs,
    yields (process_small_days_batch call_llm
              [(d1, c1, 60000); (d2, c2, 60000); (d3, c3, 60000)]
              commit_diffs all_changes repo_path repo_context model_name 90000)
      st evs st' changes
    ∧ builder_calls evs = [(c1, None); (c2, None); (c3, None)]
    ∧ summarizer_prompts evs
      = map (λ b, build_prompt repo_path
                    (build_commit_context b commit_diffs None) repo_context)
          [c1; c2; c3].
Proof.
  intros Hllm H1 H2 H3.
  destruct (process_small_days_batch_yields
              [(d1, c1, 60000); (d2, c2, 60000); (d3, c3, 60000)]
              commit_diffs all_changes repo_path repo_context model_name 90000
              st Hllm) as (st' & changes & Hy).
  rewrite pack_three_days in Hy by assumption.
  eexists st', changes, _. split; [exact Hy|]. split; reflexivity.
Qed.

(** ** The engine: tiers *)

Abbreviation entry_of commits commit_diffs :=
  (day_entry isoformat_day commits commit_diffs).

Lemma day_data_loop_yields (commits : list Commit)
    (commit_diffs : gmap string (list FileChange)) (days : list string)
    (day_data : list DayEntry) (st : State World) :
  (∀ day, day ∈ days →
     day ∈ dict_keys (group_commits_by_day isoformat_day commits)) →
  ∃ st',
    yields (day_data_loop days (group_commits_by_day isoformat_day commits)
              commit_diffs day_data) st
      (sizing_events (map (entry_of commits commit_diffs) days)) st'
      (day_data ++ map (entry_of commits commit_diffs) days).
Proof.
  revert day_data st. induction days as [|day days IH]; intros day_data st Hkeys.
  - exists st. rewrite app_nil_r. apply yields_ret.
  - destruct (group_get_key isoformat_day commits day) as [Hget _].
    { apply Hkeys, list_elem_of_here. }
    destruct (IH (day_data ++ [entry_of commits commit_diffs day])
                {| world := world st;
                   trace := trace st ++
                     [Build (day_bucket isoformat_day commits day) None] |})
      as (st' & Hrest).
    { intros d Hd. apply Hkeys. now apply list_elem_of_further. }
    exists st'. simpl day_data_loop. rewrite Hget.
    rewrite <- app_assoc in Hrest.
    exact (yields_bind _ _ _ _ _ _ _ _ _ (yields_build _ _ _ _) Hrest).
Qed.

Lemma classify_days_loop_yields (commits : list Commit)
    (commit_diffs : gmap string (list FileChange)) (days : list string)
    (large_days small_days : list DayEntry) (st : State World) :
  (∀ day, day ∈ days →
     day ∈ dict_keys (group_commits_by_day isoformat_day commits)) →
  ∃ st',
    yields (classify_days_loop days
              (group_commits_by_day isoformat_day commits)
              commit_diffs large_days small_days) st
      (sizing_events (map (entry_of commits commit_diffs) days)) st'
      (large_days ++ filter (λ e, is_large e = true)
                       (map (entry_of commits commit_diffs) days),
       small_days ++ filter (λ e, is_large e = false)
                       (map (entry_of commits commit_diffs) days)).
Proof.
  revert large_days small_days st.
  induction days as [|day days IH]; intros large_days small_days st Hkeys.
  - exists st. rewrite !app_nil_r. apply yields_ret.
  - destruct (group_get_key isoformat_day commits day) as [Hget _].
    { apply Hkeys, list_elem_of_here. }
    assert (Hkeys' : ∀ d, d ∈ days →
              d ∈ dict_keys (group_commits_by_day isoformat_day commits)).
    { intros d Hd. apply Hkeys. now apply list_elem_of_further. }
    set (e := entry_of commits commit_diffs day).
    set (st1 := {| world := world st;
                   trace := trace st ++
                     [Build (day_bucket isoformat_day commits day) None] |}).
    simpl classify_days_loop. rewrite Hget.
    change (map (entry_of commits commit_diffs) (day :: days))
      with (e :: map (entry_of commits commit_diffs) days).
    destruct (is_large e) eqn:Hlarge.
    + destruct (IH (large_days ++ [e]) small_days st1 Hkeys') as (st' & Hrest).
      exists st'. rewrite <- app_assoc in Hrest.
      rewrite filter_cons_True, filter_cons_False by congruence.
      refine (yields_bind _ _ _ _ _ _ _ _ _ (yields_build _ _ _ _) _).
      unfold is_large in Hlarge. simpl in Hlarge. rewrite Hlarge. exact Hrest.
    + destruct (IH large_days (small_days ++ [e]) st1 Hkeys') as (st' & Hrest).
      exists st'. rewrite <- app_assoc in Hrest.
      rewrite filter_cons_False, filter_cons_True by congruence.
      refine (yields_bind _ _ _ _ _ _ _ _ _ (yields_build _ _ _ _) _).
      unfold is_large in Hlarge. simpl in Hlarge. rewrite Hlarge. exact Hrest.
Qed.

Lemma large_days_loop_yields (large_days : list DayEntry)
    (commit_diffs : gmap string (list FileChange)) (all_changes : list Change)
    (repo_path : string) (repo_context : option RepoContext)
    (model_name : string) (st : State World) :
  summarizer_returns call_llm →
  Forall (λ e : DayEntry, is_large e = true ∧ snd (fst e) ≠ []) large_days →
  ∃ st' changes,
    yields (large_days_loop call_llm large_days commit_diffs all_changes
              repo_path repo_context model_name) st
      (flat_map (large_day_events commit_diffs repo_path repo_context model_name)
         large_days)
      st' changes.
Proof.
  intros Hllm Hall. revert all_changes st.
  induction Hall as [|[[day cs] tokens] rest [Hlarge Hne] _ IH];
    intros all_changes st.
  - exists st, all_changes. apply yields_ret.
  - unfold is_large in Hlarge. simpl in Hlarge, Hne.
    assert (Hlen : (Py.len_list cs =? 0) = false).
    { apply Z.eqb_neq. unfold Py.len_list.
      destruct cs; [congruence|]. simpl length. lia. }
    destruct (process_batch_and_extend_yields cs commit_diffs all_changes
                repo_path repo_context model_name
                (Some (TIER_1_THRESHOLD `div` Py.len_list cs)) st Hllm)
      as (st1 & changes1 & H1).
    destruct (IH changes1 st1) as (st2 & changes2 & H2).
    exists st2, changes2. simpl large_days_loop. rewrite Hlarge, Hlen.
    exact (yields_bind _ _ _ _ _ _ _ _ _ H1 H2).
Qed.

Lemma sorted_days_are_keys (commits : list Commit) (day : string) :
  day ∈ Py.sorted (dict_keys (group_commits_by_day isoformat_day commits)) →
  day ∈ dict_keys (group_commits_by_day isoformat_day commits).
Proof. now rewrite sorted_perm. Qed.

(** Tier 2: the days are sized in key order and the packed batches are
    summarised one by one. *)
Lemma tier_2_yields (commits : list Commit)
    (commit_diffs : gmap string (list FileChange)) (all_changes : list Change)
    (repo_path : string) (repo_context : option RepoContext)
    (model_name : string) (st : State World) :
  summarizer_returns call_llm →
  ∃ st' changes,
    yields (tier_2 isoformat_day call_llm commits commit_diffs all_changes
              repo_path repo_context model_name) st
      (sizing_events (day_entries isoformat_day commits commit_diffs)
       ++ flat_map (λ b, batch_events commit_diffs repo_path repo_context
                           model_name b None)
            (pack (day_entries isoformat_day commits commit_diffs) 90000))
      st' changes.
Proof.
  intros Hllm. unfold tier_2.
  destruct (day_data_loop_yields commits commit_diffs
              (Py.sorted (dict_keys (group_commits_by_day isoformat_day commits)))
              [] st (sorted_days_are_keys commits)) as (st1 & H1).
  destruct (process_small_days_batch_yields
              (day_entries isoformat_day commits commit_diffs) commit_diffs
              all_changes repo_path repo_context model_name 90000 st1 Hllm)
    as (st2 & changes & H2).
  exists st2, changes.
  exact (yields_bind _ _ _ _ _ _ _ _ _ H1 H2).
Qed.

(** Tier 3: the days are sized in key order, every large day is
    summarised alone under its per-commit budget, and the small days are
    packed as in Tier 2. *)
Lemma tier_3_yields (commits : list Commit)
    (commit_diffs : gmap string (list FileChange)) (all_changes : list Change)
    (repo_path : string) (repo_context : option RepoContext)
    (model_name : string) (st : State World) :
  summarizer_returns call_llm →
  ∃ st' changes,
    yields (tier_3 isoformat_day call_llm commits commit_diffs all_changes
              repo_path repo_context model_name) st
      (sizing_events (day_entries isoformat_day commits commit_diffs)
       ++ flat_map
            (large_day_events commit_diffs repo_path repo_context model_name)
            (filter (λ e, is_large e = true)
               (day_entries isoformat_day commits commit_diffs))
       ++ flat_map (λ b, batch_events commit_diffs repo_path repo_context
                           model_name b None)
            (pack (filter (λ e, is_large e = false)
                     (day_entries isoformat_day commits commit_diffs)) 90000))
      st' changes.
Proof.
  intros Hllm. unfold tier_3.
  destruct (classify_days_loop_yields commits commit_diffs
              (Py.sorted (dict_keys (group_commits_by_day isoformat_day commits)))
              [] [] st (sorted_days_are_keys commits)) as (st1 & H1).
  fold (day_entries isoformat_day commits commit_diffs) in H1.
  destruct (large_days_loop_yields
              (filter (λ e, is_large e = true)
                 (day_entries isoformat_day commits commit_diffs))
              commit_diffs all_changes repo_path repo_context model_name st1
              Hllm) as (st2 & changes2 & H2).
  { apply Forall_forall. intros e [Hlarge He]%list_elem_of_filter.
    split; [exact Hlarge|]. unfold day_entries in He.
    apply list_elem_of_fmap in He as (day & -> & Hday).
    apply sorted_days_are_keys, group_get_key in Hday as [_ Hne]. exact Hne. }
  destruct (process_small_days_batch_yields
              (filter (λ e, is_large e = false)
                 (day_entries isoformat_day commits commit_diffs))
              commit_diffs changes2 repo_path repo_context model_name 90000
              st2 Hllm) as (st3 & changes3 & H3).
  exists st3, changes3.
  refine (yields_bind _ _ _ _ _ _ _ _ _ H1 _). simpl app.
  exact (yields_bind _ _ _ _ _ _ _ _ _ H2 H3).
Qed.

(** ** Reading a trace *)

Lemma summarizer_prompts_sizing (days : list DayEntry) :
  summarizer_prompts (sizing_events days) = [].
Proof. induction days as [|e days IH]; [reflexivity | exact IH]. Qed.

Lemma summarizer_prompts_batches
    (commit_diffs : gmap string (list FileChange)) (repo_path : string)
    (repo_context : option RepoContext) (model_name : string)
    (budget : list Commit → option Z) (batches : list (list Commit)) :
  summarizer_prompts
    (flat_map (λ b, batch_events commit_diffs repo_path repo_context
                      model_name b (budget b)) batches)
  = map (λ b, build_prompt repo_path
                (build_commit_context b commit_diffs (budget b)) repo_context)
      batches.
Proof.
  induction batches as [|b batches IH]; [reflexivity|].
  simpl. f_equal. exact IH.
Qed.

Lemma budgeted_builds_sizing (days : list DayEntry) :
  budgeted_builds (sizing_events days) = [].
Proof. induction days as [|e days IH]; [reflexivity | exact IH]. Qed.

Lemma budgeted_builds_batches
    (commit_diffs : gmap string (list FileChange)) (repo_path : string)
    (repo_context : option RepoContext) (model_name : string)
    (batches : list (list Commit)) :
  budgeted_builds
    (flat_map (λ b, batch_events commit_diffs repo_path repo_context
                      model_name b None) batches) = [].
Proof. induction batches as [|b batches IH]; [reflexivity | exact IH]. Qed.

Lemma budgeted_builds_large_days
    (commit_diffs : gmap string (list FileChange)) (repo_path : string)
    (repo_context : option RepoContext) (model_name : string)
    (days : list DayEntry) :
  budgeted_builds
    (flat_map (large_day_events commit_diffs repo_path repo_context model_name)
       days)
  = map (λ e : DayEntry,
           (snd (fst e), TIER_1_THRESHOLD `div` Py.len_list (snd (fst e))))
      days.
Proof.
  induction days as [|e days IH]; [reflexivity|].
  simpl. f_equal. exact IH.
Qed.

Lemma budgeted_builds_app (evs1 evs2 : list Event) :
  budgeted_builds (evs1 ++ evs2) = budgeted_builds evs1 ++ budgeted_builds evs2.
Proof. apply omap_app. Qed.

Lemma summarizer_prompts_app (evs1 evs2 : list Event) :
  summarizer_prompts (evs1 ++ evs2)
  = summarizer_prompts evs1 ++ summarizer_prompts evs2.
Proof. apply omap_app. Qed.

(** ** TierStrategy *)

(** C8. In the hybrid tier every day whose own estimated size exceeds the
    Tier-1 threshold is summarised in one pass: one builder call for the
    day under the budget [100,000 // number of commits of the day], then
    one Summarizer call on that blob. When the days are a single day of
    estimated size 150,000 with 10 commits, there is one budgeted builder
    call, with budget 10,000. *)
Theorem hybrid_tier_compresses_large_days (commits : list Commit)
    (commit_diffs : gmap string (list FileChange)) (all_changes : list Change)
    (repo_path : string) (repo_context : option RepoContext)
    (model_name : string) (st : State World) :
  summarizer_returns call_llm →
  let days := day_entries isoformat_day commits commit_diffs in
  ∃ st' changes evs,
    yields (tier_3 isoformat_day call_llm commits commit_diffs all_changes
              repo_path repo_context model_name) st evs st' changes
    ∧ evs = sizing_events days
            ++ flat_map (large_day_events commit_diffs repo_path repo_context
                           model_name)
                 (filter (λ e, is_large e = true) days)
            ++ flat_map (λ b, batch_events commit_diffs repo_path repo_context
                                model_name b None)
                 (pack (filter (λ e, is_large e = false) days) 90000)
    ∧ budgeted_builds evs
      = map (λ e : DayEntry,
               (snd (fst e), 100000 `div` Py.len_list (snd (fst e))))
          (filter (λ e : DayEntry, 100000 < snd e) days)
    ∧ (map (λ e : DayEntry, (Py.len_list (snd (fst e)), snd e)) days
       = [(10, 150000)] →
       ∃ day_commits,
         map (λ e : DayEntry, snd (fst e)) days = [day_commits]
         ∧ evs = [ Build day_commits None;
                   Build day_commits (Some 10000);
                   Summarize model_name
                     (build_prompt repo_path
                        (build_commit_context day_commits commit_diffs
                           (Some 10000)) repo_context) ]
         ∧ budgeted_builds evs = [(day_commits, 10000)]).
Proof.
  intros Hllm days.
  destruct (tier_3_yields commits commit_diffs all_changes repo_path
              repo_context model_name st Hllm) as (st' & changes & Hy).
  fold days in Hy. eexists st', changes, _. split; [exact Hy|].
  split; [reflexivity|]. split.
  - rewrite !budgeted_builds_app, budgeted_builds_sizing,
      budgeted_builds_large_days, budgeted_builds_batches, app_nil_r.
    simpl app. f_equal. apply list_filter_iff. intros [[d cs] t].
    unfold is_large, TIER_1_THRESHOLD. simpl. lia.
  - clearbody days. intros Hone.
    destruct days as [|[[day day_commits] tokens] [|e' rest]];
      try discriminate Hone.
    simpl in Hone. injection Hone as Hlen Htokens. subst tokens.
    exists day_commits. split; [reflexivity|].
    rewrite !filter_cons_True, !filter_cons_False, !filter_nil by
      (unfold is_large, TIER_1_THRESHOLD; simpl; lia || discriminate).
    unfold large_day_events, batch_events, TIER_1_THRESHOLD. simpl.
    rewrite Hlen. split; reflexivity.
Qed.
(** ** The repository loop *)

Variable requests_get :
  string → string → World → World * (exception + Response).
Variable store_data :
  string → list Analysis → World → World * (exception + unit).

Abbreviation process_with repository_contexts headers model_name :=
  (λ repo_path activity_data,
     process_repository isoformat_day requests_get call_llm repo_path
       activity_data (repository_contexts !! repo_path) headers model_name).

Lemma process_repository_names_repository (repo_path : string)
    (activity_data : ActivityData) (repo_context : option RepoContext)
    (headers model_name : string) (st st' : State World) (a : Analysis) :
  process_repository isoformat_day requests_get call_llm repo_path
    activity_data repo_context headers model_name st = (st', inr a) →
  repository a = repo_path.
Proof.
  unfold process_repository, bind. destruct activity_data as [commits|].
  - unfold get_commits, ret.
    destruct (negb (list_truthy (default [] commits))).
    + intros [= _ <-]. reflexivity.
    + destruct (fetch_diffs_loop _ _ _ _ _ _) as [st1 [e|diffs]];
        [discriminate|].
      destruct (select_tier _ _ _ _ _ _ _ _) as [st2 [e|all_changes]];
        [discriminate|].
      intros [= _ <-]. reflexivity.
  - discriminate.
Qed.

(** C9. Whatever the repositories do, the loop returns: a repository
    whose processing raises contributes the result with its identifier
    and no changes, every other repository contributes the analysis its
    processing returned, and the results are in input order. *)
Theorem repository_failures_are_contained
    (items : list (string * ActivityData))
    (repository_contexts : gmap string RepoContext)
    (headers model_name : string) (repository_analyses : list Analysis)
    (st : State World) :
  store_returns store_data →
  ∃ st' final,
    main_loop isoformat_day requests_get call_llm store_data items
      repository_contexts headers model_name repository_analyses st
    = (st', inr final)
    ∧ loop_run (process_with repository_contexts headers model_name)
        (store_data "repository_analyses") items repository_analyses st
        final st'
    ∧ map repository final
      = map repository repository_analyses ++ map fst items.
Proof.
  intros Hstore. revert repository_analyses st.
  induction items as [|[repo_path activity_data] rest IH];
    intros repository_analyses st.
  - exists st, repository_analyses. split; [reflexivity|].
    split; [constructor | now rewrite app_nil_r].
  - destruct (process_repository isoformat_day requests_get call_llm repo_path
                activity_data (repository_contexts !! repo_path) headers
                model_name st) as [st1 outcome] eqn:Hprocess.
    set (contribution := match outcome with
                         | inr analysis => analysis
                         | inl _ => empty_result repo_path
                         end).
    destruct (Hstore "repository_analyses"%string
                (repository_analyses ++ [contribution]) (world st1))
      as [w2 Hw2].
    destruct (IH (repository_analyses ++ [contribution])
                {| world := w2;
                   trace := trace st1 ++
                     [Store "repository_analyses"
                        (repository_analyses ++ [contribution])] |})
      as (st' & final & Hloop & Hrun & Hnames).
    exists st', final. split; [|split].
    + simpl main_loop. unfold bind, try_except, call, ret.
      rewrite Hprocess. subst contribution. unfold empty_result in Hw2, Hloop.
      destruct outcome as [e|analysis]; simpl; rewrite Hw2; exact Hloop.
    + eapply loop_step; [exact Hprocess | reflexivity | exact Hw2 | exact Hrun].
    + rewrite Hnames, map_app, <- app_assoc. f_equal. simpl. f_equal.
      subst contribution. destruct outcome as [e|analysis]; [reflexivity|].
      eapply process_repository_names_repository, Hprocess.
Qed.

End EngineFacts.

(** ** The theorems at sample inputs *)

Lemma sample_summarizer_returns : summarizer_returns Sample.call_llm.
Proof. intros model prompt w. exists w, None. reflexivity. Defined.

Lemma sample_store_returns : store_returns Sample.store_data.
Proof. intros key value w. exists w. reflexivity. Defined.

(** The claim C1 as written fails: three days of 60,000 under the
    threshold 90,000 are summarised in three batches, not in the two
    batches day1 and day2 with day3. *)
Lemma three_days_are_not_two_batches :
  builder_calls
    (trace (fst (process_small_days_batch Sample.call_llm Sample.three_days ∅
                   [] "org/ok" None "model" 90000 Sample.st0)))
  = [(Sample.day1, None); (Sample.day2, None); (Sample.day3, None)]
  ∧ builder_calls
      (trace (fst (process_small_days_batch Sample.call_llm Sample.three_days ∅
                     [] "org/ok" None "model" 90000 Sample.st0)))
    ≠ [(Sample.day1, None); (Sample.day2 ++ Sample.day3, None)].
Proof. split; [reflexivity | vm_compute; discriminate]. Qed.

Lemma pack_three_days_of_60000_witness :
  summarizer_returns Sample.call_llm
  ∧ Sample.day1 ≠ [] ∧ Sample.day2 ≠ [] ∧ Sample.day3 ≠ []
  ∧ ∃ st' changes evs,
      yields (process_small_days_batch Sample.call_llm
                [ ("2024-01-01"%string, Sample.day1, 60000);
                  ("2024-01-02"%string, Sample.day2, 60000);
                  ("2024-01-03"%string, Sample.day3, 60000) ]
                ∅ [] "org/ok" None "model" 90000)
        Sample.st0 evs st' changes
      ∧ builder_calls evs
        = [(Sample.day1, None); (Sample.day2, None); (Sample.day3, None)].
Proof.
  assert (H1 : Sample.day1 ≠ []) by (vm_compute; discriminate).
  assert (H2 : Sample.day2 ≠ []) by (vm_compute; discriminate).
  assert (H3 : Sample.day3 ≠ []) by (vm_compute; discriminate).
  repeat (split; [assumption || exact sample_summarizer_returns|]).
  destruct (pack_three_days_of_60000 Sample.call_llm
              "2024-01-01" "2024-01-02" "2024-01-03"
              Sample.day1 Sample.day2 Sample.day3 ∅ [] "org/ok" None "model"
              Sample.st0 sample_summarizer_returns H1 H2 H3)
    as (st' & changes & evs & Hy & Hb & _).
  exists st', changes, evs. split; [exact Hy | exact Hb].
Defined.

Lemma normalize_truncates_large_patch_witness :
  Sample.big_file ∈ [Sample.big_file]
  ∧ is_non_code_file (raw_name Sample.big_file) = false
  ∧ 90000 < Py.len (raw_patch_text Sample.big_file)
  ∧ ∃ e head,
      e ∈ normalize [Sample.big_file]
      ∧ patch e = (head +:+ TRUNCATED_DIFF_MARKER)%string
      ∧ Py.len head = 90000
      ∧ Py.len (patch e) = 90000 + Py.len TRUNCATED_DIFF_MARKER.
Proof.
  assert (H1 : Sample.big_file ∈ [Sample.big_file]) by apply list_elem_of_here.
  assert (H2 : is_non_code_file (raw_name Sample.big_file) = false)
    by (vm_compute; reflexivity).
  assert (H3 : 90000 < Py.len (raw_patch_text Sample.big_file))
    by (vm_compute; reflexivity).
  repeat (split; [assumption|]).
  destruct (normalize_truncates_large_patch [Sample.big_file] Sample.big_file
              H1 H2 H3) as (e & head & He & _ & _ & Hp & Hh & _ & H95).
  exists e, head. repeat (split; [assumption|]).
  apply H95. vm_compute. reflexivity.
Defined.

Lemma hybrid_tier_compresses_large_days_witness :
  summarizer_returns Sample.call_llm
  ∧ map (λ e : DayEntry, (Py.len_list (snd (fst e)), snd e))
      (day_entries Sample.isoformat_day Sample.large_day ∅)
    = [(10, 150000)]
  ∧ ∃ st' changes evs day_commits,
      yields (tier_3 Sample.isoformat_day Sample.call_llm Sample.large_day ∅
                [] "org/ok" None "model") Sample.st0 evs st' changes
      ∧ budgeted_builds evs = [(day_commits, 10000)].
Proof.
  assert (Hone : map (λ e : DayEntry, (Py.len_list (snd (fst e)), snd e))
                   (day_entries Sample.isoformat_day Sample.large_day ∅)
                 = [(10, 150000)]) by (vm_compute; reflexivity).
  split; [exact sample_summarizer_returns|]. split; [exact Hone|].
  pose proof (hybrid_tier_compresses_large_days Sample.isoformat_day
                Sample.call_llm Sample.large_day ∅ [] "org/ok" None "model"
                Sample.st0 sample_summarizer_returns) as H.
  cbv zeta in H. destruct H as (st' & changes & evs & Hy & _ & _ & Hscenario).
  destruct (Hscenario Hone) as (day_commits & _ & _ & Hb).
  exists st', changes, evs, day_commits. split; [exact Hy | exact Hb].
Defined.

Lemma repository_failures_are_contained_witness :
  store_returns Sample.store_data
  ∧ ∃ st' final,
      main_loop Sample.isoformat_day Sample.requests_get Sample.call_llm
        Sample.store_data Sample.repos ∅ "token" "model" [] Sample.st0
      = (st', inr final)
      ∧ map repository final = ["org/broken"; "org/ok"]%string.
Proof.
  split; [exact sample_store_returns|].
  destruct (repository_failures_are_contained Sample.isoformat_day
              Sample.call_llm Sample.requests_get Sample.store_data
              Sample.repos ∅ "token" "model" [] Sample.st0
              sample_store_returns) as (st' & final & Hmain & _ & Hnames).
  exists st', final. split; [exact Hmain | exact Hnames].
Defined.

(** The loop on the sample repositories: the one that raises gets the
    empty result, the other one its analysis. *)
Example main_loop_sample :
  snd (main_loop Sample.isoformat_day Sample.requests_get Sample.call_llm
         Sample.store_data Sample.repos ∅ "token" "model" [] Sample.st0)
  = inr [ empty_result "org/broken";
          {| repository := "org/ok"; analysis_changes := [] |} ].
Proof. vm_compute. reflexivity. Qed.


(** ** The repository's unit tests, replayed *)

Example test_is_non_code_file_images :
  map is_non_code_file ["photo.png"; "logo.jpg"; "icon.svg"; "diagram.gif"]%string
  = [true; true; true; true].
Proof. vm_compute. reflexivity. Qed.

Example test_is_non_code_file_lock_files : is_non_code_file "file.lock" = true.
Proof. vm_compute. reflexivity. Qed.

Example test_is_code_file :
  map is_non_code_file
    ["app.py"; "index.js"; "main.go"; "style.css"; "README.md"]%string
  = [false; false; false; false; false].
Proof. vm_compute. reflexivity. Qed.

Example test_is_non_code_file_case_insensitive :
  map is_non_code_file ["IMAGE.PNG"; "Video.MP4"]%string = [true; true].
Proof. vm_compute. reflexivity. Qed.

Example test_estimate_tokens_empty_string : estimate_tokens "" = 0.
Proof. reflexivity. Qed.

Example test_estimate_tokens_basic : estimate_tokens "This is a test" = 4.
Proof. reflexivity. Qed.

Example test_group_commits_by_day_multiple_days :
  dict_keys
    (group_commits_by_day Sample.isoformat_day
       [ Sample.commit "abc1" "2024-01-15" 0;
         Sample.commit "abc2" "2024-01-16" 0;
         Sample.commit "abc3" "2024-01-17" 0 ])
  = ["2024-01-15"; "2024-01-16"; "2024-01-17"]%string.
Proof. vm_compute. reflexivity. Qed.

Example test_build_commit_context_empty_commits :
  build_commit_context [] ∅ None = EmptyString.
Proof. reflexivity. Qed.

(** ** The guard of [process_repository] *)

Section ProcessRepository.

Context {World : Type}.
Variable isoformat_day : string → option string.
Variable requests_get :
  string → string → World → World * (exception + Response).
Variable call_llm :
  string → string → World → World * (exception + option RepositoryAnalysis).

(** With no commit the repository is answered at once: nothing is
    fetched, sized or summarised. *)
Lemma process_repository_no_commits (repo_path : string)
    (commits : option (list Commit)) (repo_context : option RepoContext)
    (headers model_name : string) (st : State World) :
  default [] commits = [] →
  process_repository isoformat_day requests_get call_llm repo_path
    (ActivityDict commits) repo_context headers model_name st
  = (st, inr (empty_result repo_path)).
Proof.
  intros H. unfold process_repository, bind, get_commits, ret.
  now rewrite H.
Qed.

(** With commits, the diffs are fetched and the tier is selected. *)
Lemma process_repository_with_commits (repo_path : string)
    (commits : list Commit) (repo_context : option RepoContext)
    (headers model_name : string) (st : State World) :
  commits ≠ [] →
  process_repository isoformat_day requests_get call_llm repo_path
    (ActivityDict (Some commits)) repo_context headers model_name st
  = bind (fetch_diffs_loop requests_get repo_path headers commits ∅)
      (λ commit_diffs,
         bind (select_tier isoformat_day call_llm commits commit_diffs
                 repo_path repo_context model_name)
           (λ all_changes,
              ret {| repository := repo_path;
                     analysis_changes := all_changes |})) st.
Proof.
  intros H. unfold process_repository at 1, bind at 1, get_commits, ret at 1.
  simpl. destruct commits; [congruence | reflexivity].
Qed.

End ProcessRepository.

(** ** Tier 2 on three days of 60,000 *)

(** A repository of three days of estimated size 60,000 each has a total
    estimated size of 180,003 and is summarised in three calls. *)
Example tier_2_three_days :
  estimate_tokens (build_commit_context Sample.three_day_repo ∅ None) = 180003
  ∧ map snd (day_entries Sample.isoformat_day Sample.three_day_repo ∅)
    = [60000; 60000; 60000]
  ∧ length (summarizer_prompts
              (trace (fst (select_tier Sample.isoformat_day Sample.call_llm
                             Sample.three_day_repo ∅ "org/ok" None "model"
                             Sample.st0)))) = 3%nat.
Proof. vm_compute. repeat split; reflexivity. Qed.

(** * Further properties of the engine *)

(** ** SizeEstimator *)

(** X1. The estimate is never negative, does not decrease when the text
    gets longer, is zero exactly below three characters, and the estimate
    of a concatenation is the sum of the estimates or one more. *)
Theorem estimate_tokens_bounds (a b : string) :
  0 ≤ estimate_tokens a
  ∧ (estimate_tokens a = 0 ↔ Py.len a < 3)
  ∧ (Py.len a ≤ Py.len b → estimate_tokens a ≤ estimate_tokens b)
  ∧ estimate_tokens a + estimate_tokens b ≤ estimate_tokens (a +:+ b)
    ≤ estimate_tokens a + estimate_tokens b + 1.
Proof.
  unfold estimate_tokens, CHARS_PER_TOKEN. rewrite len_app.
  pose proof (len_nonneg a). pose proof (len_nonneg b).
  repeat split; try (intros; Z.to_euclidean_division_equations; lia).
Qed.

(** ** The extension filter *)

Lemma lower_char_dot (a : ascii) :
  Ascii.eqb (Py.lower_char a) "."%char = Ascii.eqb a "."%char.
Proof. destruct a as [[] [] [] [] [] [] [] []]; reflexivity. Qed.

Lemma lower_char_idem (a : ascii) :
  Py.lower_char (Py.lower_char a) = Py.lower_char a.
Proof. destruct a as [[] [] [] [] [] [] [] []]; reflexivity. Qed.

Lemma lower_idem (s : string) : Py.lower (Py.lower s) = Py.lower s.
Proof.
  induction s as [|a s IH]; [reflexivity|].
  simpl. now rewrite lower_char_idem, IH.
Qed.

Lemma contains_dot_lower (s : string) :
  Py.contains "."%char (Py.lower s) = Py.contains "."%char s.
Proof.
  induction s as [|a s IH]; [reflexivity|].
  simpl. now rewrite lower_char_dot, IH.
Qed.

Lemma split_dot_lower (s : string) :
  Py.split "."%char (Py.lower s) = map Py.lower (Py.split "."%char s).
Proof.
  induction s as [|a s IH]; [reflexivity|].
  simpl. rewrite lower_char_dot, IH.
  destruct (Ascii.eqb a "."%char); [reflexivity|].
  pose proof (split_nonempty "."%char s) as Hne.
  destruct (Py.split "."%char s); [congruence | reflexivity].
Qed.

Lemma last_item_lower (l : list string) :
  Py.last_item (map Py.lower l) = Py.lower (Py.last_item l).
Proof.
  induction l as [|x l IH]; [reflexivity|].
  destruct l as [|y l]; [reflexivity|].
  change (map Py.lower (x :: y :: l))
    with (Py.lower x :: map Py.lower (y :: l)).
  rewrite !last_item_cons by discriminate. exact IH.
Qed.

(** X2. The extension test does not see the case of the filename. *)
Theorem is_non_code_file_ignores_case (name : string) :
  is_non_code_file (Py.lower name) = is_non_code_file name.
Proof.
  unfold is_non_code_file.
  rewrite contains_dot_lower, split_dot_lower, last_item_lower, lower_idem.
  reflexivity.
Qed.

(** ** DiffNormalizer: bounds *)

Lemma slice_to_length_le (n : nat) (s : string) :
  (String.length (Py.slice_to n s) ≤ n)%nat.
Proof.
  revert s. induction n as [|n IH]; intros [|c s]; simpl; try lia.
  specialize (IH s). lia.
Qed.

Lemma process_file_patch_bound (f : RawFile) (e : FileChange) :
  process_file f = Some e →
  Py.len (patch e) ≤ 90000 + Py.len TRUNCATED_DIFF_MARKER.
Proof.
  intros He. destruct (process_file_Some f e He) as [Hcode _].
  destruct (process_file_kept f Hcode) as (e' & He' & _ & Hpatch).
  assert (e' = e) by congruence. subst e'. rewrite Hpatch.
  pose proof (len_nonneg TRUNCATED_DIFF_MARKER).
  destruct (_ >? _) eqn:E.
  - rewrite len_app. unfold Py.len at 1.
    pose proof (slice_to_length_le (Z.to_nat MAX_FILE_DIFF_SIZE)
                  (raw_patch_text f)).
    unfold MAX_FILE_DIFF_SIZE in *. lia.
  - unfold MAX_FILE_DIFF_SIZE in E. lia.
Qed.

Lemma normalize_loop_length (files : list RawFile) (acc : list FileChange) :
  (length (normalize_loop files acc) ≤ length acc + length files)%nat.
Proof.
  revert acc. induction files as [|f files IH]; intros acc; simpl; [lia|].
  destruct (process_file f).
  - specialize (IH (acc ++ [f0])). rewrite length_app in IH. simpl in IH. lia.
  - specialize (IH acc). lia.
Qed.

(** X3. No normalised patch is longer than 90,000 characters plus the
    marker, and a patch of at most 90,000 characters, the bound included,
    is kept as it is. *)
Theorem normalize_patch_bounds (files : list RawFile) :
  (∀ e, e ∈ normalize files →
     Py.len (patch e) ≤ 90000 + Py.len TRUNCATED_DIFF_MARKER)
  ∧ (∀ f, f ∈ files →
       is_non_code_file (raw_name f) = false →
       Py.len (raw_patch_text f) ≤ 90000 →
       ∃ e, e ∈ normalize files ∧ process_file f = Some e
            ∧ patch e = raw_patch_text f)
  ∧ (length (normalize files) ≤ length files)%nat.
Proof.
  split; [|split].
  - intros e He. apply elem_of_normalize in He as (f & _ & Hf).
    eapply process_file_patch_bound, Hf.
  - intros f Hf Hcode Hlen.
    destruct (process_file_kept f Hcode) as (e & He & _ & Hpatch).
    exists e. split; [apply elem_of_normalize; eauto|]. split; [exact He|].
    rewrite Hpatch. destruct (_ >? _) eqn:E; [|reflexivity].
    unfold MAX_FILE_DIFF_SIZE in E. lia.
  - apply (normalize_loop_length files []).
Qed.

(** ** Diff fetch *)

Section DiffFetch.

Context {World : Type}.
Variable isoformat_day : string → option string.
Variable requests_get :
  string → string → World → World * (exception + Response).
Variable call_llm :
  string → string → World → World * (exception + option RepositoryAnalysis).

(** What [fetch_commit_diff] does with each answer of [requests.get]. *)
Lemma fetch_commit_diff_outcome (repo_path sha headers : string)
    (st : State World) :
  fetch_commit_diff requests_get repo_path sha headers st
  = let (w, r) := requests_get (commit_url repo_path sha) headers (world st) in
    ({| world := w;
        trace := trace st ++ [HttpGet (commit_url repo_path sha) headers] |},
     match r with
     | inl e => inl e
     | inr response =>
         inr (if negb (status_code response =? 200) then []
              else match json response with
                   | None => []
                   | Some data => normalize (default [] (data_files data))
                   end)
     end).
Proof.
  unfold fetch_commit_diff, bind, call, ret, commit_url.
  destruct (requests_get _ headers (world st)) as [w [e|response]];
    [reflexivity|].
  destruct (negb (status_code response =? 200)); [reflexivity|].
  destruct (json response); reflexivity.
Qed.

Lemma normalize_normalized (files : list RawFile) :
  Forall normalized_file (normalize files).
Proof.
  apply Forall_forall. intros e He.
  apply elem_of_normalize in He as (f & _ & Hf). split.
  - apply process_file_Some in Hf as [Hcode Hname]. congruence.
  - eapply process_file_patch_bound, Hf.
Qed.

Lemma fetch_commit_diff_returns (repo_path sha headers : string)
    (st st' : State World) (files : list FileChange) :
  fetch_commit_diff requests_get repo_path sha headers st = (st', inr files) →
  trace st' = trace st ++ [HttpGet (commit_url repo_path sha) headers]
  ∧ Forall normalized_file files.
Proof.
  rewrite fetch_commit_diff_outcome.
  destruct (requests_get _ headers (world st)) as [w [e|response]];
    [discriminate|].
  intros [= <- <-]. split; [reflexivity|].
  destruct (negb _); [constructor|].
  destruct (json response); [apply normalize_normalized | constructor].
Qed.

Lemma fetch_diffs_loop_returns (repo_path headers : string)
    (commits : list Commit) (commit_diffs diffs' : gmap string (list FileChange))
    (st st' : State World) :
  fetch_diffs_loop requests_get repo_path headers commits commit_diffs st
  = (st', inr diffs') →
  trace st'
  = trace st ++ map (λ s, HttpGet (commit_url repo_path s) headers)
                  (fetched_shas commits)
  ∧ ∀ s files, diffs' !! s = Some files →
      commit_diffs !! s = Some files
      ∨ (s ∈ fetched_shas commits ∧ files ≠ []
         ∧ Forall normalized_file files).
Proof.
  revert commit_diffs st. unfold fetched_shas.
  induction commits as [|c commits IH]; intros commit_diffs st.
  - intros [= <- <-]. split; [now rewrite app_nil_r | auto].
  - simpl fetch_diffs_loop. cbn [map].
    destruct (str_truthy (default EmptyString (sha c))) eqn:Hsha.
    + rewrite filter_cons_True by exact Hsha. unfold bind at 1.
      destruct (fetch_commit_diff _ _ _ _ st) as [st1 [e|files1]] eqn:Hfetch;
        [discriminate|].
      apply fetch_commit_diff_returns in Hfetch as [Htrace1 Hfiles1].
      intros Hloop. apply IH in Hloop as [Htrace Hdiffs]. split.
      * rewrite Htrace, Htrace1, <- app_assoc. reflexivity.
      * intros s files Hs. destruct (Hdiffs s files Hs) as [Hold|(Hin & ? & ?)].
        -- destruct files1 as [|f1 files1]; [left; exact Hold|].
           simpl in Hold.
           destruct (decide (default EmptyString (sha c) = s)) as [<-|Hne].
           ++ rewrite lookup_insert_eq in Hold. injection Hold as <-.
              right. split; [apply list_elem_of_here|].
              split; [discriminate | exact Hfiles1].
           ++ rewrite lookup_insert_ne in Hold by exact Hne. left. exact Hold.
        -- right. split; [now apply list_elem_of_further|]. split; assumption.
    + rewrite filter_cons_False by congruence. apply IH.
Qed.

(** X4. When the fetch phase returns, one request was made for each
    commit with a non-empty identifier, in commit order, and every entry
    of the map belongs to such a commit, holds at least one file, and
    holds only files that passed the extension filter with a patch within
    the cap plus the marker. *)
Theorem fetch_phase_invariants (repo_path headers : string)
    (commits : list Commit) (commit_diffs : gmap string (list FileChange))
    (st st' : State World) :
  fetch_diffs_loop requests_get repo_path headers commits ∅ st
  = (st', inr commit_diffs) →
  trace st'
  = trace st ++ map (λ s, HttpGet (commit_url repo_path s) headers)
                  (fetched_shas commits)
  ∧ ∀ s files, commit_diffs !! s = Some files →
      s ≠ EmptyString
      ∧ (∃ c, c ∈ commits ∧ sha c = Some s)
      ∧ files ≠ []
      ∧ Forall normalized_file files.
Proof.
  intros Hloop. apply fetch_diffs_loop_returns in Hloop as [Htrace Hdiffs].
  split; [exact Htrace|]. intros s files Hs.
  destruct (Hdiffs s files Hs) as [Hempty|(Hin & Hne & Hall)].
  { rewrite lookup_empty in Hempty. discriminate. }
  unfold fetched_shas in Hin.
  apply list_elem_of_filter in Hin as [Htruthy Hin].
  apply list_elem_of_fmap in Hin as (c & Hc & Hcin).
  assert (Hs' : s ≠ EmptyString).
  { intros ->. discriminate Htruthy. }
  split; [exact Hs'|]. split; [|split; assumption].
  exists c. split; [exact Hcin|].
  destruct (sha c) as [s0|]; simpl in Hc; congruence.
Qed.

(** X5. An exception of [requests.get] is not contained by the fetch: on
    the first commit with a non-empty identifier it leaves
    [process_repository] as it is, after that one request and before any
    sizing or Summarizer call. *)
Theorem network_error_aborts_repository (repo_path : string)
    (skipped : list Commit) (c : Commit) (rest : list Commit) (s : string)
    (repo_context : option RepoContext) (headers model_name : string)
    (st : State World) (w' : World) (e : exception) :
  fetched_shas skipped = [] →
  sha c = Some s → s ≠ EmptyString →
  requests_get (commit_url repo_path s) headers (world st) = (w', inl e) →
  process_repository isoformat_day requests_get call_llm repo_path
    (ActivityDict (Some (skipped ++ c :: rest))) repo_context headers
    model_name st
  = ({| world := w';
        trace := trace st ++ [HttpGet (commit_url repo_path s) headers] |},
     inl e).
Proof.
  intros Hskipped Hsha Hs Hget.
  assert (Hloop : ∀ diffs,
            fetch_diffs_loop requests_get repo_path headers
              (skipped ++ c :: rest) diffs st
            = ({| world := w';
                  trace := trace st ++
                    [HttpGet (commit_url repo_path s) headers] |}, inl e)).
  { clear repo_context model_name. unfold fetched_shas in Hskipped.
    induction skipped as [|c0 skipped IH]; intros diffs.
    - simpl. rewrite Hsha. simpl.
      assert (Ht : str_truthy s = true).
      { unfold str_truthy. apply negb_true_iff, String.eqb_neq, Hs. }
      rewrite Ht. unfold bind. rewrite fetch_commit_diff_outcome, Hget.
      reflexivity.
    - cbn [map] in Hskipped. simpl.
      destruct (str_truthy (default EmptyString (sha c0))) eqn:Ht0.
      + rewrite filter_cons_True in Hskipped by exact Ht0. discriminate.
      + rewrite filter_cons_False in Hskipped by congruence.
        apply IH, Hskipped. }
  rewrite process_repository_with_commits by (destruct skipped; discriminate).
  unfold bind at 1. rewrite Hloop. reflexivity.
Qed.

End DiffFetch.

(** ** ContextBuilder under a budget *)

Lemma compose_commit_text_header (token_budget : option Z)
    (commit_diffs : gmap string (list FileChange)) (total_tokens : Z)
    (c : Commit) :
  ∃ files_text,
    compose_commit_text token_budget commit_diffs total_tokens c
    = (commit_header c +:+ files_text)%string.
Proof.
  unfold compose_commit_text, commit_header.
  destruct (commit_diffs !! default EmptyString (sha c)) as [files|].
  - rewrite files_loop_blocks. eauto.
  - exists EmptyString. now rewrite str_app_nil_r.
Qed.

Lemma commit_header_length (c : Commit) : 35 ≤ Py.len (commit_header c).
Proof.
  unfold commit_header. rewrite !len_app.
  pose proof (len_nonneg (Py.slice_to 7 (default EmptyString (sha c)))).
  pose proof (len_nonneg (default "Unknown"%string (author c))).
  pose proof (len_nonneg (default EmptyString (timestamp c))).
  pose proof (len_nonneg (default EmptyString (message c))).
  change (Py.len "Commit: ") with 8. change (Py.len "Author: ") with 8.
  change (Py.len "Date: ") with 6. change (Py.len "Message: ") with 9.
  change (Py.len Py.nl) with 1. lia.
Qed.

Lemma compose_commit_text_tokens (token_budget : option Z)
    (commit_diffs : gmap string (list FileChange)) (total_tokens : Z)
    (c : Commit) :
  11 ≤ estimate_tokens
         (compose_commit_text token_budget commit_diffs total_tokens c).
Proof.
  destruct (compose_commit_text_header token_budget commit_diffs total_tokens c)
    as [files_text ->].
  unfold estimate_tokens, CHARS_PER_TOKEN. rewrite len_app.
  pose proof (commit_header_length c). pose proof (len_nonneg files_text).
  Z.to_euclidean_division_equations. lia.
Qed.

Lemma build_loop_cons_budget (budget : Z)
    (commit_diffs : gmap string (list FileChange)) (c : Commit)
    (commits : list Commit) (parts : list string) (total_tokens : Z) :
  budget ≠ 0 →
  build_loop (Some budget) commit_diffs (c :: commits) parts total_tokens
  = if total_tokens
       + estimate_tokens
           (compose_commit_text (Some budget) commit_diffs total_tokens c)
       >? budget
    then parts
    else build_loop (Some budget) commit_diffs commits
           (parts ++ [compose_commit_text (Some budget) commit_diffs
                        total_tokens c])
           (total_tokens
            + estimate_tokens
                (compose_commit_text (Some budget) commit_diffs total_tokens c)).
Proof.
  intros Hb. simpl. destruct (budget =? 0) eqn:E; [lia | reflexivity].
Qed.

Lemma build_loop_budget (budget : Z)
    (commit_diffs : gmap string (list FileChange)) (commits : list Commit)
    (parts : list string) (total_tokens : Z) :
  0 < budget → total_tokens ≤ budget →
  ∃ blocks,
    build_loop (Some budget) commit_diffs commits parts total_tokens
    = parts ++ blocks
    ∧ (length blocks ≤ length commits)%nat
    ∧ Forall2 (λ c block, ∃ files_text,
                 block = (commit_header c +:+ files_text)%string)
        (take (length blocks) commits) blocks
    ∧ total_tokens + blocks_tokens blocks ≤ budget.
Proof.
  intros Hb. revert parts total_tokens.
  induction commits as [|c commits IH]; intros parts total_tokens Htotal.
  - exists []. simpl. rewrite app_nil_r.
    repeat split; [lia | constructor | lia].
  - rewrite build_loop_cons_budget by lia.
    set (text := compose_commit_text (Some budget) commit_diffs total_tokens c).
    destruct (total_tokens + estimate_tokens text >? budget) eqn:E.
    + exists []. simpl. rewrite app_nil_r.
      repeat split; [lia | constructor | lia].
    + destruct (IH (parts ++ [text]) (total_tokens + estimate_tokens text))
        as (blocks & Hloop & Hlen & Hheads & Hsum); [lia|].
      exists (text :: blocks). rewrite Hloop, <- app_assoc.
      split; [reflexivity|]. split; [simpl; lia|]. split.
      * simpl. constructor; [|exact Hheads].
        apply compose_commit_text_header.
      * simpl. lia.
Qed.

(** X6. Under a positive budget the blob holds the blocks of a prefix of
    the commits, in order, each starting with its commit's header, and
    the estimated sizes of these blocks sum to at most the budget. *)
Theorem budgeted_build_is_a_bounded_prefix (budget : Z) (commits : list Commit)
    (commit_diffs : gmap string (list FileChange)) :
  0 < budget →
  ∃ blocks,
    build_commit_context commits commit_diffs (Some budget)
    = Py.join COMMIT_SEPARATOR blocks
    ∧ (length blocks ≤ length commits)%nat
    ∧ Forall2 (λ c block, ∃ files_text,
                 block = (commit_header c +:+ files_text)%string)
        (take (length blocks) commits) blocks
    ∧ blocks_tokens blocks ≤ budget.
Proof.
  intros Hb.
  destruct (build_loop_budget budget commit_diffs commits [] 0 Hb)
    as (blocks & Hloop & Hlen & Hheads & Hsum); [lia|].
  exists blocks. unfold build_commit_context. rewrite Hloop.
  repeat split; [exact Hlen | exact Hheads | lia].
Qed.

(** X7. A budget other than zero and below 11 gives the empty blob for
    every input: the header of a commit alone has at least 35
    characters. *)
Theorem tiny_budget_gives_empty_blob (budget : Z) (commits : list Commit)
    (commit_diffs : gmap string (list FileChange)) :
  budget ≠ 0 → budget < 11 →
  build_commit_context commits commit_diffs (Some budget) = EmptyString.
Proof.
  intros Hne Hlt. unfold build_commit_context.
  destruct commits as [|c commits]; [reflexivity|].
  rewrite build_loop_cons_budget by exact Hne.
  pose proof (compose_commit_text_tokens (Some budget) commit_diffs 0 c).
  destruct (_ >? _) eqn:E; [reflexivity | lia].
Qed.

(** ** BatchPacker: what the batches hold *)

Lemma pack_loop_concat (threshold : Z) (days : list DayEntry)
    (current_batch : list Commit) (current_tokens : Z) :
  concat (pack_loop threshold days current_batch current_tokens)
  = current_batch ++ days_commits days.
Proof.
  unfold days_commits. revert current_batch current_tokens.
  induction days as [|[[day cs] t] days IH]; intros current_batch current_tokens.
  - simpl. destruct current_batch; simpl; now rewrite ?app_nil_r.
  - simpl. destruct (list_truthy current_batch && _).
    + simpl. now rewrite IH.
    + now rewrite IH, <- app_assoc.
Qed.

Lemma pack_loop_nonempty (threshold : Z) (days : list DayEntry)
    (current_batch : list Commit) (current_tokens : Z) :
  Forall (λ b, b ≠ []) (pack_loop threshold days current_batch current_tokens).
Proof.
  revert current_batch current_tokens.
  induction days as [|[[day cs] t] days IH]; intros current_batch current_tokens.
  - simpl. destruct current_batch; simpl; repeat constructor. discriminate.
  - simpl. destruct (list_truthy current_batch) eqn:E; simpl.
    + destruct (_ >? _); [|apply IH].
      constructor; [|apply IH]. now destruct current_batch.
    + apply IH.
Qed.

Lemma list_truthy_days_commits (days : list DayEntry) :
  Forall (λ e : DayEntry, snd (fst e) ≠ []) days →
  list_truthy (days_commits days) = list_truthy days.
Proof.
  unfold days_commits. intros [|[[d cs] t] days' Hcs _]; [reflexivity|].
  simpl in *. now destruct cs.
Qed.

Lemma days_commits_snoc (days : list DayEntry) (e : DayEntry) :
  days_commits (days ++ [e]) = days_commits days ++ snd (fst e).
Proof.
  unfold days_commits. rewrite map_app, concat_app. simpl.
  now rewrite app_nil_r.
Qed.

Lemma days_tokens_snoc (days : list DayEntry) (e : DayEntry) :
  days_tokens (days ++ [e]) = days_tokens days + snd e.
Proof.
  unfold days_tokens. induction days as [|d days IH]; simpl; [lia|].
  rewrite IH. lia.
Qed.

(** The batches are runs of consecutive days: a run of several days is
    within the threshold. *)
Lemma pack_loop_groups (threshold : Z) (days current : list DayEntry) :
  Forall (λ e : DayEntry, snd (fst e) ≠ []) days →
  Forall (λ e : DayEntry, snd (fst e) ≠ []) current →
  (length current ≤ 1)%nat ∨ days_tokens current ≤ threshold →
  ∃ groups,
    pack_loop threshold days (days_commits current) (days_tokens current)
    = map days_commits groups
    ∧ concat groups = current ++ days
    ∧ Forall (λ g, g ≠ []
                   ∧ (length g = 1%nat ∨ days_tokens g ≤ threshold)) groups.
Proof.
  intros Hdays. revert current.
  induction Hdays as [|e days He Hdays IH]; intros current Hcurrent Hinv.
  - simpl. rewrite list_truthy_days_commits by exact Hcurrent.
    destruct current as [|e0 others].
    + exists []. repeat split; constructor.
    + exists [e0 :: others]. split; [reflexivity|].
      split; [simpl; now rewrite !app_nil_r|].
      constructor; [|constructor]. split; [discriminate|].
      destruct Hinv as [Hlen|Hsum]; [left | right; exact Hsum].
      simpl in *. lia.
  - destruct e as [[day cs] t]. simpl pack_loop.
    rewrite list_truthy_days_commits by exact Hcurrent.
    destruct (list_truthy current && (days_tokens current + t >? threshold))
      eqn:Hflush.
    + apply andb_true_iff in Hflush as [Hne Hover].
      destruct (IH [(day, cs, t)]) as (groups & Hpack & Hconcat & Hall).
      { repeat constructor. exact He. }
      { left. simpl. lia. }
      exists (current :: groups). split; [|split].
      * simpl. f_equal.
        replace cs with (days_commits [(day, cs, t)])
          by (unfold days_commits; simpl; apply app_nil_r).
        replace t with (days_tokens [(day, cs, t)]) at 2
          by (unfold days_tokens; simpl; lia).
        exact Hpack.
      * simpl. rewrite Hconcat. reflexivity.
      * constructor; [|exact Hall]. split; [now destruct current|].
        destruct Hinv as [Hlen|Hsum]; [left | right; exact Hsum].
        destruct current as [|? [|? ?]]; simpl in *; try discriminate; lia.
    + destruct (IH (current ++ [(day, cs, t)])) as (groups & Hpack & Hconcat & Hall).
      { apply Forall_app. split; [exact Hcurrent|]. repeat constructor. exact He. }
      { apply andb_false_iff in Hflush as [Hempty|Hfits].
        - left. destruct current; [simpl; lia | discriminate].
        - right. rewrite days_tokens_snoc. simpl. lia. }
      exists groups. rewrite days_commits_snoc, days_tokens_snoc in Hpack.
      split; [exact Hpack|]. split; [|exact Hall].
      rewrite Hconcat, <- app_assoc. reflexivity.
Qed.

Lemma builder_calls_batches (commit_diffs : gmap string (list FileChange))
    (repo_path : string) (repo_context : option RepoContext)
    (model_name : string) (batches : list (list Commit)) :
  builder_calls
    (flat_map (λ b, batch_events commit_diffs repo_path repo_context
                      model_name b None) batches)
  = map (λ b, (b, None)) batches.
Proof.
  induction batches as [|b batches IH]; [reflexivity|].
  simpl. f_equal. exact IH.
Qed.

Section Packer.

Context {World : Type}.
Variable call_llm :
  string → string → World → World * (exception + option RepositoryAnalysis).

(** X8. The packer neither drops nor repeats a commit: the batches it
    summarises, one Summarizer call each, are not empty and, put end to
    end, are the commits of the days in day order. *)
Theorem packer_keeps_every_commit (small_days : list DayEntry)
    (commit_diffs : gmap string (list FileChange)) (all_changes : list Change)
    (repo_path : string) (repo_context : option RepoContext)
    (model_name : string) (batch_threshold : Z) (st : State World) :
  summarizer_returns call_llm →
  ∃ st' changes evs batches,
    yields (process_small_days_batch call_llm small_days commit_diffs
              all_changes repo_path repo_context model_name batch_threshold)
      st evs st' changes
    ∧ builder_calls evs = map (λ b, (b, None)) batches
    ∧ length (summarizer_prompts evs) = length batches
    ∧ concat batches = days_commits small_days
    ∧ Forall (λ b, b ≠ []) batches.
Proof.
  intros Hllm.
  destruct (process_small_days_batch_yields call_llm small_days commit_diffs
              all_changes repo_path repo_context model_name batch_threshold
              st Hllm) as (st' & changes & Hy).
  eexists st', changes, _, (pack small_days batch_threshold).
  split; [exact Hy|]. split; [apply builder_calls_batches|]. split; [|split].
  - rewrite (summarizer_prompts_batches _ _ _ _ (λ _, None)).
    apply length_map.
  - apply (pack_loop_concat batch_threshold small_days [] 0).
  - apply pack_loop_nonempty.
Qed.

(** X9. When no day is empty, each summarised batch is a run of
    consecutive days, and a batch of more than one day has a summed
    estimated size within the threshold: only a day alone can exceed
    it. *)
Theorem packer_respects_threshold (small_days : list DayEntry)
    (commit_diffs : gmap string (list FileChange)) (all_changes : list Change)
    (repo_path : string) (repo_context : option RepoContext)
    (model_name : string) (batch_threshold : Z) (st : State World) :
  summarizer_returns call_llm →
  Forall (λ e : DayEntry, snd (fst e) ≠ []) small_days →
  ∃ st' changes evs groups,
    yields (process_small_days_batch call_llm small_days commit_diffs
              all_changes repo_path repo_context model_name batch_threshold)
      st evs st' changes
    ∧ builder_calls evs = map (λ g, (days_commits g, None)) groups
    ∧ concat groups = small_days
    ∧ Forall (λ g, g ≠ []
                   ∧ (length g = 1%nat ∨ days_tokens g ≤ batch_threshold))
        groups.
Proof.
  intros Hllm Hdays.
  destruct (process_small_days_batch_yields call_llm small_days commit_diffs
              all_changes repo_path repo_context model_name batch_threshold
              st Hllm) as (st' & changes & Hy).
  destruct (pack_loop_groups batch_threshold small_days [] Hdays)
    as (groups & Hpack & Hconcat & Hall); [constructor | left; simpl; lia|].
  eexists st', changes, _, groups. split; [exact Hy|].
  split; [|split; assumption].
  rewrite builder_calls_batches. unfold pack.
  change [] with (days_commits []) at 1.
  change 0 with (days_tokens []) at 1.
  rewrite Hpack, map_map. reflexivity.
Qed.

(** X10. An exception of the Summarizer is not contained by the packer:
    when the call for the first batch raises, the packer raises the same
    exception at once and the later batches are neither built nor
    summarised. *)
Theorem summarizer_error_aborts_packing (small_days : list DayEntry)
    (commit_diffs : gmap string (list FileChange)) (all_changes : list Change)
    (repo_path : string) (repo_context : option RepoContext)
    (model_name : string) (batch_threshold : Z) (st : State World)
    (b : list Commit) (later : list (list Commit)) (w' : World) (e : exception) :
  pack small_days batch_threshold = b :: later →
  call_llm model_name
    (build_prompt repo_path (build_commit_context b commit_diffs None)
       repo_context) (world st) = (w', inl e) →
  process_small_days_batch call_llm small_days commit_diffs all_changes
    repo_path repo_context model_name batch_threshold st
  = ({| world := w';
        trace := trace st ++ batch_events commit_diffs repo_path repo_context
                               model_name b None |}, inl e).
Proof.
  intros Hpack Hcall. rewrite process_small_days_batch_refines, Hpack.
  simpl run_batches.
  unfold bind, process_batch_and_extend, bind, build_commit_context_call,
    analyze_batch, call, log, ret, batch_events.
  simpl. rewrite Hcall. now rewrite <- app_assoc.
Qed.

End Packer.

(** ** The order of the days *)

Lemma ltb_le (x y : string) : String.ltb x y = true → String.le x y.
Proof.
  unfold String.le, String.leb, String.ltb.
  destruct (String.compare x y); [discriminate | reflexivity | discriminate].
Qed.

Lemma not_ltb_le (x y : string) : String.ltb x y = false → String.le y x.
Proof.
  unfold String.le, String.leb, String.ltb.
  rewrite (String.compare_antisym y x).
  destruct (String.compare x y); simpl; [reflexivity | discriminate | reflexivity].
Qed.

Lemma insert_str_HdRel (x y : string) (l : list string) :
  HdRel String.le y l → String.le y x → HdRel String.le y (Py.insert_str x l).
Proof.
  intros Hl Hyx. destruct l as [|z l]; simpl; [now constructor|].
  destruct (String.ltb x z); constructor; [exact Hyx|].
  now inversion Hl.
Qed.

Lemma insert_str_Sorted (x : string) (l : list string) :
  Sorted String.le l → Sorted String.le (Py.insert_str x l).
Proof.
  induction 1 as [|y l Hl IH Hhd]; simpl; [repeat constructor|].
  destruct (String.ltb x y) eqn:E.
  - constructor; [now constructor|]. constructor. now apply ltb_le.
  - constructor; [exact IH|]. apply insert_str_HdRel; [exact Hhd|].
    now apply not_ltb_le.
Qed.

Lemma sorted_Sorted (l : list string) : Sorted String.le (Py.sorted l).
Proof.
  unfold Py.sorted.
  enough (H : ∀ acc, Sorted String.le acc →
            Sorted String.le (fold_left (λ acc x, Py.insert_str x acc) l acc))
    by (apply H; constructor).
  induction l as [|x l IH]; intros acc Hacc; [exact Hacc|].
  simpl. apply IH, insert_str_Sorted, Hacc.
Qed.

Lemma digit_before_unknown (k : string) :
  starts_with_digit k = true → ¬ String.le "unknown" k.
Proof.
  destruct k as [|c k]; [discriminate|]. simpl. intros Hd.
  apply andb_true_iff in Hd as [_ Hd]. apply N.leb_le in Hd.
  unfold String.le, String.leb. simpl. unfold Ascii.compare.
  change (N_of_ascii "u") with 117%N.
  assert (Hgt : (117 ?= N_of_ascii c)%N = Gt) by (apply N.compare_gt_iff; lia).
  rewrite Hgt. simpl. auto.
Qed.

(** X11. The days are taken in ascending order of their keys, each key
    once; when every other key starts with a digit, as the dates do, the
    key ["unknown"] comes last. *)
Theorem days_are_taken_in_key_order (isoformat_day : string → option string)
    (commits : list Commit) :
  let sorted_days :=
    Py.sorted (dict_keys (group_commits_by_day isoformat_day commits)) in
  StronglySorted String.le sorted_days
  ∧ NoDup sorted_days
  ∧ sorted_days ≡ₚ dict_keys (group_commits_by_day isoformat_day commits)
  ∧ ((∀ day, day ∈ sorted_days → day ≠ "unknown"%string →
        starts_with_digit day = true) →
     "unknown"%string ∈ sorted_days →
     ∃ dated, sorted_days = dated ++ ["unknown"%string]).
Proof.
  intros sorted_days.
  assert (Hsorted : StronglySorted String.le sorted_days).
  { apply Sorted_StronglySorted; [apply _ | apply sorted_Sorted]. }
  assert (Hperm : sorted_days
                  ≡ₚ dict_keys (group_commits_by_day isoformat_day commits))
    by apply sorted_perm.
  assert (Hnodup : NoDup sorted_days).
  { rewrite Hperm. apply group_keys_NoDup. }
  repeat split; try assumption.
  intros Hdigits Hin. apply list_elem_of_split in Hin as (dated & later & Heq).
  exists dated. rewrite Heq. f_equal. f_equal.
  destruct later as [|k later]; [reflexivity|]. exfalso.
  rewrite Heq in Hsorted, Hnodup.
  apply (digit_before_unknown k).
  - apply Hdigits.
    + rewrite Heq. apply elem_of_app. right. apply list_elem_of_further.
      apply list_elem_of_here.
    + intros ->. apply NoDup_app in Hnodup as (_ & _ & Hnd).
      apply NoDup_cons in Hnd as [Hnotin _]. apply Hnotin, list_elem_of_here.
  - apply StronglySorted_app_1_r in Hsorted.
    apply StronglySorted_cons in Hsorted as [Hall _].
    apply Forall_cons in Hall as [Hle _]. exact Hle.
Qed.

(** ** Every commit is summarised once *)

Lemma concat_perm {A} (l1 l2 : list (list A)) :
  l1 ≡ₚ l2 → concat l1 ≡ₚ concat l2.
Proof.
  induction 1 as [|x l1 l2 _ IH|x y l|l1 l2 l3 _ IH1 _ IH2]; simpl.
  - reflexivity.
  - now rewrite IH.
  - rewrite !app_assoc. apply Permutation_app_tail, Permutation_app_comm.
  - now rewrite IH1.
Qed.

Lemma no_summarize_head_app (evs1 evs2 : list Event) :
  match evs1 with Summarize _ _ :: _ => False | _ => True end →
  match evs2 with Summarize _ _ :: _ => False | _ => True end →
  match evs1 ++ evs2 with Summarize _ _ :: _ => False | _ => True end.
Proof. destruct evs1 as [|[] evs1]; simpl; auto. Qed.

Lemma summarized_batches_build (cs : list Commit) (budget : option Z)
    (evs : list Event) :
  match evs with Summarize _ _ :: _ => False | _ => True end →
  summarized_batches (Build cs budget :: evs) = summarized_batches evs.
Proof. destruct evs as [|[] evs]; simpl; tauto. Qed.

Lemma summarized_batches_sizing (days : list DayEntry) (evs : list Event) :
  match evs with Summarize _ _ :: _ => False | _ => True end →
  summarized_batches (sizing_events days ++ evs) = summarized_batches evs.
Proof.
  intros Hevs. induction days as [|e days IH]; [reflexivity|].
  change (sizing_events (e :: days) ++ evs)
    with (Build (snd (fst e)) None :: (sizing_events days ++ evs)).
  rewrite summarized_batches_build; [exact IH|].
  destruct days; [exact Hevs | exact I].
Qed.

Lemma summarized_batches_batches
    (commit_diffs : gmap string (list FileChange)) (repo_path : string)
    (repo_context : option RepoContext) (model_name : string)
    (batches : list (list Commit)) (evs : list Event) :
  summarized_batches
    (flat_map (λ b, batch_events commit_diffs repo_path repo_context
                      model_name b None) batches ++ evs)
  = batches ++ summarized_batches evs.
Proof.
  induction batches as [|b batches IH]; [reflexivity|].
  simpl. f_equal. exact IH.
Qed.

Lemma summarized_batches_large_days
    (commit_diffs : gmap string (list FileChange)) (repo_path : string)
    (repo_context : option RepoContext) (model_name : string)
    (days : list DayEntry) (evs : list Event) :
  summarized_batches
    (flat_map (large_day_events commit_diffs repo_path repo_context model_name)
       days ++ evs)
  = map (λ e : DayEntry, snd (fst e)) days ++ summarized_batches evs.
Proof.
  induction days as [|e days IH]; [reflexivity|].
  simpl. f_equal. exact IH.
Qed.

Lemma batches_no_summarize_head
    (commit_diffs : gmap string (list FileChange)) (repo_path : string)
    (repo_context : option RepoContext) (model_name : string)
    (batches : list (list Commit)) :
  match flat_map (λ b, batch_events commit_diffs repo_path repo_context
                         model_name b None) batches
  with Summarize _ _ :: _ => False | _ => True end.
Proof. destruct batches; exact I. Qed.

Lemma large_days_no_summarize_head
    (commit_diffs : gmap string (list FileChange)) (repo_path : string)
    (repo_context : option RepoContext) (model_name : string)
    (days : list DayEntry) :
  match flat_map (large_day_events commit_diffs repo_path repo_context
                    model_name) days
  with Summarize _ _ :: _ => False | _ => True end.
Proof. destruct days; exact I. Qed.

Lemma summarizer_prompts_large_days_length
    (commit_diffs : gmap string (list FileChange)) (repo_path : string)
    (repo_context : option RepoContext) (model_name : string)
    (days : list DayEntry) :
  length (summarizer_prompts
            (flat_map (large_day_events commit_diffs repo_path repo_context
                         model_name) days))
  = length days.
Proof.
  induction days as [|e days IH]; [reflexivity|]. simpl. f_equal. exact IH.
Qed.

Lemma filter_large_split (days : list DayEntry) :
  filter (λ e, is_large e = true) days ++ filter (λ e, is_large e = false) days
  ≡ₚ days.
Proof.
  induction days as [|e days IH]; [reflexivity|].
  destruct (is_large e) eqn:E.
  - rewrite filter_cons_True, filter_cons_False by congruence.
    simpl. now rewrite IH.
  - rewrite filter_cons_False, filter_cons_True by congruence.
    rewrite <- Permutation_middle. now rewrite IH.
Qed.

Section Coverage.

Context {World : Type}.
Variable isoformat_day : string → option string.
Variable call_llm :
  string → string → World → World * (exception + option RepositoryAnalysis).

(** The buckets of the days, taken in key order, hold the commits. *)
Lemma day_entries_commits (commits : list Commit)
    (commit_diffs : gmap string (list FileChange)) :
  days_commits (day_entries isoformat_day commits commit_diffs) ≡ₚ commits.
Proof.
  unfold days_commits, day_entries, day_entry. rewrite map_map. simpl.
  pose proof (group_from_concat isoformat_day commits []) as Hperm.
  simpl in Hperm. fold (group_commits_by_day isoformat_day commits) in Hperm.
  rewrite <- Hperm at 2. apply concat_perm.
  rewrite (sorted_perm (dict_keys (group_commits_by_day isoformat_day commits))).
  unfold dict_keys. rewrite map_map. apply Permutation_refl'.
  apply map_ext_in. intros [day bucket] Hin. simpl.
  apply list_elem_of_In, elem_of_dict_get, group_get in Hin as [-> _];
    [reflexivity | apply group_keys_NoDup].
Qed.

Lemma select_tier_yields (commits : list Commit)
    (commit_diffs : gmap string (list FileChange)) (repo_path : string)
    (repo_context : option RepoContext) (model_name : string)
    (st : State World) :
  summarizer_returns call_llm →
  let days := day_entries isoformat_day commits commit_diffs in
  let batch := λ b, batch_events commit_diffs repo_path repo_context
                      model_name b None in
  ∃ st' changes evs,
    yields (select_tier isoformat_day call_llm commits commit_diffs repo_path
              repo_context model_name) st (Build commits None :: evs) st' changes
    ∧ (evs = batch commits
       ∨ evs = sizing_events days ++ flat_map batch (pack days 90000)
       ∨ evs = sizing_events days
               ++ flat_map (large_day_events commit_diffs repo_path
                              repo_context model_name)
                    (filter (λ e, is_large e = true) days)
               ++ flat_map batch
                    (pack (filter (λ e, is_large e = false) days) 90000)).
Proof.
  intros Hllm days batch.
  pose proof (yields_build (World := World) commits commit_diffs None st)
    as Hsize.
  set (st1 := {| world := world st; trace := trace st ++ [Build commits None] |})
    in Hsize.
  unfold select_tier.
  destruct (estimate_tokens (build_commit_context commits commit_diffs None)
            <? TIER_1_THRESHOLD) eqn:E1;
    [|destruct (estimate_tokens (build_commit_context commits commit_diffs None)
                <? TIER_2_THRESHOLD) eqn:E2].
  - destruct (process_batch_and_extend_yields call_llm commits commit_diffs []
                repo_path repo_context model_name None st1 Hllm)
      as (st2 & changes & H2).
    eexists st2, changes, _. split; [|left; reflexivity].
    refine (yields_bind _ _ _ _ _ [_] _ _ _ Hsize _). cbv zeta.
    rewrite E1. exact H2.
  - destruct (tier_2_yields isoformat_day call_llm commits commit_diffs []
                repo_path repo_context model_name st1 Hllm)
      as (st2 & changes & H2).
    eexists st2, changes, _. split; [|right; left; reflexivity].
    refine (yields_bind _ _ _ _ _ [_] _ _ _ Hsize _). cbv zeta.
    rewrite E1, E2. exact H2.
  - destruct (tier_3_yields isoformat_day call_llm commits commit_diffs []
                repo_path repo_context model_name st1 Hllm)
      as (st2 & changes & H2).
    eexists st2, changes, _. split; [|right; right; reflexivity].
    refine (yields_bind _ _ _ _ _ [_] _ _ _ Hsize _). cbv zeta.
    rewrite E1, E2. exact H2.
Qed.

(** X12. Whatever the tier, the batches that are summarised hold every
    input commit exactly once, and there is one Summarizer call for each
    of these batches. *)
Theorem every_commit_is_summarised_once (commits : list Commit)
    (commit_diffs : gmap string (list FileChange)) (repo_path : string)
    (repo_context : option RepoContext) (model_name : string)
    (st : State World) :
  summarizer_returns call_llm →
  ∃ st' changes evs,
    yields (select_tier isoformat_day call_llm commits commit_diffs repo_path
              repo_context model_name) st evs st' changes
    ∧ concat (summarized_batches evs) ≡ₚ commits
    ∧ length (summarizer_prompts evs) = length (summarized_batches evs).
Proof.
  intros Hllm.
  pose proof (select_tier_yields commits commit_diffs repo_path repo_context
                model_name st Hllm) as H.
  cbv zeta in H. destruct H as (st' & changes & evs & Hy & Hevs).
  exists st', changes, (Build commits None :: evs). split; [exact Hy|].
  pose proof (day_entries_commits commits commit_diffs) as Hdays.
  unfold days_commits in Hdays.
  destruct Hevs as [->|[->| ->]].
  - split; [simpl; now rewrite app_nil_r | reflexivity].
  - rewrite summarized_batches_build
      by (apply no_summarize_head_app;
          [destruct (day_entries _ _ _); exact I
          | apply batches_no_summarize_head]).
    rewrite summarized_batches_sizing by apply batches_no_summarize_head.
    rewrite <- (app_nil_r (flat_map _ _)), summarized_batches_batches.
    simpl summarized_batches. rewrite !app_nil_r. split.
    + unfold pack. rewrite pack_loop_concat. exact Hdays.
    + change (summarizer_prompts (Build commits None :: ?l))
        with (summarizer_prompts l).
      rewrite summarizer_prompts_app, summarizer_prompts_sizing.
      rewrite (summarizer_prompts_batches _ _ _ _ (λ _, None)).
      simpl. now rewrite length_map.
  - set (days := day_entries isoformat_day commits commit_diffs) in *.
    rewrite summarized_batches_build
      by (apply no_summarize_head_app;
          [destruct days; exact I
          | apply no_summarize_head_app;
            [apply large_days_no_summarize_head
            | apply batches_no_summarize_head]]).
    rewrite summarized_batches_sizing
      by (apply no_summarize_head_app;
          [apply large_days_no_summarize_head
          | apply batches_no_summarize_head]).
    rewrite summarized_batches_large_days.
    rewrite <- (app_nil_r (flat_map _ (pack _ _))), summarized_batches_batches.
    simpl summarized_batches. rewrite !app_nil_r. split.
    + rewrite concat_app. unfold pack. rewrite pack_loop_concat.
      unfold days_commits. simpl. rewrite <- concat_app, <- map_app.
      rewrite <- Hdays. apply concat_perm, Permutation_map, filter_large_split.
    + change (summarizer_prompts (Build commits None :: ?l))
        with (summarizer_prompts l).
      rewrite !summarizer_prompts_app, summarizer_prompts_sizing.
      rewrite (summarizer_prompts_batches _ _ _ _ (λ _, None)).
      simpl app. rewrite !length_app, !length_map.
      now rewrite summarizer_prompts_large_days_length.
Qed.

(** X13. A large day of more than 100,000 commits gets the per-commit
    budget 0, which the builder reads as no budget: the day is sent to
    the Summarizer as its full blob. *)
Theorem crowded_day_is_sent_in_full (day : string) (day_commits : list Commit)
    (day_tokens : Z) (commit_diffs : gmap string (list FileChange))
    (all_changes : list Change) (repo_path : string)
    (repo_context : option RepoContext) (model_name : string)
    (st : State World) :
  summarizer_returns call_llm →
  100000 < day_tokens →
  100000 < Py.len_list day_commits →
  ∃ st' changes,
    yields (large_days_loop call_llm [(day, day_commits, day_tokens)]
              commit_diffs all_changes repo_path repo_context model_name) st
      [ Build day_commits (Some 0);
        Summarize model_name
          (build_prompt repo_path
             (build_commit_context day_commits commit_diffs None)
             repo_context) ]
      st' changes.
Proof.
  intros Hllm Htokens Hlen.
  destruct (large_days_loop_yields call_llm [(day, day_commits, day_tokens)]
              commit_diffs all_changes repo_path repo_context model_name st
              Hllm) as (st' & changes & Hy).
  { repeat constructor.
    - unfold is_large, TIER_1_THRESHOLD. simpl. lia.
    - simpl. intros ->. unfold Py.len_list in Hlen. simpl in Hlen. lia. }
  exists st', changes. destruct Hy as [Hrun Htrace].
  split; [exact Hrun|]. rewrite Htrace. f_equal.
  assert (Hzero : TIER_1_THRESHOLD `div` Py.len_list day_commits = 0).
  { apply Z.div_small. unfold TIER_1_THRESHOLD. lia. }
  unfold large_day_events, batch_events. simpl.
  now rewrite Hzero, build_commit_context_zero_budget.
Qed.

End Coverage.

(** ** The repository loop: what is stored *)

Section Store.

Context {World : Type}.
Variable isoformat_day : string → option string.
Variable requests_get :
  string → string → World → World * (exception + Response).
Variable call_llm :
  string → string → World → World * (exception + option RepositoryAnalysis).
Variable store_data :
  string → list Analysis → World → World * (exception + unit).

Lemma stores_nothing_ret {A} (a : A) : stores_nothing (World := World) (ret a).
Proof. intros st st' r [= <- <-]. exists []. now rewrite app_nil_r. Qed.

Lemma stores_nothing_raise {A} (e : exception) :
  stores_nothing (World := World) (A := A) (raise e).
Proof. intros st st' r [= <- <-]. exists []. now rewrite app_nil_r. Qed.

Lemma stores_nothing_bind {A B} (m : M World A) (k : A → M World B) :
  stores_nothing m → (∀ a, stores_nothing (k a)) → stores_nothing (bind m k).
Proof.
  intros Hm Hk st st' r. unfold bind.
  destruct (m st) as [st1 [e|a]] eqn:Em.
  - intros [= <- <-]. exact (Hm _ _ _ Em).
  - intros Ek. destruct (Hm _ _ _ Em) as (evs1 & Ht1 & Hs1).
    destruct (Hk a _ _ _ Ek) as (evs2 & Ht2 & Hs2).
    exists (evs1 ++ evs2). split.
    + now rewrite Ht2, Ht1, app_assoc.
    + unfold stored_lists in *. now rewrite omap_app, Hs1, Hs2.
Qed.

Lemma stores_nothing_call {A} (ev : Event)
    (f : World → World * (exception + A)) :
  stored_lists [ev] = [] → stores_nothing (call ev f).
Proof.
  intros Hev st st' r. unfold call.
  destruct (f (world st)) as [w r']. intros [= <- <-]. exists [ev]. auto.
Qed.

Lemma stores_nothing_build (commits : list Commit)
    (commit_diffs : gmap string (list FileChange)) (token_budget : option Z) :
  stores_nothing (World := World)
    (build_commit_context_call commits commit_diffs token_budget).
Proof.
  intros st st' r [= <- <-]. exists [Build commits token_budget]. auto.
Qed.

Lemma stores_nothing_batch (commits : list Commit)
    (commit_diffs : gmap string (list FileChange)) (all_changes : list Change)
    (repo_path : string) (repo_context : option RepoContext)
    (model_name : string) (token_budget : option Z) :
  stores_nothing
    (process_batch_and_extend call_llm commits commit_diffs all_changes
       repo_path repo_context model_name token_budget).
Proof.
  apply stores_nothing_bind; [apply stores_nothing_build|]. intros context.
  apply stores_nothing_bind; [now apply stores_nothing_call|].
  intros [r|]; apply stores_nothing_ret.
Qed.

Lemma stores_nothing_small_days (small_days : list DayEntry)
    (commit_diffs : gmap string (list FileChange)) (repo_path : string)
    (repo_context : option RepoContext) (model_name : string)
    (batch_threshold : Z) (current_batch : list Commit) (current_tokens : Z)
    (all_changes : list Change) :
  stores_nothing
    (small_days_loop call_llm small_days commit_diffs repo_path repo_context
       model_name batch_threshold current_batch current_tokens all_changes).
Proof.
  revert current_batch current_tokens all_changes.
  induction small_days as [|[[day cs] t] rest IH];
    intros current_batch current_tokens all_changes; simpl.
  - destruct (list_truthy current_batch);
      [apply stores_nothing_batch | apply stores_nothing_ret].
  - apply stores_nothing_bind.
    + destruct (_ && _); [|apply stores_nothing_ret].
      apply stores_nothing_bind; [apply stores_nothing_batch|].
      intros a. apply stores_nothing_ret.
    + intros [[b tk] a]. apply IH.
Qed.

Lemma stores_nothing_fetch_loop (repo_path headers : string)
    (commits : list Commit) (commit_diffs : gmap string (list FileChange)) :
  stores_nothing
    (fetch_diffs_loop requests_get repo_path headers commits commit_diffs).
Proof.
  revert commit_diffs. induction commits as [|c commits IH];
    intros commit_diffs; simpl; [apply stores_nothing_ret|].
  destruct (str_truthy _); [|apply IH].
  apply stores_nothing_bind; [|intros diffs; apply IH].
  unfold fetch_commit_diff.
  apply stores_nothing_bind; [now apply stores_nothing_call|].
  intros response. destruct (negb _); [apply stores_nothing_ret|].
  destruct (json response); apply stores_nothing_ret.
Qed.

Lemma stores_nothing_day_data (sorted_days : list string)
    (commits_by_day : list (string * list Commit))
    (commit_diffs : gmap string (list FileChange)) (day_data : list DayEntry) :
  stores_nothing (World := World)
    (day_data_loop sorted_days commits_by_day commit_diffs day_data).
Proof.
  revert day_data. induction sorted_days as [|day rest IH]; intros day_data;
    simpl; [apply stores_nothing_ret|].
  destruct (dict_get commits_by_day day); [apply stores_nothing_raise|].
  apply stores_nothing_bind; [apply stores_nothing_build|].
  intros context. apply IH.
Qed.

Lemma stores_nothing_classify (sorted_days : list string)
    (commits_by_day : list (string * list Commit))
    (commit_diffs : gmap string (list FileChange))
    (large_days small_days : list DayEntry) :
  stores_nothing (World := World)
    (classify_days_loop sorted_days commits_by_day commit_diffs
       large_days small_days).
Proof.
  revert large_days small_days.
  induction sorted_days as [|day rest IH]; intros large_days small_days;
    simpl; [apply stores_nothing_ret|].
  destruct (dict_get commits_by_day day); [apply stores_nothing_raise|].
  apply stores_nothing_bind; [apply stores_nothing_build|].
  intros context. destruct (_ >? _); apply IH.
Qed.

Lemma stores_nothing_large_days (large_days : list DayEntry)
    (commit_diffs : gmap string (list FileChange)) (all_changes : list Change)
    (repo_path : string) (repo_context : option RepoContext)
    (model_name : string) :
  stores_nothing
    (large_days_loop call_llm large_days commit_diffs all_changes repo_path
       repo_context model_name).
Proof.
  revert all_changes. induction large_days as [|[[day cs] t] rest IH];
    intros all_changes; simpl; [apply stores_nothing_ret|].
  destruct (_ >? _); [|apply IH].
  destruct (_ =? _); [apply stores_nothing_raise|].
  apply stores_nothing_bind; [apply stores_nothing_batch | intros a; apply IH].
Qed.

Lemma stores_nothing_select_tier (commits : list Commit)
    (commit_diffs : gmap string (list FileChange)) (repo_path : string)
    (repo_context : option RepoContext) (model_name : string) :
  stores_nothing
    (select_tier isoformat_day call_llm commits commit_diffs repo_path
       repo_context model_name).
Proof.
  unfold select_tier. apply stores_nothing_bind; [apply stores_nothing_build|].
  intros context. cbv zeta.
  destruct (_ <? _); [apply stores_nothing_batch|].
  destruct (_ <? _).
  - unfold tier_2. apply stores_nothing_bind; [apply stores_nothing_day_data|].
    intros days. apply stores_nothing_small_days.
  - unfold tier_3. apply stores_nothing_bind; [apply stores_nothing_classify|].
    intros [larges smalls].
    apply stores_nothing_bind; [apply stores_nothing_large_days|].
    intros a. apply stores_nothing_small_days.
Qed.

Lemma stores_nothing_process_repository (repo_path : string)
    (activity_data : ActivityData) (repo_context : option RepoContext)
    (headers model_name : string) :
  stores_nothing
    (process_repository isoformat_day requests_get call_llm repo_path
       activity_data repo_context headers model_name).
Proof.
  unfold process_repository. apply stores_nothing_bind.
  - destruct activity_data; [apply stores_nothing_ret | apply stores_nothing_raise].
  - intros commits. destruct (negb _); [apply stores_nothing_ret|].
    apply stores_nothing_bind; [apply stores_nothing_fetch_loop|].
    intros diffs. apply stores_nothing_bind; [apply stores_nothing_select_tier|].
    intros a. apply stores_nothing_ret.
Qed.

(** X14. After each repository the whole list of results so far is handed
    to the store: with a store that returns, the stored lists are the
    prefixes of the final list, one for each repository, each one entry
    longer than the one before, and the last one is the final list. *)
Theorem results_are_stored_after_each_repository
    (items : list (string * ActivityData))
    (repository_contexts : gmap string RepoContext)
    (headers model_name : string) (repository_analyses : list Analysis)
    (st : State World) :
  store_returns store_data →
  ∃ st' results evs,
    main_loop isoformat_day requests_get call_llm store_data items
      repository_contexts headers model_name repository_analyses st
    = (st', inr (repository_analyses ++ results))
    ∧ length results = length items
    ∧ trace st' = trace st ++ evs
    ∧ stored_lists evs
      = map (λ n, repository_analyses ++ take n results)
          (seq 1 (length items)).
Proof.
  intros Hstore. revert repository_analyses st.
  induction items as [|[repo_path activity_data] rest IH];
    intros repository_analyses st.
  - exists st, [], []. simpl. rewrite !app_nil_r. auto.
  - destruct (process_repository isoformat_day requests_get call_llm repo_path
                activity_data (repository_contexts !! repo_path) headers
                model_name st) as [st1 outcome] eqn:Hprocess.
    destruct (stores_nothing_process_repository _ _ _ _ _ _ _ _ Hprocess)
      as (evs1 & Htrace1 & Hstored1).
    set (contribution := match outcome with
                         | inr analysis => analysis
                         | inl _ =>
                             {| repository := repo_path;
                                analysis_changes := [] |}
                         end).
    destruct (Hstore "repository_analyses"%string
                (repository_analyses ++ [contribution]) (world st1))
      as [w2 Hw2].
    destruct (IH (repository_analyses ++ [contribution])
                {| world := w2;
                   trace := trace st1 ++
                     [Store "repository_analyses"
                        (repository_analyses ++ [contribution])] |})
      as (st' & results & evs & Hloop & Hlen & Htrace & Hstored).
    exists st', (contribution :: results),
      (evs1 ++ Store "repository_analyses"
                 (repository_analyses ++ [contribution]) :: evs).
    split; [|split; [|split]].
    + simpl main_loop. unfold bind, try_except, call, ret.
      rewrite Hprocess. subst contribution.
      rewrite <- app_assoc in Hloop. simpl in Hloop.
      destruct outcome as [e|analysis]; simpl; rewrite Hw2; exact Hloop.
    + simpl. now rewrite Hlen.
    + rewrite Htrace. simpl. rewrite Htrace1, <- !app_assoc. reflexivity.
    + assert (Happ : stored_lists
                       (evs1 ++ Store "repository_analyses"
                                  (repository_analyses ++ [contribution])
                                :: evs)
                     = stored_lists evs1
                       ++ (repository_analyses ++ [contribution])
                          :: stored_lists evs)
        by (unfold stored_lists; rewrite omap_app; reflexivity).
      rewrite Happ, Hstored1, Hstored. cbn [length seq map app take].
      f_equal. rewrite <- (seq_shift (length rest) 1), map_map.
      apply map_ext. intros n. now rewrite <- app_assoc.
Qed.

(** X15. The store is called outside the [try]: when it raises, the loop
    stops with that exception and the remaining repositories are not
    processed. *)
Theorem store_failure_stops_the_loop (repo_path : string)
    (activity_data : ActivityData) (rest : list (string * ActivityData))
    (repository_contexts : gmap string RepoContext)
    (headers model_name : string) (repository_analyses : list Analysis)
    (st st1 : State World) (outcome : exception + Analysis)
    (w2 : World) (e : exception) :
  let contribution :=
    match outcome with
    | inr analysis => analysis
    | inl _ => empty_result repo_path
    end in
  process_repository isoformat_day requests_get call_llm repo_path
    activity_data (repository_contexts !! repo_path) headers model_name st
  = (st1, outcome) →
  store_data "repository_analyses" (repository_analyses ++ [contribution])
    (world st1) = (w2, inl e) →
  main_loop isoformat_day requests_get call_llm store_data
    ((repo_path, activity_data) :: rest) repository_contexts headers
    model_name repository_analyses st
  = ({| world := w2;
        trace := trace st1 ++
          [Store "repository_analyses"
             (repository_analyses ++ [contribution])] |}, inl e).
Proof.
  intros contribution Hprocess Hstore. subst contribution.
  simpl main_loop. unfold bind, try_except, call, ret, empty_result in *.
  rewrite Hprocess. destruct outcome as [e'|analysis]; simpl;
    rewrite Hstore; reflexivity.
Qed.

End Store.

(** ** The accumulated changes *)

Lemma answered_changes_app (respond : string → option RepositoryAnalysis)
    (evs1 evs2 : list Event) :
  answered_changes respond (evs1 ++ evs2)
  = answered_changes respond evs1 ++ answered_changes respond evs2.
Proof.
  unfold answered_changes. now rewrite summarizer_prompts_app, flat_map_app.
Qed.

Lemma answered_changes_sizing (respond : string → option RepositoryAnalysis)
    (days : list DayEntry) :
  answered_changes respond (sizing_events days) = [].
Proof. unfold answered_changes. now rewrite summarizer_prompts_sizing. Qed.

Lemma answered_changes_batch (respond : string → option RepositoryAnalysis)
    (commit_diffs : gmap string (list FileChange)) (repo_path : string)
    (repo_context : option RepoContext) (model_name : string)
    (commits : list Commit) (token_budget : option Z) :
  answered_changes respond
    (batch_events commit_diffs repo_path repo_context model_name commits
       token_budget)
  = response_changes
      (respond (build_prompt repo_path
                  (build_commit_context commits commit_diffs token_budget)
                  repo_context)).
Proof. unfold answered_changes, batch_events. simpl. apply app_nil_r. Qed.

Section Answers.

Context {World : Type}.
Variable isoformat_day : string → option string.
Variable call_llm :
  string → string → World → World * (exception + option RepositoryAnalysis).
Variable respond : string → option RepositoryAnalysis.
Hypothesis call_llm_answers : summarizer_answers call_llm respond.

Lemma process_batch_and_extend_answers (commits : list Commit)
    (commit_diffs : gmap string (list FileChange)) (all_changes : list Change)
    (repo_path : string) (repo_context : option RepoContext)
    (model_name : string) (token_budget : option Z) (st : State World) :
  ∃ st',
    yields (process_batch_and_extend call_llm commits commit_diffs all_changes
              repo_path repo_context model_name token_budget) st
      (batch_events commit_diffs repo_path repo_context model_name commits
         token_budget) st'
      (all_changes
       ++ answered_changes respond
            (batch_events commit_diffs repo_path repo_context model_name
               commits token_budget)).
Proof.
  rewrite answered_changes_batch.
  unfold yields, process_batch_and_extend, bind, build_commit_context_call,
    analyze_batch, call, log, ret, batch_events.
  simpl. rewrite call_llm_answers.
  destruct (respond _) as [r|]; eexists; simpl; rewrite ?app_nil_r;
    (split; [reflexivity|]); simpl; now rewrite <- app_assoc.
Qed.

Lemma run_batches_answers (batches : list (list Commit))
    (commit_diffs : gmap string (list FileChange)) (all_changes : list Change)
    (repo_path : string) (repo_context : option RepoContext)
    (model_name : string) (st : State World) :
  ∃ st',
    yields (run_batches call_llm batches commit_diffs all_changes repo_path
              repo_context model_name) st
      (flat_map (λ b, batch_events commit_diffs repo_path repo_context
                        model_name b None) batches)
      st'
      (all_changes
       ++ answered_changes respond
            (flat_map (λ b, batch_events commit_diffs repo_path repo_context
                              model_name b None) batches)).
Proof.
  revert all_changes st.
  induction batches as [|b batches IH]; intros all_changes st.
  - exists st. simpl. rewrite app_nil_r. apply yields_ret.
  - destruct (process_batch_and_extend_answers b commit_diffs all_changes
                repo_path repo_context model_name None st) as (st1 & H1).
    destruct (IH (all_changes
                  ++ answered_changes respond
                       (batch_events commit_diffs repo_path repo_context
                          model_name b None)) st1) as (st2 & H2).
    exists st2.
    change (flat_map ?f (b :: batches)) with (f b ++ flat_map f batches).
    rewrite answered_changes_app, app_assoc.
    exact (yields_bind _ _ _ _ _ _ _ _ _ H1 H2).
Qed.

Lemma large_days_loop_answers (large_days : list DayEntry)
    (commit_diffs : gmap string (list FileChange)) (all_changes : list Change)
    (repo_path : string) (repo_context : option RepoContext)
    (model_name : string) (st : State World) :
  Forall (λ e : DayEntry, is_large e = true ∧ snd (fst e) ≠ []) large_days →
  ∃ st',
    yields (large_days_loop call_llm large_days commit_diffs all_changes
              repo_path repo_context model_name) st
      (flat_map (large_day_events commit_diffs repo_path repo_context model_name)
         large_days)
      st'
      (all_changes
       ++ answered_changes respond
            (flat_map (large_day_events commit_diffs repo_path repo_context
                         model_name) large_days)).
Proof.
  intros Hall. revert all_changes st.
  induction Hall as [|[[day cs] tokens] rest [Hlarge Hne] _ IH];
    intros all_changes st.
  - exists st. simpl. rewrite app_nil_r. apply yields_ret.
  - unfold is_large in Hlarge. simpl in Hlarge, Hne.
    assert (Hlen : (Py.len_list cs =? 0) = false).
    { apply Z.eqb_neq. unfold Py.len_list.
      destruct cs; [congruence|]. simpl length. lia. }
    destruct (process_batch_and_extend_answers cs commit_diffs all_changes
                repo_path repo_context model_name
                (Some (TIER_1_THRESHOLD `div` Py.len_list cs)) st)
      as (st1 & H1).
    destruct (IH (all_changes
                  ++ answered_changes respond
                       (batch_events commit_diffs repo_path repo_context
                          model_name cs
                          (Some (TIER_1_THRESHOLD `div` Py.len_list cs))))
                st1) as (st2 & H2).
    exists st2. simpl large_days_loop. rewrite Hlarge, Hlen.
    change (flat_map ?f ((day, cs, tokens) :: rest))
      with (f (day, cs, tokens) ++ flat_map f rest).
    rewrite answered_changes_app, app_assoc.
    exact (yields_bind _ _ _ _ _ _ _ _ _ H1 H2).
Qed.

(** X17. With a Summarizer that answers from the prompt, the change list
    of a repository is what the answers to its Summarizer calls hold, put
    end to end in call order; an empty answer adds nothing. *)
Theorem changes_are_the_answers_in_call_order (commits : list Commit)
    (commit_diffs : gmap string (list FileChange)) (repo_path : string)
    (repo_context : option RepoContext) (model_name : string)
    (st : State World) :
  ∃ st' evs,
    yields (select_tier isoformat_day call_llm commits commit_diffs repo_path
              repo_context model_name) st evs st'
      (answered_changes respond evs).
Proof.
  pose proof (yields_build (World := World) commits commit_diffs None st)
    as Hsize.
  set (st1 := {| world := world st; trace := trace st ++ [Build commits None] |})
    in Hsize.
  set (days := day_entries isoformat_day commits commit_diffs).
  unfold select_tier.
  destruct (estimate_tokens (build_commit_context commits commit_diffs None)
            <? TIER_1_THRESHOLD) eqn:E1;
    [|destruct (estimate_tokens (build_commit_context commits commit_diffs None)
                <? TIER_2_THRESHOLD) eqn:E2].
  - destruct (process_batch_and_extend_answers commits commit_diffs []
                repo_path repo_context model_name None st1) as (st2 & H2).
    eexists st2, _.
    refine (yields_bind _ _ _ _ _ [Build commits None] _ _ _ Hsize _).
    cbv zeta. rewrite E1. exact H2.
  - destruct (day_data_loop_yields (World := World) isoformat_day commits
                commit_diffs
                (Py.sorted (dict_keys (group_commits_by_day isoformat_day commits)))
                [] st1 (sorted_days_are_keys isoformat_day commits))
      as (st2 & H2).
    fold (day_entries isoformat_day commits commit_diffs) in H2. fold days in H2.
    destruct (run_batches_answers (pack days 90000) commit_diffs []
                repo_path repo_context model_name st2) as (st3 & H3).
    destruct H3 as [Hrun3 Htrace3].
    rewrite <- process_small_days_batch_refines in Hrun3.
    eexists st3, (Build commits None :: sizing_events days ++ _).
    assert (Hans : answered_changes respond
                     (Build commits None
                      :: sizing_events days
                         ++ flat_map (λ b, batch_events commit_diffs repo_path
                                             repo_context model_name b None)
                              (pack days 90000))
                   = [] ++ answered_changes respond
                             (flat_map (λ b, batch_events commit_diffs repo_path
                                               repo_context model_name b None)
                                (pack days 90000))).
    { change (Build commits None :: ?l) with ([Build commits None] ++ l).
      rewrite !answered_changes_app, answered_changes_sizing. reflexivity. }
    rewrite Hans.
    refine (yields_bind _ _ _ _ _ [Build commits None] _ _ _ Hsize _).
    cbv zeta. rewrite E1, E2. unfold tier_2.
    exact (yields_bind _ _ _ _ _ _ _ _ _ H2 (conj Hrun3 Htrace3)).
  - destruct (classify_days_loop_yields (World := World) isoformat_day commits
                commit_diffs
                (Py.sorted (dict_keys (group_commits_by_day isoformat_day commits)))
                [] [] st1 (sorted_days_are_keys isoformat_day commits))
      as (st2 & H2).
    fold (day_entries isoformat_day commits commit_diffs) in H2. fold days in H2.
    simpl app in H2.
    destruct (large_days_loop_answers
                (filter (λ e, is_large e = true) days) commit_diffs []
                repo_path repo_context model_name st2) as (st3 & H3).
    { apply Forall_forall. intros e [Hlarge He]%list_elem_of_filter.
      split; [exact Hlarge|]. unfold days, day_entries in He.
      apply list_elem_of_fmap in He as (day & -> & Hday).
      apply sorted_days_are_keys, group_get_key in Hday as [_ Hne]. exact Hne. }
    destruct (run_batches_answers
                (pack (filter (λ e, is_large e = false) days) 90000)
                commit_diffs
                ([] ++ answered_changes respond
                         (flat_map (large_day_events commit_diffs repo_path
                                      repo_context model_name)
                            (filter (λ e, is_large e = true) days)))
                repo_path repo_context model_name st3) as (st4 & H4).
    destruct H4 as [Hrun4 Htrace4].
    rewrite <- process_small_days_batch_refines in Hrun4.
    eexists st4, (Build commits None :: sizing_events days ++ _ ++ _).
    assert (Hans : ∀ evs_large evs_small,
              answered_changes respond
                (Build commits None
                 :: sizing_events days ++ evs_large ++ evs_small)
              = ([] ++ answered_changes respond evs_large)
                ++ answered_changes respond evs_small).
    { intros evs_large evs_small.
      change (Build commits None :: ?l) with ([Build commits None] ++ l).
      rewrite !answered_changes_app, answered_changes_sizing. reflexivity. }
    rewrite Hans.
    refine (yields_bind _ _ _ _ _ [Build commits None] _ _ _ Hsize _).
    cbv zeta. rewrite E1, E2. unfold tier_3.
    refine (yields_bind _ _ _ _ _ _ _ _ _ H2 _).
    exact (yields_bind _ _ _ _ _ _ _ _ _ H3 (conj Hrun4 Htrace4)).
Qed.

End Answers.

(** ** The further properties at sample inputs *)

Lemma fetch_phase_invariants_witness :
  ∃ st' commit_diffs,
    fetch_diffs_loop Sample.requests_get_ok "org/ok" "token" Sample.small_repo
      ∅ Sample.st0 = (st', inr commit_diffs)
    ∧ trace st'
      = trace Sample.st0
        ++ map (λ s, HttpGet (commit_url "org/ok" s) "token")
             (fetched_shas Sample.small_repo)
    ∧ ∀ s files, commit_diffs !! s = Some files →
        s ≠ EmptyString
        ∧ (∃ c, c ∈ Sample.small_repo ∧ sha c = Some s)
        ∧ files ≠ []
        ∧ Forall normalized_file files.
Proof.
  destruct (fetch_diffs_loop Sample.requests_get_ok "org/ok" "token"
              Sample.small_repo ∅ Sample.st0) as [st' [e|diffs]] eqn:E.
  - exfalso. vm_compute in E. discriminate E.
  - exists st', diffs. split; [reflexivity|].
    exact (fetch_phase_invariants Sample.requests_get_ok "org/ok" "token"
             Sample.small_repo diffs Sample.st0 st' E).
Defined.

Lemma network_error_aborts_repository_witness :
  fetched_shas [] = []
  ∧ process_repository Sample.isoformat_day Sample.requests_get_down
      Sample.call_llm "org/ok" (ActivityDict (Some Sample.small_repo)) None
      "token" "model" Sample.st0
    = ({| world := tt;
          trace := [HttpGet (commit_url "org/ok" "a000001") "token"] |},
       inl (CollaboratorError "ConnectionError")).
Proof.
  split; [reflexivity|].
  apply (network_error_aborts_repository Sample.isoformat_day
           Sample.requests_get_down Sample.call_llm "org/ok" []
           (Sample.commit "a000001" "2024-01-15" 20)
           [Sample.commit "a000002" "2024-01-16" 20] "a000001" None
           "token" "model" Sample.st0 tt (CollaboratorError "ConnectionError")).
  - reflexivity.
  - reflexivity.
  - discriminate.
  - reflexivity.
Defined.

Lemma budgeted_build_is_a_bounded_prefix_witness :
  0 < 100
  ∧ ∃ blocks,
      build_commit_context Sample.small_repo ∅ (Some 100)
      = Py.join COMMIT_SEPARATOR blocks
      ∧ (length blocks ≤ length Sample.small_repo)%nat
      ∧ blocks_tokens blocks ≤ 100.
Proof.
  assert (H : 0 < 100) by lia. split; [exact H|].
  destruct (budgeted_build_is_a_bounded_prefix 100 Sample.small_repo ∅ H)
    as (blocks & Hjoin & Hlen & _ & Hsum).
  exists blocks. split; [exact Hjoin|]. split; [exact Hlen | exact Hsum].
Defined.

Lemma tiny_budget_gives_empty_blob_witness :
  5 ≠ 0 ∧ 5 < 11
  ∧ build_commit_context Sample.small_repo ∅ (Some 5) = EmptyString.
Proof.
  assert (H1 : 5 ≠ 0) by lia. assert (H2 : 5 < 11) by lia.
  split; [exact H1|]. split; [exact H2|].
  exact (tiny_budget_gives_empty_blob 5 Sample.small_repo ∅ H1 H2).
Defined.

Lemma packer_keeps_every_commit_witness :
  summarizer_returns Sample.call_llm
  ∧ ∃ st' changes evs batches,
      yields (process_small_days_batch Sample.call_llm Sample.three_days ∅ []
                "org/ok" None "model" 90000) Sample.st0 evs st' changes
      ∧ builder_calls evs = map (λ b, (b, None)) batches
      ∧ concat batches = days_commits Sample.three_days.
Proof.
  split; [exact sample_summarizer_returns|].
  destruct (packer_keeps_every_commit Sample.call_llm Sample.three_days ∅ []
              "org/ok" None "model" 90000 Sample.st0
              sample_summarizer_returns)
    as (st' & changes & evs & batches & Hy & Hb & _ & Hc & _).
  exists st', changes, evs, batches.
  split; [exact Hy|]. split; [exact Hb | exact Hc].
Defined.

Lemma packer_respects_threshold_witness :
  summarizer_returns Sample.call_llm
  ∧ Forall (λ e : DayEntry, snd (fst e) ≠ []) Sample.three_days
  ∧ ∃ st' changes evs groups,
      yields (process_small_days_batch Sample.call_llm Sample.three_days ∅ []
                "org/ok" None "model" 90000) Sample.st0 evs st' changes
      ∧ concat groups = Sample.three_days
      ∧ Forall (λ g, g ≠ [] ∧ (length g = 1%nat ∨ days_tokens g ≤ 90000))
          groups.
Proof.
  assert (H : Forall (λ e : DayEntry, snd (fst e) ≠ []) Sample.three_days)
    by (repeat constructor; discriminate).
  split; [exact sample_summarizer_returns|]. split; [exact H|].
  destruct (packer_respects_threshold Sample.call_llm Sample.three_days ∅ []
              "org/ok" None "model" 90000 Sample.st0
              sample_summarizer_returns H)
    as (st' & changes & evs & groups & Hy & _ & Hc & Hall).
  exists st', changes, evs, groups.
  split; [exact Hy|]. split; [exact Hc | exact Hall].
Defined.

Lemma summarizer_error_aborts_packing_witness :
  pack Sample.three_days 90000 = Sample.day1 :: [Sample.day2; Sample.day3]
  ∧ process_small_days_batch Sample.call_llm_down Sample.three_days ∅ []
      "org/ok" None "model" 90000 Sample.st0
    = ({| world := tt;
          trace := batch_events ∅ "org/ok" None "model" Sample.day1 None |},
       inl (CollaboratorError "LLMError")).
Proof.
  assert (H : pack Sample.three_days 90000
              = Sample.day1 :: [Sample.day2; Sample.day3]) by reflexivity.
  split; [exact H|].
  exact (summarizer_error_aborts_packing Sample.call_llm_down
           Sample.three_days ∅ [] "org/ok" None "model" 90000 Sample.st0
           Sample.day1 [Sample.day2; Sample.day3] tt
           (CollaboratorError "LLMError") H eq_refl).
Defined.

Lemma every_commit_is_summarised_once_witness :
  summarizer_returns Sample.call_llm
  ∧ ∃ st' changes evs,
      yields (select_tier Sample.isoformat_day Sample.call_llm
                Sample.three_day_repo ∅ "org/ok" None "model")
        Sample.st0 evs st' changes
      ∧ concat (summarized_batches evs) ≡ₚ Sample.three_day_repo.
Proof.
  split; [exact sample_summarizer_returns|].
  destruct (every_commit_is_summarised_once Sample.isoformat_day
              Sample.call_llm Sample.three_day_repo ∅ "org/ok" None "model"
              Sample.st0 sample_summarizer_returns)
    as (st' & changes & evs & Hy & Hperm & _).
  exists st', changes, evs. split; assumption.
Defined.

Lemma crowded_day_is_sent_in_full_witness :
  summarizer_returns Sample.call_llm
  ∧ 100000 < 1200000
  ∧ 100000 < Py.len_list Sample.crowded_day
  ∧ ∃ st' changes,
      yields (large_days_loop Sample.call_llm
                [("2024-01-15"%string, Sample.crowded_day, 1200000)] ∅ []
                "org/ok" None "model") Sample.st0
        [ Build Sample.crowded_day (Some 0);
          Summarize "model"
            (build_prompt "org/ok"
               (build_commit_context Sample.crowded_day ∅ None) None) ]
        st' changes.
Proof.
  assert (H1 : 100000 < 1200000) by lia.
  assert (H2 : 100000 < Py.len_list Sample.crowded_day)
    by (vm_compute; reflexivity).
  split; [exact sample_summarizer_returns|]. split; [exact H1|].
  split; [exact H2|].
  exact (crowded_day_is_sent_in_full Sample.call_llm "2024-01-15"
           Sample.crowded_day 1200000 ∅ [] "org/ok" None "model" Sample.st0
           sample_summarizer_returns H1 H2).
Defined.

Lemma results_are_stored_after_each_repository_witness :
  store_returns Sample.store_data
  ∧ ∃ st' results evs,
      main_loop Sample.isoformat_day Sample.requests_get Sample.call_llm
        Sample.store_data Sample.repos ∅ "token" "model" [] Sample.st0
      = (st', inr results)
      ∧ trace st' = trace Sample.st0 ++ evs
      ∧ stored_lists evs = [take 1 results; take 2 results].
Proof.
  split; [exact sample_store_returns|].
  destruct (results_are_stored_after_each_repository Sample.isoformat_day
              Sample.requests_get Sample.call_llm Sample.store_data
              Sample.repos ∅ "token" "model" [] Sample.st0
              sample_store_returns)
    as (st' & results & evs & Hmain & _ & Htrace & Hstored).
  exists st', results, evs.
  split; [exact Hmain|]. split; [exact Htrace | exact Hstored].
Defined.

Lemma store_failure_stops_the_loop_witness :
  main_loop Sample.isoformat_day Sample.requests_get Sample.call_llm
    Sample.store_data_down Sample.repos ∅ "token" "model" [] Sample.st0
  = ({| world := tt;
        trace := [Store "repository_analyses" [empty_result "org/broken"]] |},
     inl (CollaboratorError "StoreError")).
Proof.
  exact (store_failure_stops_the_loop Sample.isoformat_day Sample.requests_get
           Sample.call_llm Sample.store_data_down "org/broken" ActivityOther
           [("org/ok"%string, ActivityDict (Some Sample.small_repo))] ∅
           "token" "model" [] Sample.st0 Sample.st0
           (inl (AttributeError "get")) tt (CollaboratorError "StoreError")
           eq_refl eq_refl).
Defined.

Lemma sample_summarizer_answers :
  summarizer_answers Sample.call_llm_pure Sample.respond.
Proof. intros model prompt w. reflexivity. Defined.

Lemma changes_are_the_answers_in_call_order_witness :
  summarizer_answers Sample.call_llm_pure Sample.respond
  ∧ ∃ st' evs,
      yields (select_tier Sample.isoformat_day Sample.call_llm_pure
                Sample.small_repo ∅ "org/ok" None "model") Sample.st0 evs st'
        (answered_changes Sample.respond evs).
Proof.
  split; [exact sample_summarizer_answers|].
  exact (changes_are_the_answers_in_call_order Sample.isoformat_day
           Sample.call_llm_pure Sample.respond sample_summarizer_answers
           Sample.small_repo ∅ "org/ok" None "model" Sample.st0).
Defined.

(** ** Where exceptions come from *)

Section Exceptions.

Context {World : Type}.
Variable isoformat_day : string → option string.
Variable requests_get :
  string → string → World → World * (exception + Response).
Variable call_llm :
  string → string → World → World * (exception + option RepositoryAnalysis).
Variable store_data :
  string → list Analysis → World → World * (exception + unit).

Lemma raises_only_ret {A} (P : exception → Prop) (a : A) :
  raises_only (World := World) P (ret a).
Proof. intros st st' e. discriminate. Qed.

Lemma raises_only_bind {A B} (P : exception → Prop) (m : M World A)
    (k : A → M World B) :
  raises_only P m →
  (∀ st st1 a, m st = (st1, inr a) → raises_only P (k a)) →
  raises_only P (bind m k).
Proof.
  intros Hm Hk st st' e. unfold bind.
  destruct (m st) as [st1 [e1|a]] eqn:Em.
  - intros [= _ <-]. exact (Hm _ _ _ Em).
  - intros Ek. exact (Hk _ _ _ Em _ _ _ Ek).
Qed.

Lemma raises_only_call {A} (P : exception → Prop) (ev : Event)
    (f : string → string → World → World * (exception + A)) (x y : string) :
  (∀ e, raised_by f e → P e) → raises_only P (call ev (f x y)).
Proof.
  intros HP st st' e. unfold call.
  destruct (f x y (world st)) as [w r] eqn:Ef. intros [= _ ->].
  apply HP. now exists x, y, (world st), w.
Qed.

Lemma raises_only_build (P : exception → Prop) (commits : list Commit)
    (commit_diffs : gmap string (list FileChange)) (token_budget : option Z) :
  raises_only (World := World) P
    (build_commit_context_call commits commit_diffs token_budget).
Proof. intros st st' e. discriminate. Qed.

Lemma raises_only_batch (P : exception → Prop) (commits : list Commit)
    (commit_diffs : gmap string (list FileChange)) (all_changes : list Change)
    (repo_path : string) (repo_context : option RepoContext)
    (model_name : string) (token_budget : option Z) :
  (∀ e, raised_by call_llm e → P e) →
  raises_only P
    (process_batch_and_extend call_llm commits commit_diffs all_changes
       repo_path repo_context model_name token_budget).
Proof.
  intros HP. apply raises_only_bind; [apply raises_only_build|].
  intros _ _ context _.
  apply raises_only_bind; [now apply raises_only_call|].
  intros _ _ [r|] _; apply raises_only_ret.
Qed.

Lemma raises_only_small_days (P : exception → Prop)
    (small_days : list DayEntry)
    (commit_diffs : gmap string (list FileChange)) (repo_path : string)
    (repo_context : option RepoContext) (model_name : string)
    (batch_threshold : Z) (current_batch : list Commit) (current_tokens : Z)
    (all_changes : list Change) :
  (∀ e, raised_by call_llm e → P e) →
  raises_only P
    (small_days_loop call_llm small_days commit_diffs repo_path repo_context
       model_name batch_threshold current_batch current_tokens all_changes).
Proof.
  intros HP. revert current_batch current_tokens all_changes.
  induction small_days as [|[[day cs] t] rest IH];
    intros current_batch current_tokens all_changes; simpl.
  - destruct (list_truthy current_batch);
      [now apply raises_only_batch | apply raises_only_ret].
  - apply raises_only_bind.
    + destruct (_ && _); [|apply raises_only_ret].
      apply raises_only_bind; [now apply raises_only_batch|].
      intros _ _ a _. apply raises_only_ret.
    + intros _ _ [[b tk] a] _. apply IH.
Qed.

Lemma raises_only_large_days (P : exception → Prop)
    (large_days : list DayEntry)
    (commit_diffs : gmap string (list FileChange)) (all_changes : list Change)
    (repo_path : string) (repo_context : option RepoContext)
    (model_name : string) :
  (∀ e, raised_by call_llm e → P e) →
  Forall (λ e : DayEntry, snd (fst e) ≠ []) large_days →
  raises_only P
    (large_days_loop call_llm large_days commit_diffs all_changes repo_path
       repo_context model_name).
Proof.
  intros HP Hall. revert all_changes.
  induction Hall as [|[[day cs] t] rest Hne _ IH]; intros all_changes; simpl.
  - apply raises_only_ret.
  - destruct (_ >? _); [|apply IH].
    assert (Hlen : (Py.len_list cs =? 0) = false).
    { apply Z.eqb_neq. unfold Py.len_list. simpl in Hne.
      destruct cs; [congruence|]. simpl length. lia. }
    rewrite Hlen. apply raises_only_bind; [now apply raises_only_batch|].
    intros _ _ a _. apply IH.
Qed.

Lemma raises_only_select_tier (P : exception → Prop) (commits : list Commit)
    (commit_diffs : gmap string (list FileChange)) (repo_path : string)
    (repo_context : option RepoContext) (model_name : string) :
  (∀ e, raised_by call_llm e → P e) →
  raises_only P
    (select_tier isoformat_day call_llm commits commit_diffs repo_path
       repo_context model_name).
Proof.
  intros HP. unfold select_tier.
  apply raises_only_bind; [apply raises_only_build|].
  intros _ _ context _. cbv zeta.
  destruct (_ <? _); [now apply raises_only_batch|].
  destruct (_ <? _).
  - unfold tier_2. apply raises_only_bind.
    + intros st st' e He.
      destruct (day_data_loop_yields (World := World) isoformat_day commits
                  commit_diffs
                  (Py.sorted (dict_keys
                                (group_commits_by_day isoformat_day commits)))
                  [] st (sorted_days_are_keys isoformat_day commits))
        as (st1 & Hrun & _).
      rewrite Hrun in He. discriminate.
    + intros _ _ days _. now apply raises_only_small_days.
  - unfold tier_3. apply raises_only_bind.
    + intros st st' e He.
      destruct (classify_days_loop_yields (World := World) isoformat_day
                  commits commit_diffs
                  (Py.sorted (dict_keys
                                (group_commits_by_day isoformat_day commits)))
                  [] [] st (sorted_days_are_keys isoformat_day commits))
        as (st1 & Hrun & _).
      rewrite Hrun in He. discriminate.
    + intros st st1 [larges smalls] Hclassify.
      destruct (classify_days_loop_yields (World := World) isoformat_day
                  commits commit_diffs
                  (Py.sorted (dict_keys
                                (group_commits_by_day isoformat_day commits)))
                  [] [] st (sorted_days_are_keys isoformat_day commits))
        as (st1' & Hrun & _).
      rewrite Hrun in Hclassify. injection Hclassify as _ <- _.
      apply raises_only_bind.
      * apply raises_only_large_days; [exact HP|].
        apply Forall_forall. intros e [_ He]%list_elem_of_filter.
        apply list_elem_of_fmap in He as (day & -> & Hday).
        apply sorted_days_are_keys, group_get_key in Hday as [_ Hne].
        exact Hne.
      * intros _ _ a _. now apply raises_only_small_days.
Qed.

Lemma raises_only_fetch_loop (P : exception → Prop)
    (repo_path headers : string) (commits : list Commit)
    (commit_diffs : gmap string (list FileChange)) :
  (∀ e, raised_by requests_get e → P e) →
  raises_only P
    (fetch_diffs_loop requests_get repo_path headers commits commit_diffs).
Proof.
  intros HP. revert commit_diffs. induction commits as [|c commits IH];
    intros commit_diffs; simpl; [apply raises_only_ret|].
  destruct (str_truthy _); [|apply IH].
  apply raises_only_bind; [|intros _ _ diffs _; apply IH].
  unfold fetch_commit_diff.
  apply raises_only_bind; [now apply raises_only_call|].
  intros _ _ response _. destruct (negb _); [apply raises_only_ret|].
  destruct (json response); apply raises_only_ret.
Qed.

(** X18. On a dict, [process_repository] raises nothing of its own: every
    exception that leaves it was raised by [requests.get] or by the
    Summarizer call. The day lookups never miss a key and the per-commit
    budget never divides by zero. *)
Theorem repository_raises_only_collaborator_errors (repo_path : string)
    (commits : option (list Commit)) (repo_context : option RepoContext)
    (headers model_name : string) (st st' : State World) (e : exception) :
  process_repository isoformat_day requests_get call_llm repo_path
    (ActivityDict commits) repo_context headers model_name st = (st', inl e) →
  raised_by requests_get e ∨ raised_by call_llm e.
Proof.
  revert st st' e.
  change (raises_only
            (λ e, raised_by requests_get e ∨ raised_by call_llm e)
            (process_repository isoformat_day requests_get call_llm repo_path
               (ActivityDict commits) repo_context headers model_name)).
  unfold process_repository.
  apply raises_only_bind; [apply raises_only_ret|].
  intros _ _ cs _. destruct (negb _); [apply raises_only_ret|].
  apply raises_only_bind; [apply raises_only_fetch_loop; auto|].
  intros _ _ diffs _.
  apply raises_only_bind; [apply raises_only_select_tier; auto|].
  intros _ _ a _. apply raises_only_ret.
Qed.

(** X19. Answers of [requests.get] from which no diff is read (a status
    other than 200, or a body that is not JSON) are contained: the fetch
    phase returns, having asked once for each commit with a non-empty
    identifier, and leaves the map as it was. *)
Theorem unusable_responses_are_contained (repo_path headers : string)
    (commits : list Commit) (commit_diffs : gmap string (list FileChange))
    (st : State World) :
  (∀ url w, ∃ w' response,
     requests_get url headers w = (w', inr response)
     ∧ unusable_response response) →
  ∃ st',
    fetch_diffs_loop requests_get repo_path headers commits commit_diffs st
    = (st', inr commit_diffs)
    ∧ trace st'
      = trace st ++ map (λ s, HttpGet (commit_url repo_path s) headers)
                      (fetched_shas commits).
Proof.
  intros Hget. revert st. unfold fetched_shas.
  induction commits as [|c commits IH]; intros st.
  - exists st. split; [reflexivity | now rewrite app_nil_r].
  - simpl fetch_diffs_loop. cbn [map].
    destruct (str_truthy (default EmptyString (sha c))) eqn:Hsha.
    + rewrite filter_cons_True by exact Hsha. unfold bind.
      rewrite fetch_commit_diff_outcome.
      destruct (Hget (commit_url repo_path (default EmptyString (sha c)))
                  (world st)) as (w' & response & -> & Hbad).
      assert (Hnone : (if negb (status_code response =? 200) then []
                       else match json response with
                            | Some data =>
                                normalize (default [] (data_files data))
                            | None => []
                            end) = []).
      { destruct Hbad as [Hstatus| ->].
        - apply Z.eqb_neq in Hstatus. now rewrite Hstatus.
        - now destruct (negb _). }
      rewrite Hnone. simpl list_truthy. cbv iota.
      destruct (IH {| world := w';
                      trace := trace st ++
                        [HttpGet (commit_url repo_path
                                    (default EmptyString (sha c))) headers] |})
        as (st' & Hloop & Htrace).
      exists st'. split; [exact Hloop|].
      rewrite Htrace. simpl. now rewrite <- app_assoc.
    + rewrite filter_cons_False by congruence. apply IH.
Qed.

(** X16. Repositories without commits cost nothing but the store: with a
    store that returns, the loop over such repositories gives each the
    empty result, in order, and the trace gains only the store calls. *)
Theorem idle_repositories_only_reach_the_store
    (items : list (string * ActivityData))
    (repository_contexts : gmap string RepoContext)
    (headers model_name : string) (repository_analyses : list Analysis)
    (st : State World) :
  store_returns store_data →
  Forall (λ item : string * ActivityData,
            ∃ commits, snd item = ActivityDict commits
                       ∧ default [] commits = []) items →
  let results := map (λ item : string * ActivityData,
                        empty_result (fst item)) items in
  ∃ st',
    main_loop isoformat_day requests_get call_llm store_data items
      repository_contexts headers model_name repository_analyses st
    = (st', inr (repository_analyses ++ results))
    ∧ trace st'
      = trace st
        ++ map (λ n, Store "repository_analyses"
                       (repository_analyses ++ take n results))
             (seq 1 (length items)).
Proof.
  intros Hstore Hidle. cbv zeta. revert repository_analyses st.
  induction Hidle as [|[repo_path activity_data] rest (commits & Had & Hnone)
                       _ IH]; intros repository_analyses st.
  - exists st. simpl. rewrite !app_nil_r. auto.
  - simpl in Had. subst activity_data.
    destruct (Hstore "repository_analyses"%string
                (repository_analyses ++ [empty_result repo_path]) (world st))
      as [w2 Hw2].
    destruct (IH (repository_analyses ++ [empty_result repo_path])
                {| world := w2;
                   trace := trace st ++
                     [Store "repository_analyses"
                        (repository_analyses ++ [empty_result repo_path])] |})
      as (st' & Hloop & Htrace).
    exists st'. split.
    + simpl main_loop. unfold bind at 1, try_except, bind at 1.
      rewrite process_repository_no_commits by exact Hnone.
      unfold ret at 1, bind at 1, call. rewrite Hw2.
      rewrite <- app_assoc in Hloop. exact Hloop.
    + rewrite Htrace. cbn [trace length seq map take fst]. rewrite <- app_assoc.
      f_equal. simpl. f_equal. rewrite <- (seq_shift (length rest) 1), map_map.
      apply map_ext. intros n. now rewrite <- app_assoc.
Qed.

End Exceptions.

Lemma repository_raises_only_collaborator_errors_witness :
  ∃ st' e,
    process_repository Sample.isoformat_day Sample.requests_get
      Sample.call_llm_down "org/ok" (ActivityDict (Some Sample.small_repo))
      None "token" "model" Sample.st0 = (st', inl e)
    ∧ (raised_by Sample.requests_get e ∨ raised_by Sample.call_llm_down e).
Proof.
  destruct (process_repository Sample.isoformat_day Sample.requests_get
              Sample.call_llm_down "org/ok"
              (ActivityDict (Some Sample.small_repo)) None "token" "model"
              Sample.st0) as [st' [e|a]] eqn:E.
  - exists st', e. split; [reflexivity|].
    exact (repository_raises_only_collaborator_errors Sample.isoformat_day
             Sample.requests_get Sample.call_llm_down "org/ok"
             (Some Sample.small_repo) None "token" "model" Sample.st0 st' e E).
  - exfalso. vm_compute in E. discriminate E.
Defined.

Lemma unusable_responses_are_contained_witness :
  (∀ url w, ∃ w' response,
     Sample.requests_get url "token" w = (w', inr response)
     ∧ unusable_response response)
  ∧ ∃ st',
      fetch_diffs_loop Sample.requests_get "org/ok" "token" Sample.small_repo
        ∅ Sample.st0 = (st', inr ∅)
      ∧ trace st'
        = trace Sample.st0
          ++ map (λ s, HttpGet (commit_url "org/ok" s) "token")
               (fetched_shas Sample.small_repo).
Proof.
  assert (H : ∀ url w, ∃ w' response,
            Sample.requests_get url "token" w = (w', inr response)
            ∧ unusable_response response).
  { intros url w. eexists _, _. split; [reflexivity|]. left. simpl. lia. }
  split; [exact H|].
  exact (unusable_responses_are_contained Sample.requests_get "org/ok" "token"
           Sample.small_repo ∅ Sample.st0 H).
Defined.

Lemma idle_repositories_only_reach_the_store_witness :
  store_returns Sample.store_data
  ∧ ∃ st',
      main_loop Sample.isoformat_day Sample.requests_get Sample.call_llm
        Sample.store_data Sample.idle_repos ∅ "token" "model" [] Sample.st0
      = (st', inr [empty_result "org/new"; empty_result "org/quiet"])
      ∧ trace st'
        = [ Store "repository_analyses" [empty_result "org/new"];
            Store "repository_analyses"
              [empty_result "org/new"; empty_result "org/quiet"] ].
Proof.
  split; [exact sample_store_returns|].
  assert (H : Forall (λ item : string * ActivityData,
                        ∃ commits, snd item = ActivityDict commits
                                   ∧ default [] commits = [])
                Sample.idle_repos).
  { repeat constructor; eexists; split; reflexivity. }
  exact (idle_repositories_only_reach_the_store Sample.isoformat_day
           Sample.requests_get Sample.call_llm Sample.store_data
           Sample.idle_repos ∅ "token" "model" [] Sample.st0
           sample_store_returns H).
Defined.

(** ** The order of the files under a budget *)

Lemma insert_by_HdRel {A} (key : A → Z) (x y : A) (l : list A) :
  HdRel (λ a b, key a ≤ key b) y l → key y ≤ key x →
  HdRel (λ a b, key a ≤ key b) y (Py.insert_by key x l).
Proof.
  intros Hl Hyx. destruct l as [|z l]; simpl; [now constructor|].
  destruct (key x <? key z); constructor; [exact Hyx|].
  now inversion Hl.
Qed.

Lemma insert_by_Sorted {A} (key : A → Z) (x : A) (l : list A) :
  Sorted (λ a b, key a ≤ key b) l →
  Sorted (λ a b, key a ≤ key b) (Py.insert_by key x l).
Proof.
  induction 1 as [|y l Hl IH Hhd]; simpl; [repeat constructor|].
  destruct (key x <? key y) eqn:E.
  - constructor; [now constructor|]. constructor. lia.
  - constructor; [exact IH|]. apply insert_by_HdRel; [exact Hhd | lia].
Qed.

Lemma sorted_by_Sorted {A} (key : A → Z) (l : list A) :
  Sorted (λ a b, key a ≤ key b) (Py.sorted_by key l).
Proof.
  unfold Py.sorted_by.
  enough (H : ∀ acc, Sorted (λ a b, key a ≤ key b) acc →
            Sorted (λ a b, key a ≤ key b)
              (fold_left (λ acc x, Py.insert_by key x acc) l acc))
    by (apply H; constructor).
  induction l as [|x l IH]; intros acc Hacc; [exact Hacc|].
  simpl. apply IH, insert_by_Sorted, Hacc.
Qed.

(** X20. Under a positive budget the file blocks of a commit follow its
    header in ascending order of patch length, one block for each file of
    the commit; without a budget they keep the order of the diff. *)
Theorem budget_orders_files_by_patch_length (budget total_tokens : Z)
    (commit_diffs : gmap string (list FileChange)) (c : Commit)
    (files : list FileChange) :
  0 < budget →
  commit_diffs !! default EmptyString (sha c) = Some files →
  (∃ ordered,
     compose_commit_text (Some budget) commit_diffs total_tokens c
     = (commit_header c +:+
        concat_str (map (budgeted_file_block budget total_tokens) ordered))%string
     ∧ ordered ≡ₚ files
     ∧ Sorted (λ f g, get_file_size f ≤ get_file_size g) ordered)
  ∧ compose_commit_text None commit_diffs total_tokens c
    = (commit_header c +:+ concat_str (map full_file_block files))%string.
Proof.
  intros Hb Hfiles. split.
  - exists (Py.sorted_by get_file_size files).
    split; [now apply compose_commit_text_budget|].
    split; [apply sorted_by_perm | apply sorted_by_Sorted].
  - rewrite compose_commit_text_no_budget by reflexivity.
    unfold full_commit_block. now rewrite Hfiles.
Qed.

Lemma budget_orders_files_by_patch_length_witness :
  0 < 100
  ∧ Sample.two_file_diffs !! default EmptyString (sha Sample.two_file_commit)
    = Some Sample.two_files
  ∧ ∃ ordered,
      compose_commit_text (Some 100) Sample.two_file_diffs 0
        Sample.two_file_commit
      = (commit_header Sample.two_file_commit +:+
         concat_str (map (budgeted_file_block 100 0) ordered))%string
      ∧ ordered ≡ₚ Sample.two_files.
Proof.
  assert (H1 : 0 < 100) by lia.
  assert (H2 : Sample.two_file_diffs
                 !! default EmptyString (sha Sample.two_file_commit)
               = Some Sample.two_files) by (vm_compute; reflexivity).
  split; [exact H1|]. split; [exact H2|].
  destruct (budget_orders_files_by_patch_length 100 0 Sample.two_file_diffs
              Sample.two_file_commit Sample.two_files H1 H2)
    as [(ordered & Htext & Hperm & _) _].
  exists ordered. split; [exact Htext | exact Hperm].
Defined.

(** * Tier selection *)

Section TierStrategy.

Context {World : Type}.
Variable isoformat_day : string → option string.
Variable call_llm :
  string → string → World → World * (exception + option RepositoryAnalysis).

(** The keys of the grouping are the days of the commits. *)
Lemma group_keys_are_days (commits : list Commit) (day : string) :
  day ∈ dict_keys (group_commits_by_day isoformat_day commits)
  ↔ ∃ c, c ∈ commits ∧ day_key isoformat_day c = day.
Proof.
  split.
  - intros H. apply group_get_key in H as [_ Hne].
    destruct (day_bucket isoformat_day commits day) as [|c b] eqn:E;
      [congruence|].
    assert (Hc : c ∈ day_bucket isoformat_day commits day)
      by (rewrite E; apply list_elem_of_here).
    apply list_elem_of_filter in Hc as [Hday Hc]. now exists c.
  - intros (c & Hc & Hday).
    assert (Hin : c ∈ day_bucket isoformat_day commits day)
      by (apply list_elem_of_filter; split; assumption).
    pose proof (group_from_get isoformat_day commits [] day) as Hget.
    simpl in Hget.
    fold (group_commits_by_day isoformat_day commits) in Hget.
    destruct (day_bucket isoformat_day commits day) as [|x b] eqn:E.
    + now apply not_elem_of_nil in Hin.
    + apply dict_get_elem_of in Hget. unfold dict_keys.
      apply list_elem_of_fmap. now exists (day, x :: b).
Qed.

Lemma day_entries_keys (commits : list Commit)
    (commit_diffs : gmap string (list FileChange)) :
  map (λ e : DayEntry, fst (fst e))
    (day_entries isoformat_day commits commit_diffs)
  = Py.sorted (dict_keys (group_commits_by_day isoformat_day commits)).
Proof. unfold day_entries. rewrite map_map. simpl. apply map_id. Qed.

(** The list of days is fixed by the commits alone: its keys are the
    days on which a commit falls, each once and in ascending order, the
    bucket of a day is the commits of that day in input order, with its
    own estimated size, and the buckets together hold every commit. *)
Lemma day_entries_spec (commits : list Commit)
    (commit_diffs : gmap string (list FileChange)) :
  let days := day_entries isoformat_day commits commit_diffs in
  let keys := map (λ e : DayEntry, fst (fst e)) days in
  StronglySorted String.le keys
  ∧ NoDup keys
  ∧ (∀ day, day ∈ keys ↔ ∃ c, c ∈ commits ∧ day_key isoformat_day c = day)
  ∧ (∀ day day_commits day_tokens, (day, day_commits, day_tokens) ∈ days →
       day_commits = filter (λ c, day_key isoformat_day c = day) commits
       ∧ day_commits ≠ []
       ∧ day_tokens
         = estimate_tokens (build_commit_context day_commits commit_diffs None))
  ∧ days_commits days ≡ₚ commits.
Proof.
  intros days keys. unfold keys, days. rewrite day_entries_keys.
  split; [apply Sorted_StronglySorted; [apply _ | apply sorted_Sorted]|].
  split; [rewrite sorted_perm; apply group_keys_NoDup|].
  split; [intros day; rewrite sorted_perm; apply group_keys_are_days|].
  split; [|apply day_entries_commits].
  intros day day_commits day_tokens Hin. unfold day_entries in Hin.
  apply list_elem_of_fmap in Hin as (k & Heq & Hk).
  unfold day_entry in Heq. injection Heq as -> -> ->.
  rewrite sorted_perm in Hk. apply group_get_key in Hk as [_ Hne].
  split; [reflexivity|]. split; [exact Hne | reflexivity].
Qed.

(** C3. Tier selection is a three-way split on the estimated size [T] of
    the unbudgeted blob of the whole commit set. Below 100,000 there is
    one batch and one Summarizer call, on the blob of every input commit;
    from 100,000 and below 700,000 the commits are grouped by day, the
    days packed, and there is one Summarizer call per packed batch; from
    700,000 the hybrid tier runs. The days are those on which a commit
    falls, each once and in ascending order of the key, the bucket of a
    day being its commits in input order; so in every tier the
    summarised batches hold every input commit exactly once, with one
    Summarizer call for each batch. *)
Theorem tier_selection_is_three_way (commits : list Commit)
    (commit_diffs : gmap string (list FileChange)) (repo_path : string)
    (repo_context : option RepoContext) (model_name : string)
    (st : State World) :
  summarizer_returns call_llm →
  let T := estimate_tokens (build_commit_context commits commit_diffs None) in
  let days := day_entries isoformat_day commits commit_diffs in
  let keys := map (λ e : DayEntry, fst (fst e)) days in
  let prompt_of budget b :=
    build_prompt repo_path (build_commit_context b commit_diffs (budget b))
      repo_context in
  (StronglySorted String.le keys
   ∧ NoDup keys
   ∧ (∀ day, day ∈ keys ↔ ∃ c, c ∈ commits ∧ day_key isoformat_day c = day)
   ∧ (∀ day day_commits day_tokens, (day, day_commits, day_tokens) ∈ days →
        day_commits = filter (λ c, day_key isoformat_day c = day) commits
        ∧ day_commits ≠ []
        ∧ day_tokens
          = estimate_tokens
              (build_commit_context day_commits commit_diffs None))
   ∧ days_commits days ≡ₚ commits)
  ∧ ∃ st' changes evs,
    yields (select_tier isoformat_day call_llm commits commit_diffs repo_path
              repo_context model_name) st (Build commits None :: evs) st' changes
    ∧ (T < 100000 ∨ 100000 ≤ T < 700000 ∨ 700000 ≤ T)
    ∧ (T < 100000 →
       evs = batch_events commit_diffs repo_path repo_context model_name
               commits None
       ∧ summarizer_prompts evs
         = [build_prompt repo_path
              (Py.join COMMIT_SEPARATOR
                 (map (full_commit_block commit_diffs) commits))
              repo_context])
    ∧ (100000 ≤ T < 700000 →
       evs = sizing_events days
             ++ flat_map (λ b, batch_events commit_diffs repo_path repo_context
                                 model_name b None) (pack days 90000)
       ∧ summarizer_prompts evs = map (prompt_of (λ _, None)) (pack days 90000)
       ∧ concat (pack days 90000) ≡ₚ commits)
    ∧ (700000 ≤ T →
       evs = sizing_events days
             ++ flat_map (large_day_events commit_diffs repo_path repo_context
                            model_name)
                  (filter (λ e, is_large e = true) days)
             ++ flat_map (λ b, batch_events commit_diffs repo_path repo_context
                                 model_name b None)
                  (pack (filter (λ e, is_large e = false) days) 90000)
       ∧ summarizer_prompts evs
         = map (prompt_of (λ b, Some (TIER_1_THRESHOLD `div` Py.len_list b)))
             (map (λ e : DayEntry, snd (fst e))
                (filter (λ e, is_large e = true) days))
           ++ map (prompt_of (λ _, None))
                (pack (filter (λ e, is_large e = false) days) 90000)
       ∧ days_commits (filter (λ e, is_large e = true) days)
         ++ concat (pack (filter (λ e, is_large e = false) days) 90000)
         ≡ₚ commits)
    ∧ concat (summarized_batches (Build commits None :: evs)) ≡ₚ commits
    ∧ length (summarizer_prompts evs)
      = length (summarized_batches (Build commits None :: evs)).
Proof.
  intros Hllm T days keys prompt_of.
  pose proof (day_entries_spec commits commit_diffs) as Hspec.
  cbv zeta in Hspec. fold days in Hspec. fold keys in Hspec.
  split; [exact Hspec|]. destruct Hspec as (_ & _ & _ & _ & Hdays).
  assert (Hsplit : T < 100000 ∨ 100000 ≤ T < 700000 ∨ 700000 ≤ T) by lia.
  assert (Hpacked : concat (pack days 90000) ≡ₚ commits).
  { unfold pack. rewrite pack_loop_concat. exact Hdays. }
  assert (Hhybrid : days_commits (filter (λ e, is_large e = true) days)
                    ++ concat (pack (filter (λ e, is_large e = false) days)
                                 90000)
                    ≡ₚ commits).
  { unfold pack. rewrite pack_loop_concat. unfold days_commits. simpl.
    rewrite <- concat_app, <- map_app. rewrite <- Hdays.
    apply concat_perm, Permutation_map, filter_large_split. }
  pose proof (yields_build (World := World) commits commit_diffs None st)
    as Hsize.
  set (st1 := {| world := world st; trace := trace st ++ [Build commits None] |})
    in Hsize.
  unfold select_tier. fold T in Hsize |- *.
  destruct (T <? TIER_1_THRESHOLD) eqn:E1;
    [|destruct (T <? TIER_2_THRESHOLD) eqn:E2];
    pose proof E1 as E1'; unfold TIER_1_THRESHOLD in E1';
    try (pose proof E2 as E2'; unfold TIER_2_THRESHOLD in E2').
  - destruct (process_batch_and_extend_yields call_llm commits commit_diffs []
                repo_path repo_context model_name None st1 Hllm)
      as (st2 & changes & H2).
    eexists st2, changes, _. split.
    { refine (yields_bind _ _ _ _ _ [_] _ _ _ Hsize _). cbv zeta.
      fold T. rewrite E1. exact H2. }
    split; [exact Hsplit|].
    split; [|split; [intros; lia|split; [intros; lia|]]].
    + intros _. split; [reflexivity|]. simpl.
      now rewrite build_commit_context_no_budget.
    + split; [simpl; now rewrite app_nil_r | reflexivity].
  - destruct (tier_2_yields isoformat_day call_llm commits commit_diffs []
                repo_path repo_context model_name st1 Hllm)
      as (st2 & changes & H2).
    eexists st2, changes, _. split.
    { refine (yields_bind _ _ _ _ _ [_] _ _ _ Hsize _). cbv zeta.
      fold T. rewrite E1, E2. exact H2. }
    fold days.
    assert (Hprompts :
              summarizer_prompts
                (sizing_events days
                 ++ flat_map (λ b, batch_events commit_diffs repo_path
                                     repo_context model_name b None)
                      (pack days 90000))
              = map (prompt_of (λ _, None)) (pack days 90000)).
    { rewrite summarizer_prompts_app, summarizer_prompts_sizing.
      apply (summarizer_prompts_batches _ _ _ _ (λ _, None)). }
    split; [exact Hsplit|].
    split; [intros; lia|split; [|split; [intros; lia|]]].
    + intros _. split; [reflexivity|]. split; [exact Hprompts | exact Hpacked].
    + rewrite Hprompts.
      rewrite summarized_batches_build
        by (apply no_summarize_head_app;
            [destruct days; exact I | apply batches_no_summarize_head]).
      rewrite summarized_batches_sizing by apply batches_no_summarize_head.
      rewrite <- (app_nil_r (flat_map _ _)), summarized_batches_batches.
      simpl summarized_batches. rewrite !app_nil_r.
      split; [exact Hpacked | apply length_map].
  - destruct (tier_3_yields isoformat_day call_llm commits commit_diffs []
                repo_path repo_context model_name st1 Hllm)
      as (st2 & changes & H2).
    eexists st2, changes, _. split.
    { refine (yields_bind _ _ _ _ _ [_] _ _ _ Hsize _). cbv zeta.
      fold T. rewrite E1, E2. exact H2. }
    fold days.
    set (large := filter (λ e, is_large e = true) days) in *.
    set (small := filter (λ e, is_large e = false) days) in *.
    assert (Hprompts :
              summarizer_prompts
                (sizing_events days
                 ++ flat_map (large_day_events commit_diffs repo_path
                                repo_context model_name) large
                 ++ flat_map (λ b, batch_events commit_diffs repo_path
                                     repo_context model_name b None)
                      (pack small 90000))
              = map (prompt_of (λ b, Some (TIER_1_THRESHOLD `div` Py.len_list b)))
                  (map (λ e : DayEntry, snd (fst e)) large)
                ++ map (prompt_of (λ _, None)) (pack small 90000)).
    { rewrite !summarizer_prompts_app, summarizer_prompts_sizing.
      rewrite (summarizer_prompts_batches _ _ _ _ (λ _, None)).
      simpl app. f_equal.
      generalize large. intros l.
      induction l as [|e l IH]; [reflexivity|]. simpl. f_equal. exact IH. }
    split; [exact Hsplit|].
    split; [intros; lia|split; [intros; lia|split]].
    + intros _. split; [reflexivity|]. split; [exact Hprompts | exact Hhybrid].
    + rewrite Hprompts.
      rewrite summarized_batches_build
        by (apply no_summarize_head_app;
            [destruct days; exact I
            | apply no_summarize_head_app;
              [apply large_days_no_summarize_head
              | apply batches_no_summarize_head]]).
      rewrite summarized_batches_sizing
        by (apply no_summarize_head_app;
            [apply large_days_no_summarize_head
            | apply batches_no_summarize_head]).
      rewrite summarized_batches_large_days.
      rewrite <- (app_nil_r (flat_map _ (pack _ _))), summarized_batches_batches.
      simpl summarized_batches. rewrite !app_nil_r.
      split; [rewrite concat_app; exact Hhybrid|].
      now rewrite !length_app, !length_map.
Qed.

End TierStrategy.

(** The three tiers on the sample repositories: two small commits are
    one batch; three days of 60,000 each are three batches, one per day;
    and the five days of [Sample.hybrid_repo] give two budgeted calls
    for the large days and three batches for the small ones. *)
Lemma tier_selection_is_three_way_witness :
  summarizer_returns Sample.call_llm
  ∧ (∃ st' changes evs,
       yields (select_tier Sample.isoformat_day Sample.call_llm
                 Sample.small_repo ∅ "org/ok" None "model")
         Sample.st0 (Build Sample.small_repo None :: evs) st' changes
       ∧ summarizer_prompts evs
         = [build_prompt "org/ok"
              (Py.join COMMIT_SEPARATOR
                 (map (full_commit_block ∅) Sample.small_repo)) None])
  ∧ (∃ st' changes evs,
       yields (select_tier Sample.isoformat_day Sample.call_llm
                 Sample.three_day_repo ∅ "org/ok" None "model")
         Sample.st0 (Build Sample.three_day_repo None :: evs) st' changes
       ∧ estimate_tokens (build_commit_context Sample.three_day_repo ∅ None)
         = 180003
       ∧ length (summarizer_prompts evs) = 3%nat
       ∧ map (map sha)
           (summarized_batches (Build Sample.three_day_repo None :: evs))
         = [[Some "e100001"]; [Some "e200001"]; [Some "e300001"]]%string
       ∧ concat (summarized_batches (Build Sample.three_day_repo None :: evs))
         ≡ₚ Sample.three_day_repo)
  ∧ (∃ st' changes evs,
       yields (select_tier Sample.isoformat_day Sample.call_llm
                 Sample.hybrid_repo ∅ "org/ok" None "model")
         Sample.st0 (Build Sample.hybrid_repo None :: evs) st' changes
       ∧ estimate_tokens (build_commit_context Sample.hybrid_repo ∅ None)
         = 770006
       ∧ length (summarizer_prompts evs) = 5%nat
       ∧ map (λ b : list Commit * Z, (Py.len_list (fst b), snd b))
           (budgeted_builds evs)
         = [(10, 10000); (1, 100000)]
       ∧ map Py.len_list
           (summarized_batches (Build Sample.hybrid_repo None :: evs))
         = [10; 1; 1; 1; 1]
       ∧ concat (summarized_batches (Build Sample.hybrid_repo None :: evs))
         ≡ₚ Sample.hybrid_repo).
Proof.
  split; [exact sample_summarizer_returns|]. split; [|split].
  - pose proof (tier_selection_is_three_way Sample.isoformat_day
                  Sample.call_llm Sample.small_repo ∅ "org/ok" None "model"
                  Sample.st0 sample_summarizer_returns) as H.
    cbv zeta in H.
    destruct H as (_ & st' & changes & evs & Hy & _ & Htier1 & _).
    exists st', changes, evs. split; [exact Hy|].
    apply Htier1. vm_compute. reflexivity.
  - assert (HT : estimate_tokens
                   (build_commit_context Sample.three_day_repo ∅ None)
                 = 180003) by (vm_compute; reflexivity).
    pose proof (tier_selection_is_three_way Sample.isoformat_day
                  Sample.call_llm Sample.three_day_repo ∅ "org/ok" None "model"
                  Sample.st0 sample_summarizer_returns) as H.
    cbv zeta in H.
    destruct H as (_ & st' & changes & evs & Hy & _ & _ & Htier2 & _ & Hall & _).
    exists st', changes, evs. split; [exact Hy|]. split; [exact HT|].
    destruct Htier2 as (Hevs & Hprompts & _); [rewrite HT; lia|].
    split; [rewrite Hprompts, length_map; vm_compute; reflexivity|].
    split; [rewrite Hevs; vm_compute; reflexivity | exact Hall].
  - assert (HT : estimate_tokens
                   (build_commit_context Sample.hybrid_repo ∅ None)
                 = 770006) by (vm_compute; reflexivity).
    pose proof (tier_selection_is_three_way Sample.isoformat_day
                  Sample.call_llm Sample.hybrid_repo ∅ "org/ok" None "model"
                  Sample.st0 sample_summarizer_returns) as H.
    cbv zeta in H.
    destruct H as (_ & st' & changes & evs & Hy & _ & _ & _ & Htier3 & Hall & _).
    exists st', changes, evs. split; [exact Hy|]. split; [exact HT|].
    destruct Htier3 as (Hevs & Hprompts & _); [rewrite HT; lia|].
    split; [rewrite Hprompts, length_app, !length_map; vm_compute; reflexivity|].
    split; [rewrite Hevs; vm_compute; reflexivity|].
    split; [rewrite Hevs; vm_compute; reflexivity | exact Hall].
Defined.
